(** * FreeBSD jail sandbox: a shallow embedding of
      [src/sandbox/freebsd-sandbox-utils.ts]

    The TypeScript module builds shell command strings and touches the host
    through Node's [fs], [child_process] and [crypto] modules.  Here every
    function of the module is a Rocq function:

    - strings are [string], arrays are [list], [Array.join] is
      [String.concat], [push] appends at the back and [unshift] at the front;
    - the host file system is a finite map from path strings to nodes, and the
      functions that touch it live in a state-and-exception monad [M];
    - collaborators that are imported from other modules ([path.join],
      [normalizePathForSandbox], [shellquote.quote], ...) are the fields of
      the class [Host], so every theorem holds for any implementation of
      them. *)

From Stdlib Require Import ZArith String Ascii List Lia Permutation.
From stdpp Require Import base option list gmap strings pretty.

Local Open Scope Z_scope.

(** ** The dependency probe and its process-wide cache *)

Module Deps.

(** [spawnSync(...).status] is a number, or [null] when the child was killed
    by a signal or timed out. *)
Definition Status := option Z.

(** What the three [spawnSync('which', ...)] calls do when the probe is
    run: they throw, or they yield the statuses of [jail], [socat], [rg]. *)
Inductive Probe :=
| ProbeThrows
| ProbeStatuses (jailResult socatResult rgResult : Status).

(** [status === 0] *)
Definition status_is_zero (s : Status) : bool :=
  match s with
  | Some z => z =? 0
  | None => false
  end.

(** The module-level [let freebsdDepsCache: boolean | undefined]. *)
Definition Cache := option bool.

Definition freebsdDepsCache_init : Cache := None.

(** [hasFreeBSDSandboxDependenciesSync]: the result and the cache left
    behind.  [probe] is what the host answers if it is asked now. *)
Definition hasFreeBSDSandboxDependenciesSync (probe : Probe) (cache : Cache)
  : bool * Cache :=
  match cache with
  | Some b => (b, cache)
  | None =>
      match probe with
      | ProbeStatuses jailResult socatResult rgResult =>
          let v := status_is_zero jailResult
                   && status_is_zero socatResult
                   && status_is_zero rgResult in
          (v, Some v)
      | ProbeThrows => (false, Some false)
      end
  end.

(** A process lifetime: the cache starts undefined and the function is
    called once per element of [probes], each call seeing the tool
    availability of its own moment.  Returns the results in call order. *)
Fixpoint calls (probes : list Probe) (cache : Cache) : list bool :=
  match probes with
  | [] => []
  | p :: rest =>
      let '(b, cache') := hasFreeBSDSandboxDependenciesSync p cache in
      b :: calls rest cache'
  end.

Definition lifetime (probes : list Probe) : list bool :=
  calls probes freebsdDepsCache_init.

End Deps.

(** ** The host: collaborators and the file system *)

(** A node of the host file system.  A file carries its content, so that
    [writeFileSync(p, '')] can be told apart from any other write. *)
Inductive Node :=
| Dir
| File (content : string).

Definition is_dir (n : Node) : bool :=
  match n with
  | Dir => true
  | File _ => false
  end.

(** The state the module's functions read and write: the file system, and
    how many [randomBytes] draws have been made so far. *)
Record World := mkWorld {
  fs : gmap string Node;
  draws : nat
}.

(** Everything the module imports and does not define itself. *)
Class Host := {
  (** [join] of [node:path] *)
  join : string -> string -> string;
  (** the proper ancestor directories of a path, as [mkdirSync] with
      [recursive: true] walks them *)
  ancestors : string -> list string;
  (** [tmpdir()] of [node:os] *)
  tmpdir : string;
  (** [process.cwd()] *)
  cwd : string;
  (** [randomBytes(8).toString('hex')], by draw number *)
  randomHex : nat -> string;
  (** [normalizePathForSandbox] of [./sandbox-utils.js] *)
  normalizePathForSandbox : string -> string;
  (** what [getMandatoryDenyWithinAllow()] of [./sandbox-utils.js] resolves to *)
  getMandatoryDenyWithinAllow : list string;
  (** [generateProxyEnvVars] of [./sandbox-utils.js] *)
  generateProxyEnvVars : Z -> Z -> list string;
  (** [shellquote.quote] of the [shell-quote] package *)
  shellquote_quote : list string -> string
}.

(** ** The monad: state and exceptions

    A computation either returns a value or throws a JavaScript [Error] with
    a message; both leave a world behind. *)

Inductive Result (A : Type) :=
| Ok (a : A) (w : World)
| Throw (msg : string) (w : World).
Arguments Ok {A} a w.
Arguments Throw {A} msg w.

Definition M (A : Type) := World -> Result A.

Definition ret {A} (a : A) : M A := fun w => Ok a w.

Definition bind {A B} (m : M A) (k : A -> M B) : M B :=
  fun w =>
    match m w with
    | Ok a w' => k a w'
    | Throw msg w' => Throw msg w'
    end.

Definition throw {A} (msg : string) : M A := fun w => Throw msg w.

Notation "'let!' x ':=' m 'in' k" := (bind m (fun x => k))
  (at level 10, x name, m at level 100, k at level 200).
Notation "'let!' ' pat ':=' m 'in' k" := (bind m (fun x => let 'pat := x in k))
  (at level 10, pat pattern, m at level 100, k at level 200).
Notation "'run!' m 'in' k" := (bind m (fun _ => k))
  (at level 10, m at level 100, k at level 200).

(** [for (const x of l) { body }] over a loop-carried state; a [continue]
    is a body that returns the state unchanged. *)
Fixpoint forEach {A S} (l : list A) (body : A -> S -> M S) (s : S) : M S :=
  match l with
  | [] => ret s
  | x :: rest => let! s' := body x s in forEach rest body s'
  end.

(** *** [fs] *)

(** [fs.existsSync(p)] *)
Definition existsSync (p : string) : M bool :=
  fun w => Ok (bool_decide (is_Some (fs w !! p))) w.

(** [fs.statSync(p).isDirectory()]; [statSync] throws on a missing path. *)
Definition statSync_isDirectory (p : string) : M bool :=
  fun w =>
    match fs w !! p with
    | Some n => Ok (is_dir n) w
    | None => Throw "ENOENT" w
    end.

(** Creating one directory of a recursive [mkdirSync]: an existing directory
    is left alone, a file in the way is an error. *)
Definition mkdir_one (p : string) (f : gmap string Node) : option (gmap string Node) :=
  match f !! p with
  | Some Dir => Some f
  | Some (File _) => None
  | None => Some (<[p := Dir]> f)
  end.

Fixpoint mkdir_all (ps : list string) (f : gmap string Node) : option (gmap string Node) :=
  match ps with
  | [] => Some f
  | p :: rest =>
      match mkdir_one p f with
      | Some f' => mkdir_all rest f'
      | None => None
      end
  end.

(** [fs.mkdirSync(p, { recursive: true })] *)
Definition mkdirSync_recursive `{Host} (p : string) : M unit :=
  fun w =>
    match mkdir_all (ancestors p ++ [p]) (fs w) with
    | Some f' => Ok tt (mkWorld f' (draws w))
    | None => Throw "ENOTDIR" w
    end.

(** [fs.writeFileSync(p, content)]: creates or truncates a file; a directory
    at [p] is an error. *)
Definition writeFileSync (p content : string) : M unit :=
  fun w =>
    match fs w !! p with
    | Some Dir => Throw "EISDIR" w
    | _ => Ok tt (mkWorld (<[p := File content]> (fs w)) (draws w))
    end.

(** [randomBytes(8).toString('hex')] *)
Definition randomBytes_hex `{Host} : M string :=
  fun w => Ok (randomHex (draws w)) (mkWorld (fs w) (S (draws w))).

(** The recurring [if (!fs.existsSync(d)) { fs.mkdirSync(d, { recursive: true }) }]. *)
Definition ensureDir `{Host} (d : string) : M unit :=
  let! e := existsSync d in
  if negb e then mkdirSync_recursive d else ret tt.

(** ** Strings the module builds *)

Definition dquote : string := String (ascii_of_nat 34) EmptyString.
Definition newline : string := String (ascii_of_nat 10) EmptyString.

(** [s.replace(/'/g, "'\\''")]: every single quote becomes the four
    characters quote, backslash, quote, quote. *)
Fixpoint escape_single_quotes (s : string) : string :=
  match s with
  | EmptyString => EmptyString
  | String c rest =>
      if Ascii.eqb c "'"%char
      then "'\''" +:+ escape_single_quotes rest
      else String c (escape_single_quotes rest)
  end.

(** A JavaScript string is falsy when it is [undefined] or empty. *)
Definition truthy (s : option string) : option string :=
  match s with
  | Some EmptyString => None
  | _ => s
  end.

(** ** The Mount Planner: [generateJailFilesystemConfig] *)

(** The two arrays the planner fills, [mounts] and [unmounts]. *)
Record MountLists := mkLists {
  mounts : list string;
  unmounts : list string
}.

(** [mounts.push(m)], [unmounts.push(u)], [unmounts.unshift(u)] *)
Definition push_mounts (m : string) (acc : MountLists) : MountLists :=
  mkLists (mounts acc ++ [m]) (unmounts acc).
Definition push_unmounts (u : string) (acc : MountLists) : MountLists :=
  mkLists (mounts acc) (unmounts acc ++ [u]).
Definition unshift_unmounts (u : string) (acc : MountLists) : MountLists :=
  mkLists (mounts acc) (u :: unmounts acc).

(** The policy objects of [./sandbox-schemas.js]; a field the code guards
    with [|| []] or [?.] may be missing. *)
Record FsReadRestrictionConfig := {
  denyOnly : option (list string)
}.
Record FsWriteRestrictionConfig := {
  allowOnly : option (list string);
  denyWithinAllow : option (list string)
}.

Inductive Mode := rw | ro.

Record EssentialMount := {
  src : string;
  dst : string;
  mode : Mode
}.

Definition essentialDirs : list string :=
  ["/dev"; "/tmp"; "/var/tmp"; "/etc"; "/usr"; "/bin"].

Definition essentialMounts `{Host} (jailPath : string) : list EssentialMount :=
  [ {| src := "/dev"; dst := join jailPath "dev"; mode := rw |};
    {| src := "/usr"; dst := join jailPath "usr"; mode := ro |};
    {| src := "/bin"; dst := join jailPath "bin"; mode := ro |};
    {| src := "/lib"; dst := join jailPath "lib"; mode := ro |};
    {| src := "/libexec"; dst := join jailPath "libexec"; mode := ro |};
    {| src := "/etc"; dst := join jailPath "etc"; mode := ro |} ].

(** The command strings, as the template literals spell them. *)
Definition essential_mount_cmd (m : EssentialMount) : string :=
  "mount_nullfs " +:+ (match mode m with ro => "-o ro" | rw => "" end)
    +:+ " " +:+ src m +:+ " " +:+ dst m.
Definition rw_bind_cmd (source target : string) : string :=
  "mount_nullfs " +:+ source +:+ " " +:+ target.
Definition ro_bind_cmd (source target : string) : string :=
  "mount_nullfs -o ro " +:+ source +:+ " " +:+ target.
Definition tmpfs_cmd (target : string) : string :=
  "mount -t tmpfs tmpfs " +:+ target.
Definition umount_cmd (target : string) : string :=
  "umount " +:+ target.

(** Body of the [essentialDirs] loop. *)
Definition essentialDir_body `{Host} (jailPath dir : string) (u : unit) : M unit :=
  ensureDir (join jailPath dir).

(** Body of the [essentialMounts] loop. *)
Definition essentialMount_body `{Host} (mount : EssentialMount) (acc : MountLists)
  : M MountLists :=
  let! e := existsSync (src mount) in
  if negb e then ret acc else
  let dstDir := dst mount in
  run! ensureDir dstDir in
  ret (push_unmounts (umount_cmd (dst mount))
         (push_mounts (essential_mount_cmd mount) acc)).

(** The directory that must exist for a mount point: the mount point itself
    for a directory, its parent for a file. *)
Definition jailMountDir_of `{Host} (normalizedPath jailMountPoint : string) : M string :=
  let! d := statSync_isDirectory normalizedPath in
  ret (if d then jailMountPoint else join jailMountPoint "..").

(** Body of the loop over [writeConfig.allowOnly || []]. *)
Definition allow_body `{Host} (jailPath pathPattern : string) (acc : MountLists)
  : M MountLists :=
  let normalizedPath := normalizePathForSandbox pathPattern in
  if String.prefix "/dev/" normalizedPath then ret acc else
  let! e := existsSync normalizedPath in
  if negb e then ret acc else
  let jailMountPoint := join jailPath normalizedPath in
  let! jailMountDir := jailMountDir_of normalizedPath jailMountPoint in
  run! ensureDir jailMountDir in
  ret (push_unmounts (umount_cmd jailMountPoint)
         (push_mounts (rw_bind_cmd normalizedPath jailMountPoint) acc)).

(** Body of the loop over [denyPaths]. *)
Definition deny_body `{Host} (jailPath pathPattern : string) (acc : MountLists)
  : M MountLists :=
  let normalizedPath := normalizePathForSandbox pathPattern in
  if String.prefix "/dev/" normalizedPath then ret acc else
  let! e := existsSync normalizedPath in
  if negb e then ret acc else
  let jailMountPoint := join jailPath normalizedPath in
  let! jailMountDir := jailMountDir_of normalizedPath jailMountPoint in
  run! ensureDir jailMountDir in
  ret (push_unmounts (umount_cmd jailMountPoint)
         (push_mounts (ro_bind_cmd normalizedPath jailMountPoint) acc)).

(** [denyPaths]: the policy's own list, then the mandatory one. *)
Definition denyPaths `{Host} (writeConfig : FsWriteRestrictionConfig) : list string :=
  default [] (denyWithinAllow writeConfig) ++ getMandatoryDenyWithinAllow.

(** The [if (writeConfig) ... else ...] block. *)
Definition write_phase `{Host} (jailPath : string)
    (writeConfig : option FsWriteRestrictionConfig) (acc : MountLists) : M MountLists :=
  match writeConfig with
  | Some wc =>
      let! acc := forEach (default [] (allowOnly wc)) (allow_body jailPath) acc in
      forEach (denyPaths wc) (deny_body jailPath) acc
  | None =>
      let cwdJail := join jailPath cwd in
      run! ensureDir cwdJail in
      ret (push_unmounts (umount_cmd cwdJail)
             (push_mounts (rw_bind_cmd cwd cwdJail) acc))
  end.

(** Body of the loop over [readConfig.denyOnly]. *)
Definition hide_body `{Host} (jailPath pathPattern : string) (acc : MountLists)
  : M MountLists :=
  let normalizedPath := normalizePathForSandbox pathPattern in
  let! e := existsSync normalizedPath in
  if negb e then ret acc else
  let jailMountPoint := join jailPath normalizedPath in
  let! jailMountDir := jailMountDir_of normalizedPath jailMountPoint in
  run! ensureDir jailMountDir in
  let! stat_isDirectory := statSync_isDirectory normalizedPath in
  if stat_isDirectory then
    ret (push_unmounts (umount_cmd jailMountPoint)
           (push_mounts (tmpfs_cmd jailMountPoint) acc))
  else
    let! h := randomBytes_hex in
    let emptyFile := join tmpdir ("empty-" +:+ h) in
    run! writeFileSync emptyFile "" in
    ret (push_unmounts (umount_cmd jailMountPoint)
           (push_mounts (ro_bind_cmd emptyFile jailMountPoint) acc)).

(** The [if (readConfig?.denyOnly)] block. *)
Definition read_phase `{Host} (jailPath : string)
    (readConfig : option FsReadRestrictionConfig) (acc : MountLists) : M MountLists :=
  match readConfig with
  | Some rc =>
      match denyOnly rc with
      | Some paths => forEach paths (hide_body jailPath) acc
      | None => ret acc
      end
  | None => ret acc
  end.

Definition generateJailFilesystemConfig `{Host} (jailPath : string)
    (readConfig : option FsReadRestrictionConfig)
    (writeConfig : option FsWriteRestrictionConfig) : M MountLists :=
  let acc := mkLists [] [] in
  run! forEach essentialDirs (essentialDir_body jailPath) tt in
  let! acc := forEach (essentialMounts jailPath) essentialMount_body acc in
  let! acc := write_phase jailPath writeConfig acc in
  read_phase jailPath readConfig acc.

(** ** The Jail Command Builder: [buildJailCommand] *)

Definition buildJailCommand `{Host} (httpSocketPath socksSocketPath userCommand : string)
  : string :=
  let innerScript :=
    String.concat newline
      [ "socat TCP-LISTEN:3128,fork,reuseaddr UNIX-CONNECT:" +:+ httpSocketPath
          +:+ " >/dev/null 2>&1 &";
        "socat TCP-LISTEN:1080,fork,reuseaddr UNIX-CONNECT:" +:+ socksSocketPath
          +:+ " >/dev/null 2>&1 &";
        "trap " +:+ dquote +:+ "kill %1 %2 2>/dev/null; exit" +:+ dquote +:+ " EXIT";
        "eval " +:+ shellquote_quote [userCommand] ] in
  "sh -c " +:+ shellquote_quote [innerScript].

(** ** The Sandbox Orchestrator: [wrapCommandWithSandboxFreeBSD] *)

Record FreeBSDSandboxParams := {
  command : string;
  hasNetworkRestrictions : bool;
  hasFilesystemRestrictions : bool;
  httpSocketPath : option string;
  socksSocketPath : option string;
  httpProxyPort : option Z;
  socksProxyPort : option Z;
  readConfig : option FsReadRestrictionConfig;
  writeConfig : option FsWriteRestrictionConfig
}.

(** The message of the error thrown when network sandboxing is requested
    without bridge socket paths. *)
Definition MissingBridgeConfig : string :=
  "FreeBSD network sandboxing was requested but bridge socket paths are not available".

(** One element of [proxyEnv] turned into a jail argument:
    [firstEq = env.indexOf('=')], [key = env.slice(0, firstEq)],
    [value = env.slice(firstEq + 1)].  Without an equals sign [firstEq] is
    [-1]: the key drops the last character and the value is the whole string. *)
Definition env_arg (env : string) : string :=
  match String.index 0 "=" env with
  | Some firstEq =>
      "env." +:+ String.substring 0 firstEq env +:+ "="
        +:+ String.substring (firstEq + 1) (String.length env - (firstEq + 1)) env
  | None =>
      "env." +:+ String.substring 0 (String.length env - 1) env +:+ "=" +:+ env
  end.

(** The four lines that bind the bridge sockets into the jail: two
    [mounts.push] followed by two [unmounts.unshift]. *)
Definition bind_sockets `{Host} (jailPath httpSocketPath socksSocketPath : string)
    (acc : MountLists) : MountLists :=
  let httpSocketJail := join jailPath httpSocketPath in
  let socksSocketJail := join jailPath socksSocketPath in
  let acc := push_mounts (rw_bind_cmd httpSocketPath httpSocketJail) acc in
  let acc := push_mounts (rw_bind_cmd socksSocketPath socksSocketJail) acc in
  let acc := unshift_unmounts (umount_cmd httpSocketJail) acc in
  unshift_unmounts (umount_cmd socksSocketJail) acc.

(** The [if (hasNetworkRestrictions) ... else ...] block: extends the jail
    arguments and, for a restricted network, binds the two bridge sockets. *)
Definition network_configuration `{Host} (params : FreeBSDSandboxParams)
    (jailPath : string) (jailArgs : list string) (acc : MountLists)
  : M (list string * MountLists) :=
  if hasNetworkRestrictions params then
    match truthy (httpSocketPath params), truthy (socksSocketPath params) with
    | Some httpSocketPath, Some socksSocketPath =>
        let jailArgs := jailArgs ++ ["vnet"; "allow.raw_sockets=1"] in
        let httpSocketJail := join jailPath httpSocketPath in
        let socksSocketJail := join jailPath socksSocketPath in
        let httpSocketDir := join httpSocketJail ".." in
        let socksSocketDir := join socksSocketJail ".." in
        run! ensureDir httpSocketDir in
        run! ensureDir socksSocketDir in
        ret (jailArgs, bind_sockets jailPath httpSocketPath socksSocketPath acc)
    | _, _ => throw MissingBridgeConfig
    end
  else
    ret (jailArgs ++ ["ip4=inherit"; "ip6=inherit"], acc).

(** The command run inside the jail, and the [env.] arguments that go with it. *)
Definition jail_command `{Host} (params : FreeBSDSandboxParams) : string * list string :=
  match hasNetworkRestrictions params,
        truthy (httpSocketPath params), truthy (socksSocketPath params) with
  | true, Some httpSocketPath, Some socksSocketPath =>
      (buildJailCommand httpSocketPath socksSocketPath (command params),
       map env_arg (generateProxyEnvVars 3128 1080))
  | _, _, _ => (command params, [])
  end.

(** The pieces of the wrapper script. *)
Definition capture_cmd : string := "EXIT_CODE=$?".
Definition exit_cmd : string := "exit $EXIT_CODE".
Definition rm_cmd (jailPath : string) : string := "rm -rf " +:+ jailPath.

(** [wrapperScript]: the six pieces joined by [' && '], where the first is
    the mounts joined by [' && '] and the fourth the unmounts joined by ['; ']. *)
Definition wrapperScript (acc : MountLists) (jailCmd jailPath : string) : string :=
  let setupScript := String.concat " && " (mounts acc) in
  let cleanupScript := String.concat "; " (unmounts acc) in
  String.concat " && "
    [ setupScript; jailCmd; capture_cmd; cleanupScript; rm_cmd jailPath; exit_cmd ].

(** The first steps after the identity case: a fresh jail name, the jail
    root under the temporary directory, and the mount plan. *)
Definition jail_setup `{Host} (params : FreeBSDSandboxParams)
  : M (string * string * MountLists) :=
  let! h := randomBytes_hex in
  let jailName := "sbx_" +:+ h in
  let jailPath := join tmpdir jailName in
  run! ensureDir jailPath in
  let! acc := generateJailFilesystemConfig jailPath (readConfig params) (writeConfig params) in
  ret (jailName, jailPath, acc).

(** Everything between the identity case and the final script: jail identity,
    mount plan, jail arguments.  Returns the lists, the quoted jail
    invocation and the jail root. *)
Definition assemble `{Host} (params : FreeBSDSandboxParams)
  : M (MountLists * string * string) :=
  let! '(jailName, jailPath, acc) := jail_setup params in
  let jailArgs :=
    ["-c"; "name=" +:+ jailName; "path=" +:+ jailPath; "host.hostname=" +:+ jailName] in
  let! '(jailArgs, acc) := network_configuration params jailPath jailArgs acc in
  let jailArgs :=
    jailArgs ++ ["persist=0"; "allow.mount=0"; "allow.set_hostname=0"; "allow.sysvipc=0"] in
  let '(jailCommand, envArgs) := jail_command params in
  let jailArgs := jailArgs ++ envArgs in
  let jailArgs :=
    jailArgs ++ ["command=sh -c '" +:+ escape_single_quotes jailCommand +:+ "'"] in
  let jailCmd := shellquote_quote ("jail" :: jailArgs) in
  ret (acc, jailCmd, jailPath).

Definition wrapCommandWithSandboxFreeBSD `{Host} (params : FreeBSDSandboxParams)
  : M string :=
  if negb (hasNetworkRestrictions params) && negb (hasFilesystemRestrictions params)
  then ret (command params)
  else
    let! '(acc, jailCmd, jailPath) := assemble params in
    let wrappedCommand := "sh -c " +:+ shellquote_quote [wrapperScript acc jailCmd jailPath] in
    ret wrappedCommand.

(** ** The Bridge Initializer: [initializeFreeBSDNetworkBridge] *)

Module Bridge.

(** What the asynchronous function sees of the outside world.  The process
    identifiers are fixed by [spawn]; the [killed] flags of the two handles
    and the existence of files are read afresh on every polling attempt. *)
Record Timeline := {
  socketId : string;
  httpPid : option Z;
  socksPid : option Z;
  httpKilled : nat -> bool;
  socksKilled : nat -> bool;
  fileExists : nat -> string -> bool
}.

(** What the function does to the outside world, in order. *)
Inductive Event :=
| Spawn (program : string) (args : list string)
| CheckAlive (attempt : nat)
| ExistsSync (attempt : nat) (path : string)
| Kill (pid : Z) (signal : string)
| Sleep (ms : Z).

Record FreeBSDNetworkBridgeContext := {
  ctx_httpSocketPath : string;
  ctx_socksSocketPath : string;
  ctx_httpBridgePid : option Z;
  ctx_socksBridgePid : option Z;
  ctx_httpProxyPort : Z;
  ctx_socksProxyPort : Z
}.

Inductive Outcome :=
| Resolved (ctx : FreeBSDNetworkBridgeContext)
| Rejected (msg : string).

(** A process identifier is truthy when it is defined and not zero. *)
Definition pid_truthy (p : option Z) : bool :=
  match p with
  | Some z => negb (z =? 0)
  | None => false
  end.

(** [if (proc.pid) { try { process.kill(proc.pid, 'SIGTERM') } catch {} }] *)
Definition try_kill (p : option Z) : list Event :=
  match p with
  | Some z => if pid_truthy p then [Kill z "SIGTERM"] else []
  | None => []
  end.

Definition maxAttempts : nat := 5.

Definition BridgeProcessDied : string := "FreeBSD bridge process died unexpectedly".
Definition BridgeNotReady : string :=
  "Failed to create bridge sockets after " +:+ pretty maxAttempts +:+ " attempts".

(** The first condition of the loop body. *)
Definition died (tl : Timeline) (i : nat) : bool :=
  negb (pid_truthy (httpPid tl)) || httpKilled tl i
  || negb (pid_truthy (socksPid tl)) || socksKilled tl i.

(** [fs.existsSync(httpSocketPath) && fs.existsSync(socksSocketPath)], with
    the second check made only when the first succeeds. *)
Definition sockets_ready (tl : Timeline) (i : nat) (httpSocketPath socksSocketPath : string)
  : list Event * bool :=
  if fileExists tl i httpSocketPath
  then ([ExistsSync i httpSocketPath; ExistsSync i socksSocketPath],
        fileExists tl i socksSocketPath)
  else ([ExistsSync i httpSocketPath], false).

(** The [for (let i = 0; i < maxAttempts; i++)] loop from attempt [i] on,
    with [remaining = maxAttempts - i].  [None] means the loop was left
    without an exception. *)
Fixpoint poll (tl : Timeline) (httpSocketPath socksSocketPath : string)
    (remaining i : nat) : list Event * option string :=
  match remaining with
  | O => ([], None)
  | S remaining' =>
      if died tl i then ([CheckAlive i], Some BridgeProcessDied)
      else
        let '(checks, ready) := sockets_ready tl i httpSocketPath socksSocketPath in
        if ready then (CheckAlive i :: checks, None)
        else if (i =? maxAttempts - 1)%nat then
          (CheckAlive i :: checks ++ try_kill (httpPid tl) ++ try_kill (socksPid tl),
           Some BridgeNotReady)
        else
          let '(later, r) := poll tl httpSocketPath socksSocketPath remaining' (S i) in
          (CheckAlive i :: checks ++ Sleep (Z.of_nat i * 100) :: later, r)
  end.

(** What one attempt that finds the bridges alive does before it decides:
    the liveness check, then the socket checks. *)
Definition attempt_checks (tl : Timeline) (httpSocketPath socksSocketPath : string)
    (i : nat) : list Event :=
  CheckAlive i :: fst (sockets_ready tl i httpSocketPath socksSocketPath).

(** An attempt that ends in the timer [setTimeout(resolve, i * 100)]. *)
Definition waiting (tl : Timeline) (httpSocketPath socksSocketPath : string)
    (i : nat) : list Event :=
  attempt_checks tl httpSocketPath socksSocketPath i ++ [Sleep (Z.of_nat i * 100)].

Definition socat_args (socketPath : string) (port : Z) : list string :=
  [ "UNIX-LISTEN:" +:+ socketPath +:+ ",fork,reuseaddr";
    "TCP:localhost:" +:+ pretty port +:+ ",keepalive,keepidle=10,keepintvl=5,keepcnt=3" ].

(** The two socket paths under the temporary directory. *)
Definition http_socket_path `{Host} (tl : Timeline) : string :=
  join tmpdir ("claude-http-" +:+ socketId tl +:+ ".sock").
Definition socks_socket_path `{Host} (tl : Timeline) : string :=
  join tmpdir ("claude-socks-" +:+ socketId tl +:+ ".sock").

Definition initializeFreeBSDNetworkBridge `{Host} (httpProxyPort socksProxyPort : Z)
    (tl : Timeline) : list Event * Outcome :=
  let httpSocketPath := http_socket_path tl in
  let socksSocketPath := socks_socket_path tl in
  let spawnHttp := Spawn "socat" (socat_args httpSocketPath httpProxyPort) in
  if negb (pid_truthy (httpPid tl)) then
    ([spawnHttp], Rejected "Failed to start HTTP bridge process")
  else
    let spawnSocks := Spawn "socat" (socat_args socksSocketPath socksProxyPort) in
    if negb (pid_truthy (socksPid tl)) then
      (spawnHttp :: spawnSocks :: try_kill (httpPid tl),
       Rejected "Failed to start SOCKS bridge process")
    else
      let '(events, thrown) := poll tl httpSocketPath socksSocketPath maxAttempts 0 in
      (spawnHttp :: spawnSocks :: events,
       match thrown with
       | Some msg => Rejected msg
       | None =>
           Resolved {| ctx_httpSocketPath := httpSocketPath;
                       ctx_socksSocketPath := socksSocketPath;
                       ctx_httpBridgePid := httpPid tl;
                       ctx_socksBridgePid := socksPid tl;
                       ctx_httpProxyPort := httpProxyPort;
                       ctx_socksProxyPort := socksProxyPort |}
       end).

End Bridge.

(** ** Running the wrapper script: [&&] and [;] lists of simple commands

    The wrapper script is a sequence of simple commands separated by [&&]
    and [;].  Its token structure follows from how [wrapperScript] joins its
    pieces, one command per mount, unmount and jail command.  The module
    interpolates paths unquoted, so this is how the shell reads the script
    only when the entries hold no shell operator, quote or expansion; the
    general statements about running the script assume as much. *)

Module Shell.

Inductive Tok :=
| Cmd (c : string)
| AndIf
| Semi.

Definition render_tok (t : Tok) : string :=
  match t with
  | Cmd c => c
  | AndIf => " && "
  | Semi => "; "
  end.

Definition render (ts : list Tok) : string :=
  foldr (fun t rest => render_tok t +:+ rest) "" ts.

(** The tokens of [cs.join(sep)]: the commands with the separator between
    them; an empty array joins to the empty command. *)
Fixpoint sep_by (sep : Tok) (cs : list string) : list Tok :=
  match cs with
  | [] => []
  | [c] => [Cmd c]
  | c :: rest => Cmd c :: sep :: sep_by sep rest
  end.

Definition joined (sep : Tok) (cs : list string) : list Tok :=
  match cs with
  | [] => [Cmd ""]
  | _ => sep_by sep cs
  end.

(** The tokens of [wrapperScript]. *)
Definition wrapper_tokens (acc : MountLists) (jailCmd jailPath : string) : list Tok :=
  joined AndIf (mounts acc)
    ++ [AndIf; Cmd jailCmd; AndIf; Cmd capture_cmd; AndIf]
    ++ joined Semi (unmounts acc)
    ++ [AndIf; Cmd (rm_cmd jailPath); AndIf; Cmd exit_cmd].

(** The shell's state: [$?], the variable [EXIT_CODE], and the commands
    that were run so far. *)
Record St := mkSt {
  last_status : Z;
  EXIT_CODE : option Z;
  ran : list string
}.

Definition initial : St := mkSt 0 None [].

(** Runs the tokens left to right.  [skip] is set while the rest of an
    [&&] list is cut short by a failure.  [status] is the exit status each
    external command would end with.  Returns the script's exit status
    and the final state.
    - [EXIT_CODE=$?] stores [$?] and succeeds;
    - [exit $EXIT_CODE] ends the script with the stored status, or with
      [$?] when the variable is unset (the word expands to nothing);
    - at the end of the script the status is [$?]. *)
Fixpoint exec (status : string -> Z) (ts : list Tok) (skip : bool) (st : St) : Z * St :=
  match ts with
  | [] => (last_status st, st)
  | AndIf :: rest => exec status rest (negb (last_status st =? 0)) st
  | Semi :: rest => exec status rest false st
  | Cmd c :: rest =>
      if skip then exec status rest skip st
      else if String.eqb c exit_cmd then
        (default (last_status st) (EXIT_CODE st),
         mkSt (last_status st) (EXIT_CODE st) (ran st ++ [c]))
      else if String.eqb c capture_cmd then
        exec status rest skip (mkSt 0 (Some (last_status st)) (ran st ++ [c]))
      else
        exec status rest skip (mkSt (status c) (EXIT_CODE st) (ran st ++ [c]))
  end.

Definition is_empty_cmd (t : Tok) : bool :=
  match t with
  | Cmd c => String.eqb c ""
  | _ => false
  end.

(** [sh -c script]: a script with an empty command between operators is a
    syntax error, status 2, and nothing runs. *)
Definition sh (status : string -> Z) (ts : list Tok) : Z * St :=
  if existsb is_empty_cmd ts then (2, initial)
  else exec status ts false initial.

End Shell.

(** ** A concrete host, for running the definitions *)

Module Sample.

(** Splits a path at its slashes. *)
Fixpoint split_slash (s : string) (cur : string) : list string :=
  match s with
  | EmptyString => [cur]
  | String c rest =>
      if Ascii.eqb c "/"%char then cur :: split_slash rest ""
      else split_slash rest (cur +:+ String c EmptyString)
  end.

(** Resolves [.], [..] and empty segments, left to right; [acc] is the
    stack of segments kept so far, innermost first. *)
Fixpoint resolve (segs : list string) (acc : list string) : list string :=
  match segs with
  | [] => rev acc
  | s :: rest =>
      if String.eqb s "" || String.eqb s "." then resolve rest acc
      else if String.eqb s ".." then resolve rest (tail acc)
      else resolve rest (s :: acc)
  end.

Definition segments (p : string) : list string := resolve (split_slash p "") [].

Definition of_segments (segs : list string) : string :=
  "/" +:+ String.concat "/" segs.

(** [path.join] on absolute first arguments. *)
Definition sample_join (a b : string) : string :=
  of_segments (segments (a +:+ "/" +:+ b)).

(** ["/a/b/c"] has the ancestors ["/a"] and ["/a/b"]. *)
Fixpoint proper_prefixes (segs : list string) (pre : list string) : list string :=
  match segs with
  | [] => []
  | [_] => []
  | s :: rest => of_segments (pre ++ [s]) :: proper_prefixes rest (pre ++ [s])
  end.

Definition sample_ancestors (p : string) : list string :=
  proper_prefixes (segments p) [].

Definition sample_randomHex (n : nat) : string :=
  match n with
  | O => "0011223344556677"
  | S O => "8899aabbccddeeff"
  | _ => "0123456789abcdef"
  end.

(** Every argument in single quotes, joined by spaces. *)
Definition sample_quote (xs : list string) : string :=
  String.concat " " (map (fun s => "'" +:+ escape_single_quotes s +:+ "'") xs).

#[export] Instance sample_host : Host := {|
  join := sample_join;
  ancestors := sample_ancestors;
  tmpdir := "/tmp";
  cwd := "/home/user/project";
  randomHex := sample_randomHex;
  normalizePathForSandbox := fun p => p;
  getMandatoryDenyWithinAllow := [];
  generateProxyEnvVars := fun _ _ =>
    ["HTTP_PROXY=http://localhost:3128"; "ALL_PROXY=socks5://localhost:1080"];
  shellquote_quote := sample_quote
|}.

(** A small FreeBSD host. *)
Definition sample_fs : gmap string Node :=
  list_to_map
    [ ("/dev", Dir); ("/usr", Dir); ("/bin", Dir); ("/lib", Dir);
      ("/libexec", Dir); ("/etc", Dir); ("/tmp", Dir);
      ("/home", Dir); ("/home/user", Dir); ("/home/user/project", Dir);
      ("/home/user/project/.git", Dir);
      ("/home/user/project/.env", File "SECRET=1") ].

Definition sample_world : World := mkWorld sample_fs 0.

End Sample.

(** ** Vocabulary of the statements *)

(** The world a computation leaves behind, whether it returned or threw. *)
Definition final {A} (r : Result A) : World :=
  match r with
  | Ok _ w => w
  | Throw _ w => w
  end.

(** [w'] keeps every path of [w], each with the kind it had. *)
Definition stable (w w' : World) : Prop :=
  forall p n, fs w !! p = Some n ->
    exists n', fs w' !! p = Some n' /\ is_dir n' = is_dir n.

(** A computation that never removes a path nor changes its kind. *)
Definition Stable {A} (m : M A) : Prop :=
  forall w, stable w (final (m w)).

(** [acc'] is [acc] after some mounts were pushed, each together with an
    unmount command. *)
Definition pushed (acc acc' : MountLists) : Prop :=
  exists ms targets,
    length ms = length targets /\
    mounts acc' = mounts acc ++ ms /\
    unmounts acc' = unmounts acc ++ map umount_cmd targets.

(** The path exists on the host, as a node of the given kind. *)
Definition exists_as (w : World) (p : string) (dir : bool) : Prop :=
  exists n, fs w !! p = Some n /\ is_dir n = dir.

(** A candidate of a write-policy loop that is on the host and passes the
    [/dev/] guard. *)
Definition mountable `{Host} (x : string) (w : World) : Prop :=
  (exists d, exists_as w (normalizePathForSandbox x) d) /\
  String.prefix "/dev/" (normalizePathForSandbox x) = false.

(** ** Inputs used in the examples *)

Module Inputs.
Import Sample.

Definition no_config (cmd : string) (net fsr : bool) : FreeBSDSandboxParams :=
  {| command := cmd;
     hasNetworkRestrictions := net;
     hasFilesystemRestrictions := fsr;
     httpSocketPath := None;
     socksSocketPath := None;
     httpProxyPort := None;
     socksProxyPort := None;
     readConfig := None;
     writeConfig := None |}.

(** No restriction at all. *)
Definition unrestricted : FreeBSDSandboxParams := no_config "echo hi" false false.

(** File-system restriction only, no policy objects. *)
Definition fs_only : FreeBSDSandboxParams := no_config "make test" false true.

(** Network restriction requested, bridge socket paths omitted. *)
Definition net_without_sockets : FreeBSDSandboxParams := no_config "curl example.org" true false.

(** Network restriction with both bridge sockets. *)
Definition net_with_sockets : FreeBSDSandboxParams :=
  {| command := "curl example.org";
     hasNetworkRestrictions := true;
     hasFilesystemRestrictions := false;
     httpSocketPath := Some "/tmp/claude-http-aa.sock";
     socksSocketPath := Some "/tmp/claude-socks-aa.sock";
     httpProxyPort := Some 8080;
     socksProxyPort := Some 1081;
     readConfig := None;
     writeConfig := None |}.

Definition project : string := "/home/user/project".
Definition project_git : string := "/home/user/project/.git".
Definition project_env : string := "/home/user/project/.env".

(** The project is writable, its [.git] directory is not. *)
Definition write_project : FsWriteRestrictionConfig :=
  {| allowOnly := Some [project]; denyWithinAllow := Some [project_git] |}.

(** A write policy whose deny list names [/dev] itself. *)
Definition write_deny_dev : FsWriteRestrictionConfig :=
  {| allowOnly := Some [project]; denyWithinAllow := Some ["/dev"] |}.

Definition hide (path : string) : FsReadRestrictionConfig :=
  {| denyOnly := Some [path] |}.

Definition jail_root : string := "/tmp/sbx_0011223344556677".

(** What the planner returns on the sample host, with the jail rooted at
    [jail_root]. *)
Definition planned (rc : option FsReadRestrictionConfig)
    (wc : option FsWriteRestrictionConfig) : Result MountLists :=
  generateJailFilesystemConfig jail_root rc wc sample_world.

Definition lists_of (r : Result MountLists) : MountLists :=
  match r with
  | Ok acc _ => acc
  | Throw _ _ => mkLists [] []
  end.

(** The jail exits with status 1, every other command succeeds. *)
Definition jail_fails (jailCmd : string) (c : string) : Z :=
  if String.eqb c jailCmd then 1 else 0.

(** A timeline on which both bridges stay alive and no socket ever appears. *)
Definition never_ready : Bridge.Timeline :=
  {| Bridge.socketId := "0011223344556677";
     Bridge.httpPid := Some 4001;
     Bridge.socksPid := Some 4002;
     Bridge.httpKilled := fun _ => false;
     Bridge.socksKilled := fun _ => false;
     Bridge.fileExists := fun _ _ => false |}.

End Inputs.

(** ** Vocabulary of the further statements *)

(** How a POSIX shell reads a word that is made of single-quoted stretches
    and backslash-escaped characters: inside quotes every character but the
    quote stands for itself; outside, a quote opens a stretch and a
    backslash makes the next character literal.  [None] for an unterminated
    quote, a trailing backslash, or any other unquoted character. *)
Fixpoint sh_word (s : string) (in_quote : bool) : option string :=
  match s with
  | EmptyString => if in_quote then None else Some EmptyString
  | String c rest =>
      if in_quote then
        if Ascii.eqb c "'"%char then sh_word rest false
        else String c <$> sh_word rest true
      else if Ascii.eqb c "'"%char then sh_word rest true
      else if Ascii.eqb c "\"%char then
        match rest with
        | String c' rest' => String c' <$> sh_word rest' false
        | EmptyString => None
        end
      else None
  end.

(** The string has no single quote. *)
Fixpoint quote_free (s : string) : bool :=
  match s with
  | EmptyString => true
  | String c rest => negb (Ascii.eqb c "'"%char) && quote_free rest
  end.

(** The string has no equals sign. *)
Fixpoint equals_free (s : string) : bool :=
  match s with
  | EmptyString => true
  | String c rest => negb (Ascii.eqb c "="%char) && equals_free rest
  end.

(** Where a mount command of the planner comes from: the fixed list of
    essential mounts, the working directory when there is no write policy,
    an entry of the write policy that passed the [/dev/] guard, or an entry
    of the read policy. *)
Inductive PlannedMount `{Host} (jailPath : string)
    (rc : option FsReadRestrictionConfig) (wc : option FsWriteRestrictionConfig)
  : string -> Prop :=
| planned_essential m :
    In m (essentialMounts jailPath) ->
    PlannedMount jailPath rc wc (essential_mount_cmd m)
| planned_cwd :
    wc = None ->
    PlannedMount jailPath rc wc (rw_bind_cmd cwd (join jailPath cwd))
| planned_allow config x :
    wc = Some config ->
    In x (default [] (allowOnly config)) ->
    String.prefix "/dev/" (normalizePathForSandbox x) = false ->
    PlannedMount jailPath rc wc
      (rw_bind_cmd (normalizePathForSandbox x) (join jailPath (normalizePathForSandbox x)))
| planned_deny config x :
    wc = Some config ->
    In x (denyPaths config) ->
    String.prefix "/dev/" (normalizePathForSandbox x) = false ->
    PlannedMount jailPath rc wc
      (ro_bind_cmd (normalizePathForSandbox x) (join jailPath (normalizePathForSandbox x)))
| planned_hide_dir config paths x :
    rc = Some config -> denyOnly config = Some paths -> In x paths ->
    PlannedMount jailPath rc wc (tmpfs_cmd (join jailPath (normalizePathForSandbox x)))
| planned_hide_file config paths x n :
    rc = Some config -> denyOnly config = Some paths -> In x paths ->
    PlannedMount jailPath rc wc
      (ro_bind_cmd (join tmpdir ("empty-" +:+ randomHex n))
         (join jailPath (normalizePathForSandbox x))).

(** How many mounts a policy can ask for at most. *)
Definition write_budget `{Host} (wc : option FsWriteRestrictionConfig) : nat :=
  match wc with
  | Some config => length (default [] (allowOnly config)) + length (denyPaths config)
  | None => 1
  end.

Definition read_budget (rc : option FsReadRestrictionConfig) : nat :=
  match rc with
  | Some config => length (default [] (denyOnly config))
  | None => 0
  end.

(** One loop body's effect on the mount list: nothing, or one mount that
    satisfies [P]. *)
Definition adds_at_most_one (P : string -> Prop) (acc acc' : MountLists) : Prop :=
  mounts acc' = mounts acc \/ exists m, P m /\ mounts acc' = mounts acc ++ [m].

(** The two commands one push site of the planner adds, the mount and the
    unmount of its [jailMountPoint]: one constructor per site, with the
    site's own source and mount point. *)
Inductive PlannedPair `{Host} (jailPath : string)
    (rc : option FsReadRestrictionConfig) (wc : option FsWriteRestrictionConfig)
  : string -> string -> Prop :=
| pair_essential m :
    In m (essentialMounts jailPath) ->
    PlannedPair jailPath rc wc (essential_mount_cmd m) (umount_cmd (dst m))
| pair_cwd :
    wc = None ->
    PlannedPair jailPath rc wc
      (rw_bind_cmd cwd (join jailPath cwd)) (umount_cmd (join jailPath cwd))
| pair_allow config x :
    wc = Some config ->
    In x (default [] (allowOnly config)) ->
    PlannedPair jailPath rc wc
      (rw_bind_cmd (normalizePathForSandbox x) (join jailPath (normalizePathForSandbox x)))
      (umount_cmd (join jailPath (normalizePathForSandbox x)))
| pair_deny config x :
    wc = Some config ->
    In x (denyPaths config) ->
    PlannedPair jailPath rc wc
      (ro_bind_cmd (normalizePathForSandbox x) (join jailPath (normalizePathForSandbox x)))
      (umount_cmd (join jailPath (normalizePathForSandbox x)))
| pair_hide_dir config paths x :
    rc = Some config -> denyOnly config = Some paths -> In x paths ->
    PlannedPair jailPath rc wc
      (tmpfs_cmd (join jailPath (normalizePathForSandbox x)))
      (umount_cmd (join jailPath (normalizePathForSandbox x)))
| pair_hide_file config paths x n :
    rc = Some config -> denyOnly config = Some paths -> In x paths ->
    PlannedPair jailPath rc wc
      (ro_bind_cmd (join tmpdir ("empty-" +:+ randomHex n))
         (join jailPath (normalizePathForSandbox x)))
      (umount_cmd (join jailPath (normalizePathForSandbox x))).

(** One loop body's effect on both lists: nothing, or one mount and one
    unmount pushed together that satisfy [P]. *)
Definition adds_pair_at_most (P : string -> string -> Prop) (acc acc' : MountLists) : Prop :=
  acc' = acc \/
  exists m u, P m u /\ acc' = push_unmounts u (push_mounts m acc).

(** The invariant on a pair of lists as the specification words it: the
    two lists have equal length, and every mount command has exactly one
    entry of the unmount list that unmounts its mount point.  [P m u] says
    that [u] is the unmount of the mount point of [m]. *)
Definition one_unmount_per_mount (P : string -> string -> Prop) (acc : MountLists) : Prop :=
  length (mounts acc) = length (unmounts acc) /\
  forall m u, In m (mounts acc) -> P m u ->
    count_occ String.string_dec (unmounts acc) u = 1%nat.

(** ** What the bridge handles show of a process that exits

    Node sets [subprocess.killed] only when [subprocess.kill()] has sent a
    signal.  The module never calls it (it signals through
    [process.kill(pid)]), and [subprocess.pid] stays set after the process
    is gone.  So a bridge that exits on its own shows on its handle as
    before: [pid] set, [killed] false. *)
Module BridgeRuns.

(** What really happens during one call: the processes that were spawned,
    at which attempts each of them is already gone, and which files exist. *)
Record BridgeRun := {
  run_socketId : string;
  run_httpPid : option Z;
  run_socksPid : option Z;
  httpExited : nat -> bool;
  socksExited : nat -> bool;
  run_fileExists : nat -> string -> bool
}.

(** What the function can read of it. *)
Definition observed (r : BridgeRun) : Bridge.Timeline :=
  {| Bridge.socketId := run_socketId r;
     Bridge.httpPid := run_httpPid r;
     Bridge.socksPid := run_socksPid r;
     Bridge.httpKilled := fun _ => false;
     Bridge.socksKilled := fun _ => false;
     Bridge.fileExists := run_fileExists r |}.

End BridgeRuns.

(** The name the orchestrator gives the jail when it starts in world [w]. *)
Definition jail_name `{Host} (w : World) : string := "sbx_" +:+ randomHex (draws w).

Module BridgeTrace.
Import Bridge.

Definition sleep_ms (e : Event) : Z :=
  match e with
  | Sleep ms => ms
  | _ => 0
  end.

(** The time the function asks the timer for, in total. *)
Definition total_sleep (events : list Event) : Z :=
  foldr (fun e acc => sleep_ms e + acc) 0 events.

Definition is_check_alive (e : Event) : bool :=
  match e with
  | CheckAlive _ => true
  | _ => false
  end.

(** How many liveness checks were made. *)
Definition liveness_checks (events : list Event) : nat :=
  length (List.filter is_check_alive events).

Definition is_kill (e : Event) : bool :=
  match e with
  | Kill _ _ => true
  | _ => false
  end.

(** What is left of the sleep budget from attempt [i] on:
    100 * (i + ... + 3). *)
Definition sleep_budget (i : nat) : Z :=
  50 * (4 - Z.of_nat i) * (Z.of_nat i + 3).

End BridgeTrace.

Module ShellTrace.
Import Shell.

(** A command the shell model runs as an external command: not empty, and
    not one of the two built-in lines of the wrapper. *)
Definition plain (c : string) : bool :=
  negb (String.eqb c "") && negb (String.eqb c exit_cmd) && negb (String.eqb c capture_cmd).

(** A character that means nothing to the shell but itself: a letter, a
    digit, a space, or one of [/ . _ - + , : @]. *)
Definition simple_char (c : ascii) : bool :=
  let n := nat_of_ascii c in
  ((48 <=? n) && (n <=? 57))%nat || ((65 <=? n) && (n <=? 90))%nat
  || ((97 <=? n) && (n <=? 122))%nat
  || existsb (Nat.eqb n) [32; 47; 46; 95; 45; 43; 44; 58; 64]%nat.

(** A command line of such characters only: words separated by spaces,
    with no operator, quote, expansion or comment in it, which the shell
    takes as one simple command. *)
Fixpoint simple_words (s : string) : bool :=
  match s with
  | EmptyString => true
  | String c rest => simple_char c && simple_words rest
  end.

(** Where the shell is in a line: outside quotes, inside single quotes or
    inside double quotes. *)
Inductive Quoting := Bare | Single | Double.

(** A command line in which every character that is not a simple one
    stands inside quotes or after a backslash, and every quote is closed:
    the form in which a quoting function gives a list of arguments, which
    the shell takes as one simple command.  Inside single quotes every
    character is literal; inside double quotes a backslash takes the next
    character with it, and [$] and the backquote, which would expand, are
    not accepted.  An unquoted [=] is accepted too: it means something to
    the shell only in the words before the command name. *)
Fixpoint quoted_words_in (q : Quoting) (s : string) : bool :=
  match s with
  | EmptyString => match q with Bare => true | _ => false end
  | String c rest =>
      let n := nat_of_ascii c in
      match q with
      | Single =>
          if (n =? 39)%nat then quoted_words_in Bare rest
          else quoted_words_in Single rest
      | Double =>
          if (n =? 34)%nat then quoted_words_in Bare rest
          else if (n =? 92)%nat then
            match rest with
            | String _ rest' => quoted_words_in Double rest'
            | EmptyString => false
            end
          else if (n =? 36)%nat || (n =? 96)%nat then false
          else quoted_words_in Double rest
      | Bare =>
          if (n =? 39)%nat then quoted_words_in Single rest
          else if (n =? 34)%nat then quoted_words_in Double rest
          else if (n =? 92)%nat then
            match rest with
            | String _ rest' => quoted_words_in Bare rest'
            | EmptyString => false
            end
          else (simple_char c || (n =? 61)%nat) && quoted_words_in Bare rest
      end
  end.

Definition quoted_words (s : string) : bool := quoted_words_in Bare s.

(** No [;] among the tokens. *)
Definition no_semi (t : Tok) : bool :=
  match t with
  | Semi => false
  | _ => true
  end.

(** The commands among the tokens. *)
Fixpoint commands (ts : list Tok) : list string :=
  match ts with
  | [] => []
  | Cmd c :: rest => c :: commands rest
  | _ :: rest => commands rest
  end.

End ShellTrace.

(** ** Further inputs used in the examples *)

Module MoreInputs.
Import Sample Inputs.

(** The value a computation returned, or a default when it threw. *)
Definition value_of {A} (d : A) (r : Result A) : A :=
  match r with
  | Ok a _ => a
  | Throw _ _ => d
  end.

(** A timeline on which both sockets appear at the third attempt. *)
Definition sockets_at_third_attempt : Bridge.Timeline :=
  {| Bridge.socketId := "0011223344556677";
     Bridge.httpPid := Some 4001;
     Bridge.socksPid := Some 4002;
     Bridge.httpKilled := fun _ => false;
     Bridge.socksKilled := fun _ => false;
     Bridge.fileExists := fun i _ => (2 <=? i)%nat |}.

(** Both bridges are spawned; the HTTP bridge exits before the first
    attempt, the SOCKS bridge lives on, and no socket ever appears. *)
Definition http_exits_at_once : BridgeRuns.BridgeRun :=
  {| BridgeRuns.run_socketId := "0011223344556677";
     BridgeRuns.run_httpPid := Some 4001;
     BridgeRuns.run_socksPid := Some 4002;
     BridgeRuns.httpExited := fun _ => true;
     BridgeRuns.socksExited := fun _ => false;
     BridgeRuns.run_fileExists := fun _ _ => false |}.

(** What [assemble] gives for the file-system-only parameters on the sample
    host: the lists, the jail invocation and the jail root. *)
Definition assembled : MountLists * string * string :=
  value_of (mkLists [] [], "", "") (assemble fs_only sample_world).

(** The script the orchestrator returns on the sample host. *)
Definition script_for (params : FreeBSDSandboxParams) : string :=
  value_of "" (wrapCommandWithSandboxFreeBSD params sample_world).

(** The mount of [/usr] fails with status 1, everything else succeeds. *)
Definition usr_mount_fails (c : string) : Z :=
  if String.eqb c "mount_nullfs -o ro /usr /tmp/sbx_0011223344556677/usr" then 1 else 0.

(** The first unmount fails with status 1, everything else succeeds. *)
Definition first_unmount_fails (c : string) : Z :=
  if String.eqb c "umount /tmp/sbx_0011223344556677/dev" then 1 else 0.

End MoreInputs.

(** ** Platform detection: [getPlatform] *)

Module PlatformDetection.

Inductive Platform := macos | linux | freebsd | windows | unknown.

(** [getPlatform], as a function of [process.platform]. *)
Definition getPlatform (process_platform : string) : Platform :=
  if String.eqb process_platform "darwin" then macos
  else if String.eqb process_platform "linux" then linux
  else if String.eqb process_platform "freebsd" then freebsd
  else if String.eqb process_platform "win32" then windows
  else unknown.

(** The identifier Node uses for a platform; none for [unknown]. *)
Definition node_name (p : Platform) : option string :=
  match p with
  | macos => Some "darwin"
  | linux => Some "linux"
  | freebsd => Some "freebsd"
  | windows => Some "win32"
  | unknown => None
  end.

End PlatformDetection.

(** * Theorems *)

(** ** The dependency probe is memoized *)

Module DepsFacts.
Import Deps.

Lemma first_call_fills_cache (p : Probe) :
  snd (hasFreeBSDSandboxDependenciesSync p None)
  = Some (fst (hasFreeBSDSandboxDependenciesSync p None)).
Proof. destruct p; reflexivity. Qed.

Lemma calls_with_cache (probes : list Probe) (b : bool) :
  calls probes (Some b) = replicate (length probes) b.
Proof.
  induction probes as [|p rest IH]; simpl; [reflexivity|].
  now rewrite IH.
Qed.

Lemma lifetime_constant (probes : list Probe) :
  exists b, lifetime probes = replicate (length probes) b.
Proof.
  destruct probes as [|p rest]; [exists false; reflexivity|].
  unfold lifetime, freebsdDepsCache_init. cbn [calls].
  pose proof (first_call_fills_cache p) as Hc.
  destruct (hasFreeBSDSandboxDependenciesSync p None) as [b c]; simpl in Hc; subst c.
  exists b. rewrite calls_with_cache. reflexivity.
Qed.

(** C9: within one process lifetime any two calls of
    [hasFreeBSDSandboxDependenciesSync] return the same boolean, whatever
    the host would answer to the probe at the time of each call. *)
Theorem C9_memoization (probes : list Probe) (i j : nat) (b1 b2 : bool) :
  lifetime probes !! i = Some b1 ->
  lifetime probes !! j = Some b2 ->
  b1 = b2.
Proof.
  destruct (lifetime_constant probes) as [b ->]. intros H1 H2.
  apply lookup_replicate in H1 as [-> _].
  apply lookup_replicate in H2 as [-> _].
  reflexivity.
Qed.

(** The tools are all present at the first call, the probe would throw at
    the second and [socat] is gone at the third: the answer stays [true]. *)
Lemma C9_memoization_witness :
  let probes := [ ProbeStatuses (Some 0) (Some 0) (Some 0);
                  ProbeThrows;
                  ProbeStatuses (Some 0) (Some 1) (Some 0) ] in
  lifetime probes !! 0%nat = Some true /\
  lifetime probes !! 2%nat = Some true /\
  true = true.
Proof.
  intros probes. split; [reflexivity|]. split; [reflexivity|].
  apply (C9_memoization probes 0 2 true true); reflexivity.
Defined.

End DepsFacts.

(** ** Strings *)

Lemma string_app_assoc (a b c : string) : (a +:+ b) +:+ c = a +:+ (b +:+ c).
Proof.
  induction a as [|ch a IH]; [reflexivity|].
  change (String ch ((a +:+ b) +:+ c) = String ch (a +:+ (b +:+ c))).
  now rewrite IH.
Qed.

Lemma string_app_nil_r (a : string) : a +:+ "" = a.
Proof.
  induction a as [|ch a IH]; [reflexivity|].
  change (String ch (a +:+ "") = String ch a). now rewrite IH.
Qed.

(** ** Reasoning about the monad *)

Section MonadFacts.
Context `{Host}.

Lemma bind_Ok {A B} (m : M A) (k : A -> M B) w b w'' :
  bind m k w = Ok b w'' ->
  exists a w', m w = Ok a w' /\ k a w' = Ok b w''.
Proof.
  unfold bind. destruct (m w) as [a w'|msg w']; [eauto|discriminate].
Qed.


Lemma stable_refl w : stable w w.
Proof. intros p n Hp. eauto. Qed.

Lemma stable_trans w1 w2 w3 : stable w1 w2 -> stable w2 w3 -> stable w1 w3.
Proof.
  intros H12 H23 p n Hp.
  destruct (H12 p n Hp) as (n2 & Hp2 & Hk2).
  destruct (H23 p n2 Hp2) as (n3 & Hp3 & Hk3).
  exists n3. split; [assumption|congruence].
Qed.

Lemma Stable_ret {A} (a : A) : Stable (ret a).
Proof. intros w. apply stable_refl. Qed.

Lemma Stable_throw {A} msg : Stable (@throw A msg).
Proof. intros w. apply stable_refl. Qed.

Lemma Stable_bind {A B} (m : M A) (k : A -> M B) :
  Stable m -> (forall a, Stable (k a)) -> Stable (bind m k).
Proof.
  intros Hm Hk w. unfold bind. specialize (Hm w).
  destruct (m w) as [a w'|msg w']; simpl in *; [|assumption].
  eapply stable_trans; [exact Hm|apply Hk].
Qed.

Lemma Stable_forEach {A S} (l : list A) (body : A -> S -> M S) :
  (forall x s, Stable (body x s)) -> forall s, Stable (forEach l body s).
Proof.
  intros Hb. induction l as [|x rest IH]; intros s; simpl.
  - apply Stable_ret.
  - apply Stable_bind; [apply Hb|assumption].
Qed.

Lemma Stable_existsSync p : Stable (existsSync p).
Proof. intros w. apply stable_refl. Qed.

Lemma Stable_statSync p : Stable (statSync_isDirectory p).
Proof.
  intros w. unfold statSync_isDirectory.
  destruct (fs w !! p); apply stable_refl.
Qed.

Lemma Stable_randomBytes : Stable randomBytes_hex.
Proof. intros w p n Hp. simpl. eauto. Qed.

Lemma mkdir_one_keeps p f f' q n :
  mkdir_one p f = Some f' -> f !! q = Some n -> f' !! q = Some n.
Proof.
  unfold mkdir_one. intros Hm Hq.
  destruct (f !! p) as [[|c]|] eqn:Hp; inversion Hm; subst; [assumption|].
  rewrite lookup_insert_ne; [assumption|]. intros ->. congruence.
Qed.

Lemma mkdir_all_keeps ps : forall f f' q n,
  mkdir_all ps f = Some f' -> f !! q = Some n -> f' !! q = Some n.
Proof.
  induction ps as [|p rest IH]; simpl; intros f f' q n Hm Hq.
  - now inversion Hm; subst.
  - destruct (mkdir_one p f) as [f1|] eqn:H1; [|discriminate].
    eapply IH; [exact Hm|]. eapply mkdir_one_keeps; eassumption.
Qed.

Lemma Stable_mkdirSync p : Stable (mkdirSync_recursive p).
Proof.
  intros w q n Hq. unfold mkdirSync_recursive.
  destruct (mkdir_all _ _) as [f'|] eqn:Hm; simpl; [|eauto].
  exists n. split; [|reflexivity]. eapply mkdir_all_keeps; eassumption.
Qed.

Lemma Stable_writeFileSync p content : Stable (writeFileSync p content).
Proof.
  intros w q n Hq. unfold writeFileSync.
  destruct (fs w !! p) as [[|c]|] eqn:Hp; simpl; [eauto| |].
  - destruct (decide (p = q)) as [->|Hne].
    + rewrite lookup_insert_eq. exists (File content). split; [reflexivity|].
      rewrite Hp in Hq. now inversion Hq.
    + rewrite lookup_insert_ne by assumption. eauto.
  - rewrite lookup_insert_ne; [eauto|]. intros ->. congruence.
Qed.

Lemma Stable_ensureDir d : Stable (ensureDir d).
Proof.
  unfold ensureDir. apply Stable_bind; [apply Stable_existsSync|].
  intros [|]; simpl; [apply Stable_ret|apply Stable_mkdirSync].
Qed.

End MonadFacts.

Create HintDb stable.
#[local] Hint Resolve Stable_ret Stable_throw Stable_existsSync Stable_statSync
  Stable_randomBytes Stable_mkdirSync Stable_writeFileSync Stable_ensureDir : stable.

(** Takes apart a hypothesis saying that a monadic computation returned. *)
Ltac inv_ok :=
  repeat match goal with
  | Hb : bind _ _ _ = Ok _ _ |- _ =>
      let a := fresh "a" in let w := fresh "w" in
      let H1 := fresh "Hrun" in let H2 := fresh "Hrun" in
      apply bind_Ok in Hb as (a & w & H1 & H2)
  | Hr : ret _ _ = Ok _ _ |- _ => inversion Hr; subst; clear Hr
  | Hr : throw _ _ = Ok _ _ |- _ => discriminate Hr
  | Hr : Throw _ _ = Ok _ _ |- _ => discriminate Hr
  | Hr : Ok _ _ = Ok _ _ |- _ => inversion Hr; subst; clear Hr
  | Hr : (if ?b then _ else _) _ = Ok _ _ |- _ => destruct b eqn:?
  end.

Ltac solve_stable :=
  repeat first
    [ solve [auto with stable]
    | apply Stable_bind
    | apply Stable_forEach
    | match goal with
      | |- Stable (if ?b then _ else _) => destruct b
      | |- Stable (match ?x with _ => _ end) => destruct x
      | |- Stable _ => fail 1
      | |- _ => intro
      end ].

(** ** The Mount Planner *)

Section PlannerFacts.
Context `{Host}.

(** *** The planner only adds to the host *)

Lemma Stable_jailMountDir_of p q : Stable (jailMountDir_of p q).
Proof. unfold jailMountDir_of. solve_stable. Qed.
Hint Resolve Stable_jailMountDir_of : stable.

Lemma Stable_essentialDir_body jailPath dir u : Stable (essentialDir_body jailPath dir u).
Proof. unfold essentialDir_body. solve_stable. Qed.

Lemma Stable_essentialMount_body mount acc : Stable (essentialMount_body mount acc).
Proof. unfold essentialMount_body. solve_stable. Qed.

Lemma Stable_allow_body jailPath x acc : Stable (allow_body jailPath x acc).
Proof. unfold allow_body. solve_stable. Qed.

Lemma Stable_deny_body jailPath x acc : Stable (deny_body jailPath x acc).
Proof. unfold deny_body. solve_stable. Qed.

Lemma Stable_hide_body jailPath x acc : Stable (hide_body jailPath x acc).
Proof. unfold hide_body. solve_stable. Qed.

Hint Resolve Stable_essentialDir_body Stable_essentialMount_body
  Stable_allow_body Stable_deny_body Stable_hide_body : stable.

Lemma Stable_write_phase jailPath wc acc : Stable (write_phase jailPath wc acc).
Proof. unfold write_phase. solve_stable. Qed.

Lemma Stable_read_phase jailPath rc acc : Stable (read_phase jailPath rc acc).
Proof. unfold read_phase. solve_stable. Qed.

Hint Resolve Stable_write_phase Stable_read_phase : stable.

Lemma Stable_generate jailPath rc wc :
  Stable (generateJailFilesystemConfig jailPath rc wc).
Proof. unfold generateJailFilesystemConfig. solve_stable. Qed.

(** A computation that returned left a world that keeps the old paths. *)
Lemma Stable_Ok {A} (m : M A) w a w' : Stable m -> m w = Ok a w' -> stable w w'.
Proof. intros Hs Hr. specialize (Hs w). now rewrite Hr in Hs. Qed.

Lemma exists_as_stable w w' p d : stable w w' -> exists_as w p d -> exists_as w' p d.
Proof.
  intros Hs (n & Hn & Hd). destruct (Hs p n Hn) as (n' & Hn' & Hd').
  exists n'. split; [assumption|congruence].
Qed.

(** *** What the primitives return *)

Lemma existsSync_Ok p w e w' :
  existsSync p w = Ok e w' -> w' = w /\ (e = true <-> is_Some (fs w !! p)).
Proof.
  unfold existsSync. intros Hr. inversion Hr; subst. split; [reflexivity|].
  rewrite bool_decide_eq_true. reflexivity.
Qed.

Lemma existsSync_present p w d :
  exists_as w p d -> existsSync p w = Ok true w.
Proof.
  intros (n & Hn & _). unfold existsSync. f_equal.
  apply bool_decide_eq_true. eauto.
Qed.


Lemma statSync_Ok p w d w' :
  statSync_isDirectory p w = Ok d w' -> w' = w /\ exists_as w p d.
Proof.
  unfold statSync_isDirectory, exists_as.
  destruct (fs w !! p) as [n|]; intros Hr; inversion Hr; subst. eauto.
Qed.

(** *** The two lists grow together *)

Lemma pushed_refl acc : pushed acc acc.
Proof.
  exists [], []. split; [reflexivity|]. simpl. now rewrite !app_nil_r.
Qed.

Lemma pushed_trans a b c : pushed a b -> pushed b c -> pushed a c.
Proof.
  intros (ms1 & ts1 & F1 & M1 & U1) (ms2 & ts2 & F2 & M2 & U2).
  exists (ms1 ++ ms2), (ts1 ++ ts2). split; [rewrite !length_app; lia|].
  rewrite M2, M1, U2, U1, map_app, !app_assoc. split; reflexivity.
Qed.

Lemma pushed_one m target acc :
  pushed acc (push_unmounts (umount_cmd target) (push_mounts m acc)).
Proof. exists [m], [target]. repeat split. Qed.

Hint Resolve pushed_refl pushed_one : core.

Lemma forEach_pushed {A} (l : list A) (body : A -> MountLists -> M MountLists) :
  (forall x acc w acc' w', body x acc w = Ok acc' w' -> pushed acc acc') ->
  forall acc w acc' w', forEach l body acc w = Ok acc' w' -> pushed acc acc'.
Proof.
  intros Hb. induction l as [|x rest IH]; simpl; intros acc w acc' w' Hr; inv_ok.
  - apply pushed_refl.
  - eapply pushed_trans; [eapply Hb|eapply IH]; eassumption.
Qed.

Lemma essentialMount_body_pushed mount acc w acc' w' :
  essentialMount_body mount acc w = Ok acc' w' -> pushed acc acc'.
Proof. unfold essentialMount_body. intros Hr. inv_ok; auto. Qed.

Lemma allow_body_pushed jailPath x acc w acc' w' :
  allow_body jailPath x acc w = Ok acc' w' -> pushed acc acc'.
Proof. unfold allow_body. intros Hr. inv_ok; auto. Qed.

Lemma deny_body_pushed jailPath x acc w acc' w' :
  deny_body jailPath x acc w = Ok acc' w' -> pushed acc acc'.
Proof. unfold deny_body. intros Hr. inv_ok; auto. Qed.

Lemma hide_body_pushed jailPath x acc w acc' w' :
  hide_body jailPath x acc w = Ok acc' w' -> pushed acc acc'.
Proof. unfold hide_body. intros Hr. inv_ok; auto. Qed.

Lemma write_phase_pushed jailPath wc acc w acc' w' :
  write_phase jailPath wc acc w = Ok acc' w' -> pushed acc acc'.
Proof.
  unfold write_phase. intros Hr. destruct wc as [wc|]; inv_ok; auto.
  eapply pushed_trans.
  - eapply forEach_pushed; [|exact Hrun]. intros. eapply allow_body_pushed; eassumption.
  - eapply forEach_pushed; [|exact Hrun0]. intros. eapply deny_body_pushed; eassumption.
Qed.

Lemma read_phase_pushed jailPath rc acc w acc' w' :
  read_phase jailPath rc acc w = Ok acc' w' -> pushed acc acc'.
Proof.
  unfold read_phase. intros Hr. destruct rc as [[[paths|]]|]; simpl in Hr; inv_ok; auto.
  eapply forEach_pushed; [|exact Hr]. intros. eapply hide_body_pushed; eassumption.
Qed.

(** The planner's two lists grow together, and every unmount is a
    [umount] command. *)
Lemma planner_unmounts_are_umounts jailPath rc wc w acc w' :
  generateJailFilesystemConfig jailPath rc wc w = Ok acc w' ->
  exists targets,
    length (mounts acc) = length targets /\
    unmounts acc = map umount_cmd targets.
Proof.
  unfold generateJailFilesystemConfig. intros Hr. inv_ok.
  assert (pushed (mkLists [] []) acc) as (ms & ts & F & Hm & Hu).
  { eapply pushed_trans.
    - eapply forEach_pushed; [|exact Hrun1]. intros. eapply essentialMount_body_pushed; eassumption.
    - eapply pushed_trans; [eapply write_phase_pushed|eapply read_phase_pushed]; eassumption. }
  simpl in Hm, Hu. exists ts. rewrite Hm, Hu. split; [assumption|reflexivity].
Qed.

(** *** A path that is present and passes the guards is mounted *)

Lemma present_exists_as w p : is_Some (fs w !! p) -> exists d, exists_as w p d.
Proof. intros [n Hn]. exists (is_dir n), n. split; [assumption|reflexivity]. Qed.

Lemma allow_body_emits jailPath x acc w acc' w' d :
  exists_as w (normalizePathForSandbox x) d ->
  String.prefix "/dev/" (normalizePathForSandbox x) = false ->
  allow_body jailPath x acc w = Ok acc' w' ->
  mounts acc' = mounts acc
    ++ [rw_bind_cmd (normalizePathForSandbox x) (join jailPath (normalizePathForSandbox x))].
Proof.
  intros Hp Hdev. unfold allow_body. rewrite Hdev. intros Hr.
  apply bind_Ok in Hr as (e & w1 & He & Hr).
  rewrite (existsSync_present _ _ _ Hp) in He. inversion He; subst. simpl in Hr.
  inv_ok. reflexivity.
Qed.

Lemma deny_body_emits jailPath x acc w acc' w' d :
  exists_as w (normalizePathForSandbox x) d ->
  String.prefix "/dev/" (normalizePathForSandbox x) = false ->
  deny_body jailPath x acc w = Ok acc' w' ->
  mounts acc' = mounts acc
    ++ [ro_bind_cmd (normalizePathForSandbox x) (join jailPath (normalizePathForSandbox x))].
Proof.
  intros Hp Hdev. unfold deny_body. rewrite Hdev. intros Hr.
  apply bind_Ok in Hr as (e & w1 & He & Hr).
  rewrite (existsSync_present _ _ _ Hp) in He. inversion He; subst. simpl in Hr.
  inv_ok. reflexivity.
Qed.

Lemma forEach_emits {A} (body : A -> MountLists -> M MountLists)
    (good : A -> World -> Prop) (cmd : A -> string) :
  (forall x acc, Stable (body x acc)) ->
  (forall x acc w acc' w', body x acc w = Ok acc' w' -> pushed acc acc') ->
  (forall x acc w acc' w', good x w -> body x acc w = Ok acc' w' ->
     mounts acc' = mounts acc ++ [cmd x]) ->
  (forall x w w', stable w w' -> good x w -> good x w') ->
  forall l x, In x l -> forall acc w acc' w',
    good x w -> forEach l body acc w = Ok acc' w' ->
    exists before after, mounts acc' = mounts acc ++ before ++ cmd x :: after.
Proof.
  intros Hst Hpush Hemit Hgood l x. induction l as [|y rest IH]; [destruct 1|].
  intros [->|Hin] acc w acc' w' Hg Hr; simpl in Hr; inv_ok.
  - apply (Hemit _ _ _ _ _ Hg) in Hrun.
    eapply forEach_pushed in Hrun0 as (ms & ts & _ & Hm & _); [|exact Hpush].
    exists [], ms. rewrite Hm, Hrun. simpl. now rewrite <- app_assoc.
  - pose proof (Hpush _ _ _ _ _ Hrun) as (ms & ts & _ & Hm & _).
    assert (good x w0) as Hg' by (eapply Hgood; [eapply Stable_Ok; [apply Hst|exact Hrun]|exact Hg]).
    destruct (IH Hin _ _ _ _ Hg' Hrun0) as (b & a' & Hacc).
    exists (ms ++ b), a'. rewrite Hacc, Hm. now rewrite <- !app_assoc.
Qed.

Lemma mountable_stable x w w' : stable w w' -> mountable x w -> mountable x w'.
Proof.
  intros Hs [[d Hd] Hdev]. split; [|assumption].
  exists d. eapply exists_as_stable; eassumption.
Qed.

(** With a write policy, an allowed path is bound read-write before any
    denied path is bound read-only. *)
Lemma allow_before_deny jailPath rc wc P Q w acc w' :
  In P (default [] (allowOnly wc)) ->
  In Q (denyPaths wc) ->
  mountable P w -> mountable Q w ->
  generateJailFilesystemConfig jailPath rc (Some wc) w = Ok acc w' ->
  exists before between after,
    mounts acc =
      before
      ++ rw_bind_cmd (normalizePathForSandbox P) (join jailPath (normalizePathForSandbox P))
      :: between
      ++ ro_bind_cmd (normalizePathForSandbox Q) (join jailPath (normalizePathForSandbox Q))
      :: after.
Proof.
  intros HP HQ HgP HgQ. unfold generateJailFilesystemConfig. intros Hr.
  apply bind_Ok in Hr as (u & w0 & Hdirs & Hr).
  apply bind_Ok in Hr as (acc1 & w1 & Hess & Hr).
  apply bind_Ok in Hr as (acc2 & w2 & Hwrite & Hread).
  unfold write_phase in Hwrite.
  apply bind_Ok in Hwrite as (accA & wA & Hallow & Hdeny).
  assert (stable w w1) as Hs1.
  { eapply stable_trans; eapply Stable_Ok; [|exact Hdirs| |exact Hess];
      apply Stable_forEach; auto with stable. }
  assert (stable w1 wA) as HsA.
  { eapply Stable_Ok; [|exact Hallow]. apply Stable_forEach; auto with stable. }
  destruct (forEach_emits (allow_body jailPath) mountable
              (fun x => rw_bind_cmd (normalizePathForSandbox x)
                          (join jailPath (normalizePathForSandbox x))))
    with (l := default [] (allowOnly wc)) (x := P)
         (acc := acc1) (w := w1) (acc' := accA) (w' := wA)
    as (b1 & a1 & HmA); auto with stable.
  { intros; eapply allow_body_pushed; eassumption. }
  { intros x acc0 v acc0' v' [[d Hd] Hdev]. eapply allow_body_emits; eassumption. }
  { apply mountable_stable. }
  { eapply mountable_stable; eassumption. }
  destruct (forEach_emits (deny_body jailPath) mountable
              (fun x => ro_bind_cmd (normalizePathForSandbox x)
                          (join jailPath (normalizePathForSandbox x))))
    with (l := denyPaths wc) (x := Q)
         (acc := accA) (w := wA) (acc' := acc2) (w' := w2)
    as (b2 & a2 & HmD); auto with stable.
  { intros; eapply deny_body_pushed; eassumption. }
  { intros x acc0 v acc0' v' [[d Hd] Hdev]. eapply deny_body_emits; eassumption. }
  { apply mountable_stable. }
  { eapply mountable_stable; [|exact HgQ]. eapply stable_trans; eassumption. }
  apply read_phase_pushed in Hread as (ms & ts & _ & HmR & _).
  exists (mounts acc1 ++ b1), (a1 ++ b2), (a2 ++ ms).
  rewrite HmR, HmD, HmA. repeat (rewrite <- app_assoc; simpl). reflexivity.
Qed.

(** C4: with the write policy [allowOnly = [P]], [denyWithinAllow = [Q]],
    both paths on the host and neither below [/dev], the mount list holds
    a read-write bind of [P] strictly before a read-only bind of [Q], each
    at its own location under the jail root.  The planner does not look at
    whether [Q] lies inside [P]; the order holds for any such pair. *)
Theorem C4_allow_bind_precedes_deny_bind jailPath rc P Q w acc w' :
  is_Some (fs w !! normalizePathForSandbox P) ->
  is_Some (fs w !! normalizePathForSandbox Q) ->
  String.prefix "/dev/" (normalizePathForSandbox P) = false ->
  String.prefix "/dev/" (normalizePathForSandbox Q) = false ->
  generateJailFilesystemConfig jailPath rc
    (Some {| allowOnly := Some [P]; denyWithinAllow := Some [Q] |}) w = Ok acc w' ->
  exists before between after,
    mounts acc =
      before
      ++ rw_bind_cmd (normalizePathForSandbox P) (join jailPath (normalizePathForSandbox P))
      :: between
      ++ ro_bind_cmd (normalizePathForSandbox Q) (join jailPath (normalizePathForSandbox Q))
      :: after.
Proof.
  intros HP HQ HdP HdQ Hr.
  eapply allow_before_deny with (P := P) (Q := Q); [| | | |exact Hr].
  - simpl. auto.
  - unfold denyPaths. simpl. auto.
  - split; [apply present_exists_as|]; assumption.
  - split; [apply present_exists_as|]; assumption.
Qed.

(** *** Hiding a denied path *)



(** *** Paths below [/dev] *)

(** A denied candidate whose normalized path starts with [/dev/] is
    skipped: the lists are left as they were. *)
Lemma deny_body_skips_below_dev jailPath x acc w :
  String.prefix "/dev/" (normalizePathForSandbox x) = true ->
  deny_body jailPath x acc w = Ok acc w.
Proof. intros Hdev. unfold deny_body. rewrite Hdev. reflexivity. Qed.

End PlannerFacts.

(** ** The Sandbox Orchestrator *)

Section OrchestratorFacts.
Context `{Host}.

(** C6: with both restriction flags false the orchestrator returns
    [params.command] unchanged, and leaves the host untouched. *)
Theorem C6_unrestricted_is_identity (params : FreeBSDSandboxParams) (w : World) :
  hasNetworkRestrictions params = false ->
  hasFilesystemRestrictions params = false ->
  wrapCommandWithSandboxFreeBSD params w = Ok (command params) w.
Proof.
  intros Hn Hf. unfold wrapCommandWithSandboxFreeBSD. rewrite Hn, Hf. reflexivity.
Qed.

(** *** Missing bridge sockets *)

Lemma network_configuration_missing params jailPath jailArgs acc w :
  hasNetworkRestrictions params = true ->
  truthy (httpSocketPath params) = None \/ truthy (socksSocketPath params) = None ->
  network_configuration params jailPath jailArgs acc w = Throw MissingBridgeConfig w.
Proof.
  intros Hn Hmiss. unfold network_configuration. rewrite Hn.
  destruct Hmiss as [-> | ->]; [reflexivity|].
  destruct (truthy (httpSocketPath params)); reflexivity.
Qed.

Lemma wrap_without_sockets (params : FreeBSDSandboxParams) (w : World) :
  hasNetworkRestrictions params = true ->
  truthy (httpSocketPath params) = None \/ truthy (socksSocketPath params) = None ->
  wrapCommandWithSandboxFreeBSD params w =
    match jail_setup params w with
    | Ok _ w2 => Throw MissingBridgeConfig w2
    | Throw msg w2 => Throw msg w2
    end.
Proof.
  intros Hn Hmiss. unfold wrapCommandWithSandboxFreeBSD, assemble. rewrite Hn. simpl.
  unfold bind at 1 2.
  destruct (jail_setup params w) as [[[jailName jailPath] acc] w2|msg w2]; [|reflexivity].
  unfold bind. rewrite network_configuration_missing by assumption. reflexivity.
Qed.

(** C3 (as the code has it): with network restriction requested and a
    bridge socket path missing or empty, the orchestrator never returns a
    script.  It first draws the jail name, creates the jail root and runs
    the Mount Planner; if that much succeeds it throws the
    missing-bridge-configuration error in the world the planner left
    behind, and otherwise it fails with the planner's own error. *)
Theorem C3_missing_bridge_config_after_planning (params : FreeBSDSandboxParams) (w : World) :
  hasNetworkRestrictions params = true ->
  truthy (httpSocketPath params) = None \/ truthy (socksSocketPath params) = None ->
  wrapCommandWithSandboxFreeBSD params w =
    match jail_setup params w with
    | Ok _ w2 => Throw MissingBridgeConfig w2
    | Throw msg w2 => Throw msg w2
    end.
Proof. apply wrap_without_sockets. Qed.

(** *** The bridge sockets in the lists *)

(** The bridge-socket unmounts go in front of everything the planner
    pushed, the one added last first. *)
Lemma bind_sockets_lists jailPath hp sp acc :
  mounts (bind_sockets jailPath hp sp acc)
    = mounts acc ++ [rw_bind_cmd hp (join jailPath hp); rw_bind_cmd sp (join jailPath sp)] /\
  unmounts (bind_sockets jailPath hp sp acc)
    = umount_cmd (join jailPath sp) :: umount_cmd (join jailPath hp) :: unmounts acc.
Proof.
  unfold bind_sockets. simpl. rewrite <- app_assoc. split; reflexivity.
Qed.

End OrchestratorFacts.

(** ** The wrapper script *)

Module ShellFacts.
Import Shell.

Lemma render_app (a b : list Tok) : render (a ++ b) = render a +:+ render b.
Proof.
  induction a as [|t a IH]; [reflexivity|].
  change (render_tok t +:+ render (a ++ b) = (render_tok t +:+ render a) +:+ render b).
  now rewrite IH, string_app_assoc.
Qed.

Lemma render_sep_by sep c cs :
  render (sep_by sep (c :: cs)) = String.concat (render_tok sep) (c :: cs).
Proof.
  revert c. induction cs as [|d rest IH]; intros c.
  - apply string_app_nil_r.
  - change (c +:+ render_tok sep +:+ render (sep_by sep (d :: rest))
            = c +:+ render_tok sep +:+ String.concat (render_tok sep) (d :: rest)).
    now rewrite IH.
Qed.

Lemma render_joined sep cs : render (joined sep cs) = String.concat (render_tok sep) cs.
Proof. destruct cs as [|c cs]; [reflexivity|apply render_sep_by]. Qed.

(** The tokens spell the script: rendering them gives the very string
    [wrapperScript] builds. *)
Lemma render_wrapper_tokens acc jailCmd jailPath :
  render (wrapper_tokens acc jailCmd jailPath) = wrapperScript acc jailCmd jailPath.
Proof.
  unfold wrapper_tokens, wrapperScript.
  rewrite !render_app, !render_joined.
  set (setup := String.concat _ (mounts acc)).
  set (cleanup := String.concat _ (unmounts acc)).
  change (setup +:+ (" && " +:+ jailCmd +:+ " && " +:+ capture_cmd +:+ " && " +:+ "")
            +:+ cleanup +:+ (" && " +:+ rm_cmd jailPath +:+ " && " +:+ exit_cmd +:+ "")
          = setup +:+ " && " +:+ jailCmd +:+ " && " +:+ capture_cmd +:+ " && "
            +:+ cleanup +:+ " && " +:+ rm_cmd jailPath +:+ " && " +:+ exit_cmd).
  rewrite !string_app_assoc, !string_app_nil_r. reflexivity.
Qed.

End ShellFacts.

(** ** The definitions at work on the sample host *)

Module Runs.
Import Sample Inputs.

(** C1: a file-system-restricted command whose jail exits with status 1.
    The script's tokens spell the string the orchestrator builds.  Run by
    the shell, the seven mounts and the jail run; the failure of the jail
    cuts the [&&] list short, so [EXIT_CODE=$?] and the first unmount are
    skipped; the remaining unmounts, the removal of the jail root and
    [exit] run, and with [EXIT_CODE] unset the script ends with status 0,
    not with the jail's status 1. *)
Theorem C1_failing_jail_status_is_lost :
  match assemble fs_only sample_world with
  | Ok (acc, jailCmd, jailPath) _ =>
      let script := Shell.wrapper_tokens acc jailCmd jailPath in
      Shell.render script = wrapperScript acc jailCmd jailPath /\
      length (mounts acc) = 7%nat /\
      jail_fails jailCmd jailCmd = 1 /\
      Shell.sh (jail_fails jailCmd) script =
        (0, Shell.mkSt 0 None
              (mounts acc ++ [jailCmd] ++ tail (unmounts acc)
                 ++ [rm_cmd jailPath; exit_cmd]))
  | Throw _ _ => False
  end.
Proof.
  destruct (assemble fs_only sample_world) as [[[acc jailCmd] jailPath] w'|msg w'] eqn:E;
    [|vm_compute in E; discriminate E].
  split; [apply ShellFacts.render_wrapper_tokens|].
  vm_compute in E. inversion E; subst. clear E.
  repeat split; vm_compute; reflexivity.
Qed.

(** C2: the planner on the sample host, with the project writable and its
    [.git] directory read-only.  The unmounts come in the order of the
    mounts, not in the reverse order: the project's mount point is
    unmounted before the [.git] mount that lies inside it. *)
Theorem C2_planner_unmounts_in_mount_order :
  let targets :=
    [ "/tmp/sbx_0011223344556677/dev"; "/tmp/sbx_0011223344556677/usr";
      "/tmp/sbx_0011223344556677/bin"; "/tmp/sbx_0011223344556677/lib";
      "/tmp/sbx_0011223344556677/libexec"; "/tmp/sbx_0011223344556677/etc";
      "/tmp/sbx_0011223344556677/home/user/project";
      "/tmp/sbx_0011223344556677/home/user/project/.git" ] in
  match planned None (Some write_project) with
  | Ok acc _ =>
      mounts acc =
        [ "mount_nullfs  /dev /tmp/sbx_0011223344556677/dev";
          "mount_nullfs -o ro /usr /tmp/sbx_0011223344556677/usr";
          "mount_nullfs -o ro /bin /tmp/sbx_0011223344556677/bin";
          "mount_nullfs -o ro /lib /tmp/sbx_0011223344556677/lib";
          "mount_nullfs -o ro /libexec /tmp/sbx_0011223344556677/libexec";
          "mount_nullfs -o ro /etc /tmp/sbx_0011223344556677/etc";
          "mount_nullfs /home/user/project /tmp/sbx_0011223344556677/home/user/project";
          "mount_nullfs -o ro /home/user/project/.git /tmp/sbx_0011223344556677/home/user/project/.git" ] /\
      unmounts acc = map umount_cmd targets /\
      unmounts acc <> map umount_cmd (rev targets)
  | Throw _ _ => False
  end.
Proof.
  vm_compute. repeat split. discriminate.
Qed.

(** C8: the planner on the sample host with [/dev] itself in
    [denyWithinAllow].  The guard looks for the prefix [/dev/], which
    [/dev] does not have, so the last mount is a read-only remount of
    [/dev] over the jail's device directory. *)
Theorem C8_dev_itself_is_remounted_read_only :
  String.prefix "/dev/" (normalizePathForSandbox "/dev") = false /\
  match planned None (Some write_deny_dev) with
  | Ok acc _ =>
      mounts acc =
        [ "mount_nullfs  /dev /tmp/sbx_0011223344556677/dev";
          "mount_nullfs -o ro /usr /tmp/sbx_0011223344556677/usr";
          "mount_nullfs -o ro /bin /tmp/sbx_0011223344556677/bin";
          "mount_nullfs -o ro /lib /tmp/sbx_0011223344556677/lib";
          "mount_nullfs -o ro /libexec /tmp/sbx_0011223344556677/libexec";
          "mount_nullfs -o ro /etc /tmp/sbx_0011223344556677/etc";
          "mount_nullfs /home/user/project /tmp/sbx_0011223344556677/home/user/project";
          "mount_nullfs -o ro /dev /tmp/sbx_0011223344556677/dev" ]
  | Throw _ _ => False
  end.
Proof. vm_compute. split; reflexivity. Qed.

(** C3, the claim as stated, fails: with network restriction requested
    and no bridge sockets the orchestrator does throw the
    missing-bridge-configuration error, but not first thing.  By then the
    jail root exists on the host and the planner has returned its seven
    mount commands. *)
Lemma C3_counterexample_planner_runs_first :
  wrapCommandWithSandboxFreeBSD net_without_sockets sample_world
    <> Throw MissingBridgeConfig sample_world /\
  match jail_setup net_without_sockets sample_world with
  | Ok (_, jailPath, acc) w2 =>
      jailPath = jail_root /\
      length (mounts acc) = 7%nat /\
      fs sample_world !! jail_root = None /\
      fs w2 !! jail_root = Some Dir /\
      wrapCommandWithSandboxFreeBSD net_without_sockets sample_world
        = Throw MissingBridgeConfig w2
  | Throw _ _ => False
  end.
Proof.
  split.
  - intros Heq.
    apply (f_equal (fun r => fs (final r) !! jail_root)) in Heq.
    vm_compute in Heq. discriminate Heq.
  - rewrite (wrap_without_sockets net_without_sockets sample_world)
      by (try left; reflexivity).
    destruct (jail_setup net_without_sockets sample_world)
      as [[[jailName jailPath] acc] w2|msg w2] eqn:E;
      [|vm_compute in E; discriminate E].
    assert (jailPath = jail_root /\ length (mounts acc) = 7%nat
            /\ fs w2 !! jail_root = Some Dir) as (-> & Hlen & Hdir).
    { vm_compute in E. inversion E; subst. repeat split; vm_compute; reflexivity. }
    repeat split; assumption || reflexivity.
Qed.

(** The same script when the jail exits with status 0: everything runs in
    order, the captured status is 0 and the script exits with it. *)
Example jail_success_runs_cleanup :
  match assemble fs_only sample_world with
  | Ok (acc, jailCmd, jailPath) _ =>
      Shell.sh (fun _ => 0) (Shell.wrapper_tokens acc jailCmd jailPath) =
        (0, Shell.mkSt 0 (Some 0)
              (mounts acc ++ [jailCmd; capture_cmd] ++ unmounts acc
                 ++ [rm_cmd jailPath; exit_cmd]))
  | Throw _ _ => False
  end.
Proof. vm_compute. reflexivity. Qed.

(** Hiding the file [.env] of the project: the last mount binds an empty
    file, written under the temporary directory, read-only over its place
    in the jail. *)
Example hide_file_binds_empty_file :
  match planned (Some (hide project_env)) None with
  | Ok acc w' =>
      last (mounts acc) =
        Some "mount_nullfs -o ro /tmp/empty-0011223344556677 /tmp/sbx_0011223344556677/home/user/project/.env" /\
      fs w' !! "/tmp/empty-0011223344556677" = Some (File "") /\
      fs sample_world !! "/tmp/empty-0011223344556677" = None
  | Throw _ _ => False
  end.
Proof. vm_compute. repeat split; reflexivity. Qed.

(** With a restricted network the two bridge sockets are mounted last and
    unmounted first, the SOCKS socket before the HTTP socket. *)
Example bridge_unmounts_come_first :
  match assemble net_with_sockets sample_world with
  | Ok (acc, _, _) _ =>
      mounts acc = mounts (lists_of (planned None None))
        ++ [ "mount_nullfs /tmp/claude-http-aa.sock /tmp/sbx_0011223344556677/tmp/claude-http-aa.sock";
             "mount_nullfs /tmp/claude-socks-aa.sock /tmp/sbx_0011223344556677/tmp/claude-socks-aa.sock" ] /\
      unmounts acc =
        "umount /tmp/sbx_0011223344556677/tmp/claude-socks-aa.sock"
        :: "umount /tmp/sbx_0011223344556677/tmp/claude-http-aa.sock"
        :: unmounts (lists_of (planned None None))
  | Throw _ _ => False
  end.
Proof. vm_compute. split; reflexivity. Qed.

(** *** The theorems at concrete inputs *)

Lemma C6_unrestricted_is_identity_witness :
  wrapCommandWithSandboxFreeBSD unrestricted sample_world = Ok "echo hi" sample_world.
Proof.
  apply (C6_unrestricted_is_identity unrestricted sample_world); reflexivity.
Defined.

Lemma C3_missing_bridge_config_after_planning_witness :
  wrapCommandWithSandboxFreeBSD net_without_sockets sample_world =
    match jail_setup net_without_sockets sample_world with
    | Ok _ w2 => Throw MissingBridgeConfig w2
    | Throw msg w2 => Throw msg w2
    end.
Proof.
  apply (C3_missing_bridge_config_after_planning net_without_sockets sample_world);
    [reflexivity|left; reflexivity].
Defined.

Lemma C4_allow_bind_precedes_deny_bind_witness :
  exists before between after,
    mounts (lists_of (planned None (Some write_project))) =
      before
      ++ "mount_nullfs /home/user/project /tmp/sbx_0011223344556677/home/user/project"
      :: between
      ++ "mount_nullfs -o ro /home/user/project/.git /tmp/sbx_0011223344556677/home/user/project/.git"
      :: after.
Proof.
  refine (C4_allow_bind_precedes_deny_bind jail_root None project project_git sample_world
            (lists_of (planned None (Some write_project)))
            (final (planned None (Some write_project))) _ _ _ _ _).
  - vm_compute. eexists. reflexivity.
  - vm_compute. eexists. reflexivity.
  - reflexivity.
  - reflexivity.
  - vm_compute. reflexivity.
Defined.


End Runs.

(** ** The Bridge Initializer *)

Module BridgeFacts.
Import Bridge.

Section Polling.
Context `{Host}.
Variable tl : Timeline.
Variables h s : string.

(** The sockets are never both there. *)
Hypothesis never_both : forall k, (k < maxAttempts)%nat ->
  fileExists tl k h = false \/ fileExists tl k s = false.

Lemma not_ready k : (k < maxAttempts)%nat -> snd (sockets_ready tl k h s) = false.
Proof.
  intros Hk. unfold sockets_ready.
  destruct (never_both k Hk) as [E|E]; destruct (fileExists tl k h); simpl; congruence.
Qed.

(** Both bridges stay alive: the loop uses up its attempts, sleeping
    between them, then signals both processes and gives up. *)
Lemma poll_gives_up : forall remaining i,
  (i + remaining = maxAttempts)%nat -> (0 < remaining)%nat ->
  (forall k, (i <= k < maxAttempts)%nat -> died tl k = false) ->
  poll tl h s remaining i =
    (flat_map (waiting tl h s) (seq i (remaining - 1))
       ++ attempt_checks tl h s (maxAttempts - 1)
       ++ try_kill (httpPid tl) ++ try_kill (socksPid tl),
     Some BridgeNotReady).
Proof.
  induction remaining as [|r IH]; intros i Hsum Hpos Halive; [lia|].
  cbn [poll]. rewrite (Halive i) by lia.
  pose proof (not_ready i ltac:(lia)) as Hnr.
  destruct (sockets_ready tl i h s) as [checks ready] eqn:E. simpl in Hnr. subst ready.
  destruct (Nat.eqb_spec i (maxAttempts - 1)) as [->|Hne].
  - assert (r = 0%nat) as -> by (unfold maxAttempts in *; lia).
    unfold attempt_checks. rewrite E. reflexivity.
  - rewrite (IH (S i)) by (try intros; try apply Halive; unfold maxAttempts in *; lia).
    destruct r as [|r']; [unfold maxAttempts in *; lia|].
    replace (S (S r') - 1)%nat with (S r') by lia.
    replace (S r' - 1)%nat with r' by lia.
    cbn [seq flat_map]. unfold waiting at 2, attempt_checks at 2. rewrite E. simpl.
    rewrite <- !app_assoc. reflexivity.
Qed.

(** A bridge is found dead at attempt [j]: the loop stops there, before
    looking for the sockets and without signalling anyone. *)
Lemma poll_stops_at_death j : forall remaining i,
  (i + remaining = maxAttempts)%nat -> (i <= j < maxAttempts)%nat ->
  died tl j = true ->
  (forall k, (i <= k < j)%nat -> died tl k = false) ->
  poll tl h s remaining i =
    (flat_map (waiting tl h s) (seq i (j - i)) ++ [CheckAlive j],
     Some BridgeProcessDied).
Proof.
  induction remaining as [|r IH]; intros i Hsum Hj Hdead Halive; [lia|].
  cbn [poll]. destruct (Nat.eq_dec i j) as [->|Hne].
  - rewrite Hdead. now rewrite Nat.sub_diag.
  - rewrite (Halive i) by lia.
    pose proof (not_ready i ltac:(lia)) as Hnr.
    destruct (sockets_ready tl i h s) as [checks ready] eqn:E. simpl in Hnr. subst ready.
    destruct (Nat.eqb_spec i (maxAttempts - 1)) as [->|Hne']; [lia|].
    rewrite (IH (S i)) by (try assumption; try intros; try apply Halive; lia).
    replace (j - i)%nat with (S (j - S i)) by lia.
    cbn [seq flat_map]. unfold waiting at 2, attempt_checks. rewrite E. simpl.
    rewrite <- !app_assoc. reflexivity.
Qed.

End Polling.

Lemma pid_truthy_Some z : z <> 0 -> pid_truthy (Some z) = true.
Proof. intros Hz. simpl. now apply negb_true_iff, Z.eqb_neq. Qed.

(** Both bridges were spawned and the two socket files are never both
    there.  If neither handle is ever marked killed, the loop makes its
    five attempts, each checking the handles before the sockets, sleeps
    0, 100, 200 and 300 ms between them, then sends SIGTERM to both
    bridges and fails with the bridge-not-ready error.  If a handle is
    found marked killed at attempt [j], the call fails there with the
    bridge-died error, before any socket check of that attempt. *)
Lemma never_ready_by_handles `{Host} (httpProxyPort socksProxyPort : Z)
    (tl : Timeline) (hp sp : Z) :
  httpPid tl = Some hp -> hp <> 0 ->
  socksPid tl = Some sp -> sp <> 0 ->
  (forall k, (k < maxAttempts)%nat ->
     fileExists tl k (http_socket_path tl) = false \/
     fileExists tl k (socks_socket_path tl) = false) ->
  let spawns :=
    [ Spawn "socat" (socat_args (http_socket_path tl) httpProxyPort);
      Spawn "socat" (socat_args (socks_socket_path tl) socksProxyPort) ] in
  let waits := waiting tl (http_socket_path tl) (socks_socket_path tl) in
  ((forall k, (k < maxAttempts)%nat -> httpKilled tl k = false /\ socksKilled tl k = false) ->
   initializeFreeBSDNetworkBridge httpProxyPort socksProxyPort tl =
     (spawns ++ flat_map waits [0; 1; 2; 3]%nat
        ++ attempt_checks tl (http_socket_path tl) (socks_socket_path tl) 4
        ++ [Kill hp "SIGTERM"; Kill sp "SIGTERM"],
      Rejected BridgeNotReady)) /\
  (forall j, (j < maxAttempts)%nat ->
     httpKilled tl j = true \/ socksKilled tl j = true ->
     (forall k, (k < j)%nat -> httpKilled tl k = false /\ socksKilled tl k = false) ->
     initializeFreeBSDNetworkBridge httpProxyPort socksProxyPort tl =
       (spawns ++ flat_map waits (seq 0 j) ++ [CheckAlive j],
        Rejected BridgeProcessDied)).
Proof.
  intros Hhp Hhz Hsp Hsz Hnever spawns waits.
  assert (forall k, httpKilled tl k = false /\ socksKilled tl k = false -> died tl k = false)
    as Halive.
  { intros k [E1 E2]. unfold died.
    rewrite Hhp, Hsp, !pid_truthy_Some, E1, E2 by assumption. reflexivity. }
  assert (forall k, httpKilled tl k = true \/ socksKilled tl k = true -> died tl k = true)
    as Hdead.
  { intros k E. unfold died. rewrite Hhp, Hsp, !pid_truthy_Some by assumption. simpl.
    destruct E as [-> | ->]; [reflexivity|apply orb_true_r]. }
  unfold initializeFreeBSDNetworkBridge.
  rewrite Hhp, Hsp, !pid_truthy_Some by assumption. simpl negb. cbv iota.
  split.
  - intros Hk.
    rewrite (poll_gives_up tl _ _ Hnever maxAttempts 0)
      by (try intros; try apply Halive; try apply Hk; unfold maxAttempts in *; lia).
    assert (try_kill (httpPid tl) = [Kill hp "SIGTERM"]) as ->
      by (rewrite Hhp; unfold try_kill; now rewrite pid_truthy_Some).
    assert (try_kill (socksPid tl) = [Kill sp "SIGTERM"]) as ->
      by (rewrite Hsp; unfold try_kill; now rewrite pid_truthy_Some).
    reflexivity.
  - intros j Hj Hkilled Hbefore.
    rewrite (poll_stops_at_death tl _ _ Hnever j maxAttempts 0)
      by (try intros; try apply Halive; try apply Hbefore; try apply Hdead;
          try assumption; lia).
    rewrite Nat.sub_0_r. reflexivity.
Qed.

(** Both bridges alive, no socket ever: five attempts, then two signals. *)
Lemma never_ready_by_handles_example :
  let h := "/tmp/claude-http-0011223344556677.sock" in
  let s := "/tmp/claude-socks-0011223344556677.sock" in
  initializeFreeBSDNetworkBridge (H := Sample.sample_host) 8080 1081 Inputs.never_ready =
    ([ Spawn "socat"
         [ "UNIX-LISTEN:/tmp/claude-http-0011223344556677.sock,fork,reuseaddr";
           "TCP:localhost:8080,keepalive,keepidle=10,keepintvl=5,keepcnt=3" ];
       Spawn "socat"
         [ "UNIX-LISTEN:/tmp/claude-socks-0011223344556677.sock,fork,reuseaddr";
           "TCP:localhost:1081,keepalive,keepidle=10,keepintvl=5,keepcnt=3" ];
       CheckAlive 0; ExistsSync 0 h; Sleep 0;
       CheckAlive 1; ExistsSync 1 h; Sleep 100;
       CheckAlive 2; ExistsSync 2 h; Sleep 200;
       CheckAlive 3; ExistsSync 3 h; Sleep 300;
       CheckAlive 4; ExistsSync 4 h;
       Kill 4001 "SIGTERM"; Kill 4002 "SIGTERM" ],
     Rejected "Failed to create bridge sockets after 5 attempts").
Proof.
  refine (proj1 (never_ready_by_handles (H := Sample.sample_host) 8080 1081
                   Inputs.never_ready 4001 4002 _ _ _ _ _) _).
  - reflexivity.
  - lia.
  - reflexivity.
  - lia.
  - intros k _. left. reflexivity.
  - intros k _. split; reflexivity.
Defined.

End BridgeFacts.

(** * Further properties of the module *)

(** ** Quoting and splitting strings *)

Section StringProperties.

Lemma sh_word_escaped (s rest : string) :
  sh_word (escape_single_quotes s +:+ rest) true = (String.append s) <$> sh_word rest true.
Proof.
  induction s as [|c s IH].
  - change (sh_word rest true = String.append "" <$> sh_word rest true).
    destruct (sh_word rest true); reflexivity.
  - cbn [escape_single_quotes]. destruct (Ascii.eqb c "'"%char) eqn:E.
    + apply Ascii.eqb_eq in E. subst c.
      rewrite string_app_assoc.
      change (String "'" <$> sh_word (escape_single_quotes s +:+ rest) true
              = String.append (String "'" s) <$> sh_word rest true).
      rewrite IH. destruct (sh_word rest true); reflexivity.
    + change (sh_word (String c (escape_single_quotes s +:+ rest)) true
              = String.append (String c s) <$> sh_word rest true).
      cbn [sh_word]. rewrite E, IH. destruct (sh_word rest true); reflexivity.
Qed.

(** X1: the command escaped by [replace(/'/g, "'\\''")] and put between
    single quotes, as in [command=sh -c '...'], is read back by the shell
    as the very command, whatever characters it holds. *)
Theorem escaped_command_reads_back (cmd : string) :
  sh_word ("'" +:+ escape_single_quotes cmd +:+ "'") false = Some cmd.
Proof.
  change (sh_word (escape_single_quotes cmd +:+ "'") true = Some cmd).
  rewrite sh_word_escaped. change (sh_word "'" true) with (Some EmptyString).
  simpl. now rewrite string_app_nil_r.
Qed.

(** X2: a command without single quotes is left as it is by the escape. *)
Theorem escape_leaves_quote_free_alone (cmd : string) :
  quote_free cmd = true -> escape_single_quotes cmd = cmd.
Proof.
  induction cmd as [|c s IH]; [reflexivity|].
  cbn [quote_free escape_single_quotes]. intros Hq.
  apply andb_true_iff in Hq as [Hc Hs]. apply negb_true_iff in Hc.
  rewrite Hc, IH by assumption. reflexivity.
Qed.

Lemma escape_leaves_quote_free_alone_witness :
  escape_single_quotes "make test" = "make test".
Proof. apply (escape_leaves_quote_free_alone "make test"). reflexivity. Defined.

Lemma index_equals_split (env : string) (i : nat) :
  String.index 0 "=" env = Some i ->
  String.substring 0 i env +:+ "="
    +:+ String.substring (i + 1) (String.length env - (i + 1)) env = env.
Proof.
  revert i. induction env as [|c s IH]; intros i Hi; [discriminate Hi|].
  cbn [String.index] in Hi. cbn [String.prefix] in Hi.
  destruct (ascii_dec "=" c) as [<-|Hne].
  - assert (String.prefix "" s = true) as Hp by (destruct s; reflexivity).
    rewrite Hp in Hi. inversion Hi; subst i.
    change (String "=" (String.substring 0 (String.length s - 0) s) = String "=" s).
    f_equal. rewrite Nat.sub_0_r.
    clear. induction s as [|c s IH]; [reflexivity|]. simpl. now rewrite IH.
  - destruct (String.index 0 "=" s) as [j|] eqn:Ej; [|discriminate Hi].
    inversion Hi; subst i.
    change (String c (String.substring 0 j s +:+ "="
                        +:+ String.substring (j + 1) (String.length s - (j + 1)) s)
            = String c s).
    f_equal. apply IH. reflexivity.
Qed.

(** X3: a proxy variable [NAME=VALUE] becomes the jail argument
    [env.NAME=VALUE]: splitting at the first equals sign and putting the two
    halves together again loses nothing, also when the value has equals
    signs of its own. *)
Theorem env_arg_with_equals (env : string) :
  String.index 0 "=" env <> None ->
  env_arg env = "env." +:+ env.
Proof.
  intros Hi. unfold env_arg.
  destruct (String.index 0 "=" env) as [i|] eqn:E; [|congruence].
  now rewrite (index_equals_split env i E).
Qed.

Lemma env_arg_with_equals_witness :
  env_arg "NO_PROXY=a=b,localhost" = "env.NO_PROXY=a=b,localhost".
Proof. apply (env_arg_with_equals "NO_PROXY=a=b,localhost"). discriminate. Defined.

Lemma index_equals_free (s : string) :
  equals_free s = true -> String.index 0 "=" s = None.
Proof.
  induction s as [|c s IH]; [reflexivity|].
  cbn [equals_free]. intros Hq. apply andb_true_iff in Hq as [Hc Hs].
  apply negb_true_iff, Ascii.eqb_neq in Hc.
  cbn [String.index String.prefix].
  destruct (ascii_dec "=" c) as [<-|_]; [congruence|].
  now rewrite IH.
Qed.

Lemma substring_all_but_last (s : string) (c : ascii) :
  String.substring 0 (String.length (s +:+ String c "") - 1) (s +:+ String c "") = s.
Proof.
  induction s as [|d s IH]; [reflexivity|].
  change (String.substring 0 (S (String.length (s +:+ String c "")) - 1)
            (String d (s +:+ String c "")) = String d s).
  rewrite Nat.sub_succ, Nat.sub_0_r.
  assert (exists n, String.length (s +:+ String c "") = S n) as [n Hn].
  { clear. induction s as [|e s [n IH]]; [exists 0%nat; reflexivity|].
    exists (S n). change (S (String.length (s +:+ String c "")) = S (S n)). now rewrite IH. }
  rewrite Hn in *. rewrite Nat.sub_succ, Nat.sub_0_r in IH.
  cbn [String.substring]. now rewrite IH.
Qed.

(** X4: an element without an equals sign is mangled: [indexOf] gives -1,
    so the key is the element without its last character and the value is
    the whole element. *)
Theorem env_arg_without_equals (s : string) (c : ascii) :
  equals_free (s +:+ String c "") = true ->
  env_arg (s +:+ String c "") = "env." +:+ s +:+ "=" +:+ s +:+ String c "".
Proof.
  intros Hq. unfold env_arg. rewrite (index_equals_free _ Hq).
  now rewrite substring_all_but_last.
Qed.

Lemma env_arg_without_equals_witness :
  env_arg "HTTP_PROXY" = "env.HTTP_PROX=HTTP_PROXY".
Proof. apply (env_arg_without_equals "HTTP_PROX" "Y"). reflexivity. Defined.

End StringProperties.

(** ** The dependency probe *)

Module DepsProperties.
Import Deps.

(** X5: the answer of a whole process lifetime is fixed by the first probe:
    every call returns [true] exactly when [which] exited with status 0 for
    all three of [jail], [socat] and [rg] at the first call.  A status that
    is [null] (the probe timed out) counts as missing. *)
Theorem first_probe_decides (jailResult socatResult rgResult : Status)
    (later : list Probe) :
  lifetime (ProbeStatuses jailResult socatResult rgResult :: later)
  = replicate (S (length later))
      (bool_decide (jailResult = Some 0 /\ socatResult = Some 0 /\ rgResult = Some 0)).
Proof.
  unfold lifetime, freebsdDepsCache_init. cbn [calls hasFreeBSDSandboxDependenciesSync].
  rewrite DepsFacts.calls_with_cache. cbn [replicate]. f_equal; [|f_equal].
  all: destruct jailResult as [[|?|?]|], socatResult as [[|?|?]|], rgResult as [[|?|?]|];
    cbn; symmetry;
    first [ apply bool_decide_eq_true; repeat split; reflexivity
          | apply bool_decide_eq_false; intros (? & ? & ?); discriminate ].
Qed.

(** X6: when the first probe throws, every call of the lifetime answers
    [false], also after the tools have become available. *)
Theorem throwing_probe_is_remembered (later : list Probe) :
  lifetime (ProbeThrows :: later) = replicate (S (length later)) false.
Proof.
  unfold lifetime, freebsdDepsCache_init. cbn [calls hasFreeBSDSandboxDependenciesSync].
  now rewrite DepsFacts.calls_with_cache.
Qed.

End DepsProperties.

(** ** The Bridge Initializer: spawning, readiness, budget *)

Module BridgeProperties.
Import Bridge BridgeTrace.

Section Initializer.
Context `{Host}.
Variables httpProxyPort socksProxyPort : Z.
Variable tl : Timeline.

Local Abbreviation h := (http_socket_path tl).
Local Abbreviation s := (socks_socket_path tl).
Local Abbreviation spawnHttp := (Spawn "socat" (socat_args h httpProxyPort)).
Local Abbreviation spawnSocks := (Spawn "socat" (socat_args s socksProxyPort)).

(** When the HTTP bridge cannot be spawned the call fails at once: the
    SOCKS bridge is not started, nothing is polled and nothing is
    signalled. *)
Theorem http_spawn_failure :
  pid_truthy (httpPid tl) = false ->
  initializeFreeBSDNetworkBridge httpProxyPort socksProxyPort tl
  = ([spawnHttp], Rejected "Failed to start HTTP bridge process").
Proof.
  intros Hp. unfold initializeFreeBSDNetworkBridge. now rewrite Hp.
Qed.

(** X7: when the HTTP bridge runs and the SOCKS bridge cannot be spawned,
    the HTTP bridge is sent SIGTERM and the call fails without polling. *)
Theorem socks_spawn_failure (hp : Z) :
  httpPid tl = Some hp -> hp <> 0 ->
  pid_truthy (socksPid tl) = false ->
  initializeFreeBSDNetworkBridge httpProxyPort socksProxyPort tl
  = ([spawnHttp; spawnSocks; Kill hp "SIGTERM"],
     Rejected "Failed to start SOCKS bridge process").
Proof.
  intros Hhp Hz Hs0. unfold initializeFreeBSDNetworkBridge.
  rewrite Hs0, Hhp. unfold try_kill.
  rewrite (BridgeFacts.pid_truthy_Some hp Hz). reflexivity.
Qed.

Lemma poll_becomes_ready j : forall remaining i,
  (i + remaining = maxAttempts)%nat -> (i <= j < maxAttempts)%nat ->
  (forall k, (i <= k <= j)%nat -> died tl k = false) ->
  (forall k, (i <= k < j)%nat -> snd (sockets_ready tl k h s) = false) ->
  fileExists tl j h = true -> fileExists tl j s = true ->
  poll tl h s remaining i =
    (flat_map (waiting tl h s) (seq i (j - i))
       ++ [CheckAlive j; ExistsSync j h; ExistsSync j s], None).
Proof.
  induction remaining as [|r IH]; intros i Hsum Hj Halive Hnot Hh Hs; [lia|].
  cbn [poll]. rewrite (Halive i) by lia.
  destruct (Nat.eq_dec i j) as [->|Hne].
  - unfold sockets_ready. rewrite Hh, Hs, Nat.sub_diag. reflexivity.
  - pose proof (Hnot i ltac:(lia)) as Hnr.
    destruct (sockets_ready tl i h s) as [checks ready] eqn:E. simpl in Hnr. subst ready.
    destruct (Nat.eqb_spec i (maxAttempts - 1)) as [->|Hne']; [lia|].
    rewrite (IH (S i)) by (try assumption; try intros; try apply Halive; try apply Hnot; lia).
    replace (j - i)%nat with (S (j - S i)) by lia.
    cbn [seq flat_map]. unfold waiting at 2, attempt_checks. rewrite E. simpl.
    rewrite <- !app_assoc. reflexivity.
Qed.

(** X8: both bridges were spawned, stay unmarked up to attempt [j], and
    [j] is the first attempt at which both socket files are there: the call
    resolves at attempt [j] with the two socket paths, the process handles
    and the ports it was given, having slept after each earlier attempt and
    signalled no one. *)
Theorem bridge_ready_at (hp sp : Z) (j : nat) :
  httpPid tl = Some hp -> hp <> 0 ->
  socksPid tl = Some sp -> sp <> 0 ->
  (j < maxAttempts)%nat ->
  (forall k, (k <= j)%nat -> httpKilled tl k = false /\ socksKilled tl k = false) ->
  (forall k, (k < j)%nat -> fileExists tl k h = false \/ fileExists tl k s = false) ->
  fileExists tl j h = true -> fileExists tl j s = true ->
  initializeFreeBSDNetworkBridge httpProxyPort socksProxyPort tl =
    (spawnHttp :: spawnSocks :: flat_map (waiting tl h s) (seq 0 j)
       ++ [CheckAlive j; ExistsSync j h; ExistsSync j s],
     Resolved {| ctx_httpSocketPath := h;
                 ctx_socksSocketPath := s;
                 ctx_httpBridgePid := Some hp;
                 ctx_socksBridgePid := Some sp;
                 ctx_httpProxyPort := httpProxyPort;
                 ctx_socksProxyPort := socksProxyPort |}).
Proof.
  intros Hhp Hhz Hsp Hsz Hj Halive Hnot Hh Hs.
  unfold initializeFreeBSDNetworkBridge.
  rewrite Hhp, Hsp, !BridgeFacts.pid_truthy_Some by assumption. simpl negb. cbv iota.
  rewrite (poll_becomes_ready j maxAttempts 0); try assumption; try lia.
  - rewrite Nat.sub_0_r, <- Hhp, <- Hsp. reflexivity.
  - intros k Hk. destruct (Halive k ltac:(lia)) as [E1 E2]. unfold died.
    rewrite Hhp, Hsp, !BridgeFacts.pid_truthy_Some, E1, E2 by assumption. reflexivity.
  - intros k Hk. unfold sockets_ready.
    destruct (Hnot k ltac:(lia)) as [E|E]; destruct (fileExists tl k h); simpl; congruence.
Qed.

Lemma poll_left_quietly : forall remaining i events,
  (i + remaining = maxAttempts)%nat -> (0 < remaining)%nat ->
  poll tl h s remaining i = (events, None) ->
  existsb is_kill events = false /\
  exists j, (i <= j < maxAttempts)%nat /\ died tl j = false /\
            fileExists tl j h = true /\ fileExists tl j s = true.
Proof.
  induction remaining as [|r IH]; intros i events Hsum Hpos Hp; [lia|].
  cbn [poll] in Hp. destruct (died tl i) eqn:Ed; [discriminate Hp|].
  unfold sockets_ready in Hp.
  destruct (fileExists tl i h) eqn:Eh; [destruct (fileExists tl i s) eqn:Es|].
  - inversion Hp; subst. split; [reflexivity|]. exists i. repeat split; (lia || assumption).
  - destruct (Nat.eqb_spec i (maxAttempts - 1)) as [->|Hne];
      cbv beta iota in Hp; [discriminate Hp|].
    destruct (poll tl h s r (S i)) as [later thrown] eqn:Ep.
    inversion Hp; subst.
    destruct (IH (S i) later) as (Hk & j & Hj & Hrest); try assumption;
      try (unfold maxAttempts in *; lia).
    split; [exact Hk|]. exists j. split; [lia|exact Hrest].
  - destruct (Nat.eqb_spec i (maxAttempts - 1)) as [->|Hne];
      cbv beta iota in Hp; [discriminate Hp|].
    destruct (poll tl h s r (S i)) as [later thrown] eqn:Ep.
    inversion Hp; subst.
    destruct (IH (S i) later) as (Hk & j & Hj & Hrest); try assumption;
      try (unfold maxAttempts in *; lia).
    split; [exact Hk|]. exists j. split; [lia|exact Hrest].
Qed.

(** X9: a context is handed out only for bridges that were seen ready:
    if the call resolves, then at one of the five attempts both processes
    passed the liveness check and both socket files were there, the context
    names exactly these two socket paths, and no signal was sent. *)
Theorem resolved_means_ready events ctx :
  initializeFreeBSDNetworkBridge httpProxyPort socksProxyPort tl = (events, Resolved ctx) ->
  existsb is_kill events = false /\
  ctx_httpSocketPath ctx = h /\ ctx_socksSocketPath ctx = s /\
  exists j, (j < maxAttempts)%nat /\ died tl j = false /\
            fileExists tl j h = true /\ fileExists tl j s = true.
Proof.
  unfold initializeFreeBSDNetworkBridge. intros Hr.
  destruct (pid_truthy (httpPid tl)); [|discriminate Hr].
  destruct (pid_truthy (socksPid tl)); [|discriminate Hr].
  simpl negb in Hr. cbv iota in Hr.
  destruct (poll tl h s maxAttempts 0) as [polled thrown] eqn:Ep.
  destruct thrown as [msg|]; [discriminate Hr|]. inversion Hr; subst. simpl.
  destruct (poll_left_quietly maxAttempts 0 polled) as (Hk & j & Hj & Hrest);
    try assumption; try (unfold maxAttempts; lia).
  repeat split; try reflexivity; try assumption.
  exists j. split; [lia|exact Hrest].
Qed.

Lemma total_sleep_app a b : total_sleep (a ++ b) = total_sleep a + total_sleep b.
Proof.
  induction a as [|e a IH]; [reflexivity|].
  change (sleep_ms e + total_sleep (a ++ b) = sleep_ms e + total_sleep a + total_sleep b).
  rewrite IH. lia.
Qed.

Lemma liveness_checks_app a b :
  liveness_checks (a ++ b) = (liveness_checks a + liveness_checks b)%nat.
Proof. unfold liveness_checks. now rewrite List.filter_app, length_app. Qed.

Lemma checks_do_not_sleep i :
  total_sleep (fst (sockets_ready tl i h s)) = 0 /\
  liveness_checks (fst (sockets_ready tl i h s)) = 0%nat.
Proof. unfold sockets_ready. destruct (fileExists tl i h); split; reflexivity. Qed.

Lemma kills_do_not_sleep p :
  total_sleep (try_kill p) = 0 /\ liveness_checks (try_kill p) = 0%nat.
Proof.
  destruct p as [z|]; [|split; reflexivity].
  unfold try_kill. destruct (pid_truthy _); split; reflexivity.
Qed.

Lemma poll_within_budget : forall remaining i,
  (i + remaining = maxAttempts)%nat -> (0 < remaining)%nat ->
  0 <= total_sleep (fst (poll tl h s remaining i)) <= sleep_budget i /\
  (liveness_checks (fst (poll tl h s remaining i)) <= remaining)%nat.
Proof.
  induction remaining as [|r IH]; intros i Hsum Hpos; [lia|].
  assert (i <= 4)%nat as Hi by (unfold maxAttempts in *; lia).
  assert (0 <= sleep_budget i) as Hb by (unfold sleep_budget; nia).
  cbn [poll]. destruct (died tl i); [cbn; split; lia|].
  destruct (checks_do_not_sleep i) as [Hc0 Hcf].
  destruct (sockets_ready tl i h s) as [checks ready]. cbn [fst] in Hc0, Hcf.
  destruct ready.
  - cbn [fst].
    change (CheckAlive i :: checks) with ([CheckAlive i] ++ checks).
    rewrite total_sleep_app, liveness_checks_app, Hc0, Hcf.
    change (total_sleep [CheckAlive i]) with 0.
    change (liveness_checks [CheckAlive i]) with 1%nat.
    split; lia.
  - destruct (Nat.eqb_spec i (maxAttempts - 1)) as [->|Hne].
    + cbn [fst]. destruct (kills_do_not_sleep (httpPid tl)) as [Hk1 Hf1].
      destruct (kills_do_not_sleep (socksPid tl)) as [Hk2 Hf2].
      change (CheckAlive (maxAttempts - 1) :: checks ++ ?l)
        with ([CheckAlive (maxAttempts - 1)] ++ checks ++ l).
      rewrite !total_sleep_app, !liveness_checks_app, Hc0, Hcf, Hk1, Hk2, Hf1, Hf2.
      change (sleep_budget (maxAttempts - 1)) with 0.
      change (total_sleep [CheckAlive (maxAttempts - 1)]) with 0.
      change (liveness_checks [CheckAlive (maxAttempts - 1)]) with 1%nat.
      split; lia.
    + destruct (IH (S i)) as [Hs Hn]; try (unfold maxAttempts in *; lia).
      destruct (poll tl h s r (S i)) as [later thrown]. cbn [fst] in *.
      change (CheckAlive i :: checks ++ Sleep (Z.of_nat i * 100) :: later)
        with ([CheckAlive i] ++ checks ++ [Sleep (Z.of_nat i * 100)] ++ later).
      rewrite !total_sleep_app, !liveness_checks_app, Hc0, Hcf.
      change (total_sleep [CheckAlive i]) with 0.
      change (total_sleep [Sleep (Z.of_nat i * 100)]) with (Z.of_nat i * 100 + 0).
      change (liveness_checks [CheckAlive i]) with 1%nat.
      change (liveness_checks [Sleep (Z.of_nat i * 100)]) with 0%nat.
      split; [|lia].
      unfold sleep_budget in *. unfold maxAttempts in *. nia.
Qed.

(** X10: whatever the processes and the file system do, one call makes at
    most five liveness checks and asks the timer for at most 600 ms in
    total. *)
Theorem polling_is_bounded :
  0 <= total_sleep (fst (initializeFreeBSDNetworkBridge httpProxyPort socksProxyPort tl)) <= 600 /\
  (liveness_checks (fst (initializeFreeBSDNetworkBridge httpProxyPort socksProxyPort tl)) <= 5)%nat.
Proof.
  unfold initializeFreeBSDNetworkBridge.
  destruct (pid_truthy (httpPid tl)); [|cbn; split; lia].
  destruct (pid_truthy (socksPid tl)).
  - simpl negb. cbv iota.
    destruct (poll_within_budget maxAttempts 0) as [Hs Hn]; try (unfold maxAttempts; lia).
    destruct (poll tl h s maxAttempts 0) as [polled thrown]. cbn [fst] in *.
    change (sleep_budget 0) with 600 in Hs. unfold maxAttempts in Hn.
    change (spawnHttp :: spawnSocks :: polled) with ([spawnHttp; spawnSocks] ++ polled).
    rewrite total_sleep_app, liveness_checks_app.
    change (total_sleep [spawnHttp; spawnSocks]) with 0.
    change (liveness_checks [spawnHttp; spawnSocks]) with 0%nat.
    split; lia.
  - simpl negb. cbv iota. cbn [fst].
    destruct (kills_do_not_sleep (httpPid tl)) as [Hk Hf].
    change (spawnHttp :: spawnSocks :: try_kill (httpPid tl))
      with ([spawnHttp; spawnSocks] ++ try_kill (httpPid tl)).
    rewrite total_sleep_app, liveness_checks_app, Hk, Hf.
    change (total_sleep [spawnHttp; spawnSocks]) with 0.
    change (liveness_checks [spawnHttp; spawnSocks]) with 0%nat.
    split; lia.
Qed.

End Initializer.

Lemma http_spawn_failure_witness :
  initializeFreeBSDNetworkBridge (H := Sample.sample_host) 8080 1081
    {| socketId := "aa"; httpPid := None; socksPid := Some 7;
       httpKilled := fun _ => false; socksKilled := fun _ => false;
       fileExists := fun _ _ => true |}
  = ([Spawn "socat" ["UNIX-LISTEN:/tmp/claude-http-aa.sock,fork,reuseaddr";
                      "TCP:localhost:8080,keepalive,keepidle=10,keepintvl=5,keepcnt=3"]],
     Rejected "Failed to start HTTP bridge process").
Proof. refine (http_spawn_failure 8080 1081 _ _). reflexivity. Defined.

Lemma socks_spawn_failure_witness :
  initializeFreeBSDNetworkBridge (H := Sample.sample_host) 8080 1081
    {| socketId := "aa"; httpPid := Some 4001; socksPid := None;
       httpKilled := fun _ => false; socksKilled := fun _ => false;
       fileExists := fun _ _ => true |}
  = ([Spawn "socat" ["UNIX-LISTEN:/tmp/claude-http-aa.sock,fork,reuseaddr";
                      "TCP:localhost:8080,keepalive,keepidle=10,keepintvl=5,keepcnt=3"];
      Spawn "socat" ["UNIX-LISTEN:/tmp/claude-socks-aa.sock,fork,reuseaddr";
                      "TCP:localhost:1081,keepalive,keepidle=10,keepintvl=5,keepcnt=3"];
      Kill 4001 "SIGTERM"],
     Rejected "Failed to start SOCKS bridge process").
Proof. refine (socks_spawn_failure 8080 1081 _ 4001 _ _ _); [reflexivity|lia|reflexivity]. Defined.

End BridgeProperties.

(** ** The Mount Planner: what it leaves on the host and what it plans *)

Section PlannerProperties.
Context `{Host}.

Lemma mkdir_all_creates_last ps : forall d f f',
  mkdir_all (ps ++ [d]) f = Some f' -> is_Some (f' !! d).
Proof.
  induction ps as [|p rest IH]; simpl; intros d f f' Hm.
  - unfold mkdir_one in Hm. destruct (f !! d) as [[|c]|] eqn:E; inversion Hm; subst.
    + rewrite E. eauto.
    + rewrite lookup_insert_eq. eauto.
  - destruct (mkdir_one p f) as [f1|]; [|discriminate Hm]. eapply IH. exact Hm.
Qed.

Lemma ensureDir_exists d w u w' : ensureDir d w = Ok u w' -> is_Some (fs w' !! d).
Proof.
  unfold ensureDir. intros Hr. apply bind_Ok in Hr as (e & w1 & He & Hr).
  apply existsSync_Ok in He as [-> He]. destruct e; simpl in Hr.
  - inversion Hr; subst. now apply He.
  - unfold mkdirSync_recursive in Hr.
    destruct (mkdir_all _ _) as [f'|] eqn:Hm; inversion Hr; subst. simpl.
    eapply mkdir_all_creates_last. exact Hm.
Qed.

Lemma present_stable w w' p : stable w w' -> is_Some (fs w !! p) -> is_Some (fs w' !! p).
Proof. intros Hs [n Hn]. destruct (Hs p n Hn) as (n' & Hn' & _). eauto. Qed.

Lemma essentialDirs_created jailPath : forall l u w u' w',
  forEach l (essentialDir_body jailPath) u w = Ok u' w' ->
  forall dir, In dir l -> is_Some (fs w' !! join jailPath dir).
Proof.
  induction l as [|d rest IH]; intros u w u' w' Hr dir Hin; [destruct Hin|].
  simpl in Hr. apply bind_Ok in Hr as (u1 & w1 & Hbody & Hrest).
  destruct Hin as [->|Hin]; [|eapply IH; eassumption].
  eapply present_stable.
  - eapply Stable_Ok; [|exact Hrest]. apply Stable_forEach. intros. apply Stable_essentialDir_body.
  - unfold essentialDir_body in Hbody. eapply ensureDir_exists. exact Hbody.
Qed.

(** The planner has three stages after the directory loop. *)
Lemma generate_stages jailPath rc wc w acc w' :
  generateJailFilesystemConfig jailPath rc wc w = Ok acc w' ->
  exists u w0 acc1 w1 acc2 w2,
    forEach essentialDirs (essentialDir_body jailPath) tt w = Ok u w0 /\
    forEach (essentialMounts jailPath) essentialMount_body (mkLists [] []) w0 = Ok acc1 w1 /\
    write_phase jailPath wc acc1 w1 = Ok acc2 w2 /\
    read_phase jailPath rc acc2 w2 = Ok acc w'.
Proof.
  unfold generateJailFilesystemConfig. intros Hr.
  apply bind_Ok in Hr as (u & w0 & Hdirs & Hr).
  apply bind_Ok in Hr as (acc1 & w1 & Hess & Hr).
  apply bind_Ok in Hr as (acc2 & w2 & Hwrite & Hread).
  exists u, w0, acc1, w1, acc2, w2. auto.
Qed.

(** X11: when the planner returns, the six directories [/dev], [/tmp],
    [/var/tmp], [/etc], [/usr] and [/bin] exist under the jail root. *)
Theorem planner_creates_essential_dirs jailPath rc wc w acc w' dir :
  generateJailFilesystemConfig jailPath rc wc w = Ok acc w' ->
  In dir essentialDirs ->
  is_Some (fs w' !! join jailPath dir).
Proof.
  intros Hr Hin. apply generate_stages in Hr
    as (u & w0 & acc1 & w1 & acc2 & w2 & Hdirs & Hess & Hwrite & Hread).
  eapply present_stable; [|eapply essentialDirs_created; eassumption].
  eapply stable_trans; [eapply stable_trans|]; eapply Stable_Ok;
    [|exact Hess| |exact Hwrite| |exact Hread].
  - apply Stable_forEach. intros. apply Stable_essentialMount_body.
  - apply Stable_write_phase.
  - apply Stable_read_phase.
Qed.

(** *** The essential mounts *)

Lemma essential_loop : forall l acc w acc' w',
  forEach l essentialMount_body acc w = Ok acc' w' ->
  exists chosen,
    sublist chosen l /\
    (forall m, In m l -> is_Some (fs w !! src m) -> In m chosen) /\
    mounts acc' = mounts acc ++ map essential_mount_cmd chosen /\
    unmounts acc' = unmounts acc ++ map (fun m => umount_cmd (dst m)) chosen.
Proof.
  induction l as [|x rest IH]; intros acc w acc' w' Hr; simpl in Hr.
  - inversion Hr; subst. exists []. simpl. rewrite !app_nil_r.
    repeat split; [constructor|intros m []].
  - apply bind_Ok in Hr as (acc1 & w1 & Hbody & Hrest).
    assert (stable w w1) as Hs by (eapply Stable_Ok; [apply Stable_essentialMount_body|exact Hbody]).
    destruct (IH _ _ _ _ Hrest) as (chosen & Hsub & Hall & Hm & Hu).
    unfold essentialMount_body in Hbody.
    apply bind_Ok in Hbody as (e & w0 & He & Hbody).
    apply existsSync_Ok in He as [-> He]. destruct e; simpl in Hbody.
    + apply bind_Ok in Hbody as (u & w2 & Hmk & Hret). inversion Hret; subst.
      exists (x :: chosen). simpl in *. rewrite Hm, Hu, <- !app_assoc.
      repeat split; [now apply sublist_skip|].
      intros m [->|Hin] Hp; [now left|right]. apply Hall; [assumption|].
      eapply present_stable; eassumption.
    + inversion Hbody; subst. exists chosen.
      repeat split; [now apply sublist_cons| |assumption|assumption].
      intros m [->|Hin] Hp; [|now apply Hall].
      apply He in Hp. discriminate Hp.
Qed.

(** X12: without any policy the plan is the essential mounts followed by a
    read-write bind of the working directory.  The essential mounts are
    taken from the fixed list in its order, each one whose source the
    planner finds on the host; a source that is on the host when the
    planner starts is always among them.  The unmounts name the same mount
    points in the same order. *)
Theorem plan_without_policy jailPath w acc w' :
  generateJailFilesystemConfig jailPath None None w = Ok acc w' ->
  exists chosen,
    sublist chosen (essentialMounts jailPath) /\
    (forall m, In m (essentialMounts jailPath) -> is_Some (fs w !! src m) -> In m chosen) /\
    mounts acc = map essential_mount_cmd chosen ++ [rw_bind_cmd cwd (join jailPath cwd)] /\
    unmounts acc = map (fun m => umount_cmd (dst m)) chosen ++ [umount_cmd (join jailPath cwd)].
Proof.
  intros Hr. apply generate_stages in Hr
    as (u & w0 & acc1 & w1 & acc2 & w2 & Hdirs & Hess & Hwrite & Hread).
  simpl in Hread. inversion Hread; subst acc2 w2. clear Hread.
  unfold write_phase in Hwrite. apply bind_Ok in Hwrite as (u1 & w3 & Hmk & Hret).
  inversion Hret; subst. clear Hret.
  apply essential_loop in Hess as (chosen & Hsub & Hall & Hm & Hu).
  simpl in Hm, Hu. exists chosen. simpl. rewrite Hm, Hu.
  repeat split; try assumption.
  intros m Hin Hp. apply Hall; [assumption|].
  eapply present_stable; [|exact Hp].
  eapply Stable_Ok; [|exact Hdirs]. apply Stable_forEach. intros. apply Stable_essentialDir_body.
Qed.

(** *** Mounts and unmounts are pushed in pairs *)

Lemma forEach_pairs {A} (body : A -> MountLists -> M MountLists)
    (P : A -> string -> string -> Prop) : forall l,
  (forall x acc w acc' w', In x l -> body x acc w = Ok acc' w' ->
     adds_pair_at_most (P x) acc acc') ->
  forall acc w acc' w', forEach l body acc w = Ok acc' w' ->
  exists ms us,
    mounts acc' = mounts acc ++ ms /\
    unmounts acc' = unmounts acc ++ us /\
    Forall2 (fun m u => exists x, In x l /\ P x m u) ms us.
Proof.
  induction l as [|x rest IH]; intros Hb acc w acc' w' Hr; simpl in Hr.
  - inversion Hr; subst. exists [], []. rewrite !app_nil_r. repeat split. constructor.
  - apply bind_Ok in Hr as (acc1 & w1 & Hbody & Hrest).
    destruct (IH (fun y a v a' v' Hy => Hb y a v a' v' (or_intror Hy)) _ _ _ _ Hrest)
      as (ms & us & Hm & Hu & HP).
    assert (Forall2 (fun m u => exists y, In y (x :: rest) /\ P y m u) ms us) as HP'.
    { eapply Forall2_impl; [exact HP|]. intros m u (y & Hy & Hpm).
      exists y. split; [now right|assumption]. }
    destruct (Hb x acc w acc1 w1 (or_introl eq_refl) Hbody) as [->|(m & u & Hpm & ->)].
    + exists ms, us. repeat split; assumption.
    + exists (m :: ms), (u :: us). rewrite Hm, Hu. simpl. rewrite <- !app_assoc.
      repeat split. constructor; [|assumption]. exists x. split; [now left|assumption].
Qed.

Lemma essentialMount_body_pair mount acc w acc' w' :
  essentialMount_body mount acc w = Ok acc' w' ->
  adds_pair_at_most
    (fun m u => m = essential_mount_cmd mount /\ u = umount_cmd (dst mount)) acc acc'.
Proof.
  unfold essentialMount_body. intros Hr. inv_ok; [now left|].
  right. do 2 eexists. repeat split.
Qed.

Lemma allow_body_pair jailPath x acc w acc' w' :
  allow_body jailPath x acc w = Ok acc' w' ->
  adds_pair_at_most
    (fun m u =>
       m = rw_bind_cmd (normalizePathForSandbox x) (join jailPath (normalizePathForSandbox x)) /\
       u = umount_cmd (join jailPath (normalizePathForSandbox x))) acc acc'.
Proof.
  unfold allow_body. intros Hr. inv_ok; [now left|now left|].
  right. do 2 eexists. repeat split.
Qed.

Lemma deny_body_pair jailPath x acc w acc' w' :
  deny_body jailPath x acc w = Ok acc' w' ->
  adds_pair_at_most
    (fun m u =>
       m = ro_bind_cmd (normalizePathForSandbox x) (join jailPath (normalizePathForSandbox x)) /\
       u = umount_cmd (join jailPath (normalizePathForSandbox x))) acc acc'.
Proof.
  unfold deny_body. intros Hr. inv_ok; [now left|now left|].
  right. do 2 eexists. repeat split.
Qed.

Lemma hide_body_pair jailPath x acc w acc' w' :
  hide_body jailPath x acc w = Ok acc' w' ->
  adds_pair_at_most
    (fun m u =>
       (m = tmpfs_cmd (join jailPath (normalizePathForSandbox x)) \/
        exists n, m = ro_bind_cmd (join tmpdir ("empty-" +:+ randomHex n))
                        (join jailPath (normalizePathForSandbox x))) /\
       u = umount_cmd (join jailPath (normalizePathForSandbox x))) acc acc'.
Proof.
  unfold hide_body. intros Hr.
  apply bind_Ok in Hr as (e & w1 & He & Hr). destruct e; simpl in Hr;
    [|inversion Hr; subst; now left].
  apply bind_Ok in Hr as (dir & w2 & Hdir & Hr).
  apply bind_Ok in Hr as (u & w3 & Hmk & Hr).
  apply bind_Ok in Hr as (d & w4 & Hstat & Hr).
  destruct d.
  - inversion Hr; subst. right. do 2 eexists. split; [split; [left|]; reflexivity|reflexivity].
  - apply bind_Ok in Hr as (hh & w5 & Hrand & Hr).
    apply bind_Ok in Hr as (u' & w6 & Hwrite & Hr).
    inversion Hr; subst. unfold randomBytes_hex in Hrand. inversion Hrand; subst.
    right. do 2 eexists. split; [split; [right; eexists|]; reflexivity|reflexivity].
Qed.

(** The planner's two lists run in step: the i-th unmount is the unmount of
    the mount point of the i-th mount, as the push site that made the mount
    computed it. *)
Lemma planner_pushes_in_step jailPath rc wc w acc w' :
  generateJailFilesystemConfig jailPath rc wc w = Ok acc w' ->
  Forall2 (PlannedPair jailPath rc wc) (mounts acc) (unmounts acc).
Proof.
  intros Hr. apply generate_stages in Hr
    as (u & w0 & acc1 & w1 & acc2 & w2 & Hdirs & Hess & Hwrite & Hread).
  destruct (forEach_pairs essentialMount_body
              (fun x m u => m = essential_mount_cmd x /\ u = umount_cmd (dst x))
              (essentialMounts jailPath)
              (fun x a v a' v' _ Hb => essentialMount_body_pair x a v a' v' Hb)
              _ _ _ _ Hess) as (ms1 & us1 & Hm1 & Hu1 & HP1).
  simpl in Hm1, Hu1.
  assert (Forall2 (PlannedPair jailPath rc wc) ms1 us1) as HO1.
  { eapply Forall2_impl; [exact HP1|]. intros m v (x & Hx & -> & ->). now apply pair_essential. }
  assert (exists ms2 us2, mounts acc2 = mounts acc1 ++ ms2 /\
                          unmounts acc2 = unmounts acc1 ++ us2 /\
                          Forall2 (PlannedPair jailPath rc wc) ms2 us2)
    as (ms2 & us2 & Hm2 & Hu2 & HO2).
  { unfold write_phase in Hwrite. destruct wc as [config|].
    - apply bind_Ok in Hwrite as (accA & wA & Hallow & Hdeny).
      destruct (forEach_pairs (allow_body jailPath) _ _
                  (fun x a v a' v' _ Hb => allow_body_pair jailPath x a v a' v' Hb)
                  _ _ _ _ Hallow) as (ma & ua & Hma & Hua & HPa).
      destruct (forEach_pairs (deny_body jailPath) _ _
                  (fun x a v a' v' _ Hb => deny_body_pair jailPath x a v a' v' Hb)
                  _ _ _ _ Hdeny) as (md & ud & Hmd & Hud & HPd).
      exists (ma ++ md), (ua ++ ud). rewrite Hmd, Hma, Hud, Hua, <- !app_assoc.
      repeat split. apply Forall2_app.
      + eapply Forall2_impl; [exact HPa|]. intros m v (x & Hx & -> & ->).
        eapply pair_allow; eauto.
      + eapply Forall2_impl; [exact HPd|]. intros m v (x & Hx & -> & ->).
        eapply pair_deny; eauto.
    - apply bind_Ok in Hwrite as (u1 & w3 & Hmk & Hret). inversion Hret; subst.
      exists [rw_bind_cmd cwd (join jailPath cwd)], [umount_cmd (join jailPath cwd)].
      simpl. repeat split. repeat constructor. }
  assert (exists ms3 us3, mounts acc = mounts acc2 ++ ms3 /\
                          unmounts acc = unmounts acc2 ++ us3 /\
                          Forall2 (PlannedPair jailPath rc wc) ms3 us3)
    as (ms3 & us3 & Hm3 & Hu3 & HO3).
  { unfold read_phase in Hread. destruct rc as [config|].
    - destruct (denyOnly config) as [paths|] eqn:Ed.
      + destruct (forEach_pairs (hide_body jailPath) _ _
                    (fun x a v a' v' _ Hb => hide_body_pair jailPath x a v a' v' Hb)
                    _ _ _ _ Hread) as (mh & uh & Hmh & Huh & HPh).
        exists mh, uh. repeat split; try assumption.
        eapply Forall2_impl; [exact HPh|]. intros m v (x & Hx & [->|[n ->]] & ->).
        * eapply pair_hide_dir; eauto.
        * eapply pair_hide_file; eauto.
      + inversion Hread; subst. exists [], []. rewrite !app_nil_r. repeat split. constructor.
    - inversion Hread; subst. exists [], []. rewrite !app_nil_r. repeat split. constructor. }
  rewrite Hm3, Hm2, Hm1, Hu3, Hu2, Hu1.
  repeat apply Forall2_app; assumption.
Qed.

(** C10 (as the code has it): the lists the planner returns have equal
    length and are paired by position: the i-th unmount command is the
    [umount] of the mount point of the i-th mount command, as the push site
    that made the mount computed it.  Binding the bridge sockets adds the
    two socket mounts at the back and their two unmounts at the front, so
    the lists stay of equal length.  A mount point that is mounted more than
    once is unmounted as many times, not once. *)
Theorem C10_mounts_and_unmounts_pair_up jailPath rc wc w acc w' :
  generateJailFilesystemConfig jailPath rc wc w = Ok acc w' ->
  length (mounts acc) = length (unmounts acc) /\
  Forall2 (PlannedPair jailPath rc wc) (mounts acc) (unmounts acc) /\
  forall hp sp,
    mounts (bind_sockets jailPath hp sp acc)
      = mounts acc ++ [rw_bind_cmd hp (join jailPath hp); rw_bind_cmd sp (join jailPath sp)] /\
    unmounts (bind_sockets jailPath hp sp acc)
      = umount_cmd (join jailPath sp) :: umount_cmd (join jailPath hp) :: unmounts acc /\
    length (mounts (bind_sockets jailPath hp sp acc))
      = length (unmounts (bind_sockets jailPath hp sp acc)).
Proof.
  intros Hr. pose proof (planner_pushes_in_step _ _ _ _ _ _ Hr) as F.
  pose proof (Forall2_length _ _ _ F) as Hl.
  split; [assumption|]. split; [assumption|]. intros hp sp.
  destruct (bind_sockets_lists jailPath hp sp acc) as [Hm Hu].
  split; [assumption|]. split; [assumption|].
  rewrite Hm, Hu, length_app. simpl. lia.
Qed.

(** *** Every mount is accounted for *)

Lemma forEach_adds {A} (body : A -> MountLists -> M MountLists)
    (P : A -> string -> Prop) : forall l,
  (forall x acc w acc' w', In x l -> body x acc w = Ok acc' w' ->
     adds_at_most_one (P x) acc acc') ->
  forall acc w acc' w', forEach l body acc w = Ok acc' w' ->
  exists ms, mounts acc' = mounts acc ++ ms /\
             (length ms <= length l)%nat /\
             Forall (fun m => exists x, In x l /\ P x m) ms.
Proof.
  induction l as [|x rest IH]; intros Hb acc w acc' w' Hr; simpl in Hr.
  - inversion Hr; subst. exists []. rewrite app_nil_r. repeat split; [simpl; lia|constructor].
  - apply bind_Ok in Hr as (acc1 & w1 & Hbody & Hrest).
    destruct (IH (fun y a v a' v' Hy => Hb y a v a' v' (or_intror Hy)) _ _ _ _ Hrest)
      as (ms & Hm & Hlen & HP).
    assert (Forall (fun m => exists y, In y (x :: rest) /\ P y m) ms) as HP'.
    { eapply Forall_impl; [exact HP|]. intros m (y & Hy & Hpm). exists y. split; [now right|assumption]. }
    destruct (Hb x acc w acc1 w1 (or_introl eq_refl) Hbody) as [Hsame|(m & Hpm & Hadd)].
    + exists ms. rewrite Hm, Hsame. repeat split; [simpl; lia|assumption].
    + exists (m :: ms). rewrite Hm, Hadd, <- app_assoc. repeat split; [simpl; lia|].
      constructor; [|assumption]. exists x. split; [now left|assumption].
Qed.

Lemma essentialMount_body_adds mount acc w acc' w' :
  essentialMount_body mount acc w = Ok acc' w' ->
  adds_at_most_one (fun m => m = essential_mount_cmd mount) acc acc'.
Proof.
  unfold essentialMount_body. intros Hr. inv_ok; [now left|]. right. eexists. split; reflexivity.
Qed.

Lemma allow_body_adds jailPath x acc w acc' w' :
  allow_body jailPath x acc w = Ok acc' w' ->
  adds_at_most_one
    (fun m => String.prefix "/dev/" (normalizePathForSandbox x) = false /\
              m = rw_bind_cmd (normalizePathForSandbox x)
                    (join jailPath (normalizePathForSandbox x))) acc acc'.
Proof.
  unfold allow_body. intros Hr.
  destruct (String.prefix "/dev/" (normalizePathForSandbox x)) eqn:E;
    inv_ok; [now left|now left|].
  right. eexists. repeat split; reflexivity.
Qed.

Lemma deny_body_adds jailPath x acc w acc' w' :
  deny_body jailPath x acc w = Ok acc' w' ->
  adds_at_most_one
    (fun m => String.prefix "/dev/" (normalizePathForSandbox x) = false /\
              m = ro_bind_cmd (normalizePathForSandbox x)
                    (join jailPath (normalizePathForSandbox x))) acc acc'.
Proof.
  unfold deny_body. intros Hr.
  destruct (String.prefix "/dev/" (normalizePathForSandbox x)) eqn:E;
    inv_ok; [now left|now left|].
  right. eexists. repeat split; reflexivity.
Qed.

Lemma hide_body_adds jailPath x acc w acc' w' :
  hide_body jailPath x acc w = Ok acc' w' ->
  adds_at_most_one
    (fun m => m = tmpfs_cmd (join jailPath (normalizePathForSandbox x)) \/
              exists n, m = ro_bind_cmd (join tmpdir ("empty-" +:+ randomHex n))
                              (join jailPath (normalizePathForSandbox x))) acc acc'.
Proof.
  unfold hide_body. intros Hr.
  apply bind_Ok in Hr as (e & w1 & He & Hr). destruct e; simpl in Hr;
    [|inversion Hr; subst; now left].
  apply bind_Ok in Hr as (dir & w2 & Hdir & Hr).
  apply bind_Ok in Hr as (u & w3 & Hmk & Hr).
  apply bind_Ok in Hr as (d & w4 & Hstat & Hr).
  destruct d.
  - inversion Hr; subst. right. eexists. split; [left; reflexivity|reflexivity].
  - apply bind_Ok in Hr as (hh & w5 & Hrand & Hr).
    apply bind_Ok in Hr as (u' & w6 & Hwrite & Hr).
    inversion Hr; subst. unfold randomBytes_hex in Hrand. inversion Hrand; subst.
    right. eexists. split; [right; eexists; reflexivity|reflexivity].
Qed.

Lemma planner_mounts_accounted jailPath rc wc w acc w' :
  generateJailFilesystemConfig jailPath rc wc w = Ok acc w' ->
  Forall (PlannedMount jailPath rc wc) (mounts acc) /\
  (length (mounts acc) <= 6 + write_budget wc + read_budget rc)%nat.
Proof.
  intros Hr. apply generate_stages in Hr
    as (u & w0 & acc1 & w1 & acc2 & w2 & Hdirs & Hess & Hwrite & Hread).
  (* essential mounts *)
  destruct (forEach_adds essentialMount_body (fun x m => m = essential_mount_cmd x)
              (essentialMounts jailPath)
              (fun x a v a' v' _ Hb => essentialMount_body_adds x a v a' v' Hb)
              _ _ _ _ Hess) as (ms1 & Hm1 & Hl1 & HP1).
  simpl in Hm1, Hl1.
  assert (Forall (PlannedMount jailPath rc wc) ms1) as HO1.
  { eapply Forall_impl; [exact HP1|]. intros m (x & Hx & ->). now apply planned_essential. }
  (* the write policy *)
  assert (exists ms2, mounts acc2 = mounts acc1 ++ ms2 /\
                      (length ms2 <= write_budget wc)%nat /\
                      Forall (PlannedMount jailPath rc wc) ms2) as (ms2 & Hm2 & Hl2 & HO2).
  { unfold write_phase in Hwrite. destruct wc as [config|].
    - apply bind_Ok in Hwrite as (accA & wA & Hallow & Hdeny).
      destruct (forEach_adds (allow_body jailPath) _ _
                  (fun x a v a' v' _ Hb => allow_body_adds jailPath x a v a' v' Hb)
                  _ _ _ _ Hallow) as (ma & Hma & Hla & HPa).
      destruct (forEach_adds (deny_body jailPath) _ _
                  (fun x a v a' v' _ Hb => deny_body_adds jailPath x a v a' v' Hb)
                  _ _ _ _ Hdeny) as (md & Hmd & Hld & HPd).
      exists (ma ++ md). rewrite Hmd, Hma, <- app_assoc. split; [reflexivity|].
      split; [rewrite length_app; simpl; lia|]. apply Forall_app. split.
      + eapply Forall_impl; [exact HPa|]. intros m (x & Hx & Hdev & ->).
        eapply planned_allow; eauto.
      + eapply Forall_impl; [exact HPd|]. intros m (x & Hx & Hdev & ->).
        eapply planned_deny; eauto.
    - apply bind_Ok in Hwrite as (u1 & w3 & Hmk & Hret). inversion Hret; subst.
      exists [rw_bind_cmd cwd (join jailPath cwd)]. simpl.
      repeat split; [lia|]. repeat constructor. }
  (* the read policy *)
  assert (exists ms3, mounts acc = mounts acc2 ++ ms3 /\
                      (length ms3 <= read_budget rc)%nat /\
                      Forall (PlannedMount jailPath rc wc) ms3) as (ms3 & Hm3 & Hl3 & HO3).
  { unfold read_phase in Hread. destruct rc as [config|].
    - destruct (denyOnly config) as [paths|] eqn:Ed.
      + destruct (forEach_adds (hide_body jailPath) _ _
                    (fun x a v a' v' _ Hb => hide_body_adds jailPath x a v a' v' Hb)
                    _ _ _ _ Hread) as (mh & Hmh & Hlh & HPh).
        exists mh. split; [assumption|]. split; [simpl; now rewrite Ed|].
        eapply Forall_impl; [exact HPh|]. intros m (x & Hx & [->|[n ->]]).
        * eapply planned_hide_dir; eauto.
        * eapply planned_hide_file; eauto.
      + inversion Hread; subst. exists []. rewrite app_nil_r.
        repeat split; [simpl; lia|constructor].
    - inversion Hread; subst. exists []. rewrite app_nil_r.
      repeat split; [simpl; lia|constructor]. }
  rewrite Hm3, Hm2, Hm1. split.
  - repeat (apply Forall_app; split); assumption.
  - rewrite !length_app. lia.
Qed.

(** X13: every mount command the planner returns is accounted for: it is
    one of the six essential mounts; or the bind of the working directory,
    and then there is no write policy; or a read-write bind of an
    [allowOnly] entry or a read-only bind of a deny entry whose normalized
    path does not start with [/dev/]; or the tmpfs or the empty-file bind
    that hides a [denyOnly] entry.  Nothing else is ever mounted. *)
Theorem planner_mounts_only_what_is_asked jailPath rc wc w acc w' :
  generateJailFilesystemConfig jailPath rc wc w = Ok acc w' ->
  Forall (PlannedMount jailPath rc wc) (mounts acc).
Proof. intros Hr. apply (planner_mounts_accounted _ _ _ _ _ _ Hr). Qed.

(** X14: the plan has at most six essential mounts, one mount per entry of
    the write policy's two lists and of the mandatory deny list (or one
    mount for the working directory when there is no write policy), and
    one mount per [denyOnly] entry. *)
Theorem planner_mount_count jailPath rc wc w acc w' :
  generateJailFilesystemConfig jailPath rc wc w = Ok acc w' ->
  (length (mounts acc) <= 6 + write_budget wc + read_budget rc)%nat.
Proof. intros Hr. apply (planner_mounts_accounted _ _ _ _ _ _ Hr). Qed.

End PlannerProperties.

(** ** The Sandbox Orchestrator: host effects and the jail invocation *)

Section OrchestratorProperties.
Context `{Host}.

Lemma Stable_jail_setup params : Stable (jail_setup params).
Proof.
  unfold jail_setup.
  apply Stable_bind; [apply Stable_randomBytes|]. intros hh.
  apply Stable_bind; [apply Stable_ensureDir|]. intros u.
  apply Stable_bind; [apply Stable_generate|]. intros acc. apply Stable_ret.
Qed.

Lemma Stable_network_configuration params jailPath jailArgs acc :
  Stable (network_configuration params jailPath jailArgs acc).
Proof. unfold network_configuration. solve_stable. Qed.

Lemma Stable_wrap params : Stable (wrapCommandWithSandboxFreeBSD params).
Proof.
  unfold wrapCommandWithSandboxFreeBSD, assemble.
  destruct (negb _ && negb _); [apply Stable_ret|].
  apply Stable_bind; [|intros [[acc jailCmd] jailPath]; apply Stable_ret].
  apply Stable_bind; [apply Stable_jail_setup|].
  intros [[jailName jailPath] acc].
  apply Stable_bind; [apply Stable_network_configuration|].
  intros [jailArgs acc']. destruct (jail_command params). apply Stable_ret.
Qed.

(** X15: the orchestrator only adds to the host.  Whether it returns a
    script or throws, every path that was on the host before the call is
    still there afterwards, a directory still a directory and a file still
    a file. *)
Theorem orchestrator_keeps_host params w p n :
  fs w !! p = Some n ->
  exists n', fs (final (wrapCommandWithSandboxFreeBSD params w)) !! p = Some n' /\
             is_dir n' = is_dir n.
Proof. intros Hp. exact (Stable_wrap params w p n Hp). Qed.

(** What [jail_setup] returns, step by step. *)
Lemma jail_setup_Ok params w jailName jailPath acc w2 :
  jail_setup params w = Ok (jailName, jailPath, acc) w2 ->
  jailName = jail_name w /\ jailPath = join tmpdir (jail_name w) /\
  exists u w1,
    ensureDir jailPath (mkWorld (fs w) (S (draws w))) = Ok u w1 /\
    generateJailFilesystemConfig jailPath (readConfig params) (writeConfig params) w1
      = Ok acc w2.
Proof.
  unfold jail_setup. intros Hr.
  apply bind_Ok in Hr as (hh & w0 & Hrand & Hr).
  unfold randomBytes_hex in Hrand. inversion Hrand; subst hh w0. clear Hrand.
  apply bind_Ok in Hr as (u & w1 & Hmk & Hr).
  apply bind_Ok in Hr as (acc0 & w3 & Hgen & Hret).
  inversion Hret; subst. repeat split. exists u, w1. split; assumption.
Qed.

(** What [wrapCommandWithSandboxFreeBSD] went through when it returned a
    script. *)
Lemma wrap_Ok params w script w' :
  negb (hasNetworkRestrictions params) && negb (hasFilesystemRestrictions params) = false ->
  wrapCommandWithSandboxFreeBSD params w = Ok script w' ->
  exists acc0 w2 jailArgs acc,
    jail_setup params w = Ok (jail_name w, join tmpdir (jail_name w), acc0) w2 /\
    network_configuration params (join tmpdir (jail_name w))
      ["-c"; "name=" +:+ jail_name w; "path=" +:+ join tmpdir (jail_name w);
       "host.hostname=" +:+ jail_name w] acc0 w2 = Ok (jailArgs, acc) w' /\
    script = "sh -c " +:+ shellquote_quote
      [wrapperScript acc
         (shellquote_quote
            ("jail" :: ((jailArgs
                           ++ ["persist=0"; "allow.mount=0"; "allow.set_hostname=0";
                               "allow.sysvipc=0"])
                          ++ snd (jail_command params))
                       ++ ["command=sh -c '"
                             +:+ escape_single_quotes (fst (jail_command params)) +:+ "'"]))
         (join tmpdir (jail_name w))].
Proof.
  intros Hflag. unfold wrapCommandWithSandboxFreeBSD. rewrite Hflag. intros Hr.
  apply bind_Ok in Hr as ([[acc jailCmd] jailPath] & w3 & Hasm & Hret).
  inversion Hret; subst script w3. clear Hret.
  unfold assemble in Hasm.
  apply bind_Ok in Hasm as ([[jailName jailPath'] acc0] & w2 & Hsetup & Hasm).
  destruct (jail_setup_Ok _ _ _ _ _ _ Hsetup) as (-> & -> & _).
  apply bind_Ok in Hasm as ([jailArgs acc'] & w4 & Hnet & Hret).
  destruct (jail_command params) as [jailCommand envArgs] eqn:Ejc.
  inversion Hret; subst. clear Hret.
  exists acc0, w2, jailArgs, acc. repeat split; assumption || reflexivity.
Qed.

(** X16: when the orchestrator returns a script for a restricted command,
    the jail root [tmpdir/sbx_<hex>] exists on the host, and so do the six
    essential directories under it. *)
Theorem jail_root_is_created params w script w' :
  negb (hasNetworkRestrictions params) && negb (hasFilesystemRestrictions params) = false ->
  wrapCommandWithSandboxFreeBSD params w = Ok script w' ->
  is_Some (fs w' !! join tmpdir (jail_name w)) /\
  forall dir, In dir essentialDirs ->
    is_Some (fs w' !! join (join tmpdir (jail_name w)) dir).
Proof.
  intros Hflag Hr.
  destruct (wrap_Ok _ _ _ _ Hflag Hr) as (acc0 & w2 & jailArgs & acc & Hsetup & Hnet & _).
  destruct (jail_setup_Ok _ _ _ _ _ _ Hsetup) as (_ & _ & u & w1 & Hmk & Hgen).
  assert (stable w1 w2) as Hs12 by (eapply Stable_Ok; [apply Stable_generate|exact Hgen]).
  assert (stable w2 w') as Hs2
    by (eapply Stable_Ok; [apply Stable_network_configuration|exact Hnet]).
  split.
  - eapply present_stable; [exact (stable_trans _ _ _ Hs12 Hs2)|].
    eapply ensureDir_exists. exact Hmk.
  - intros dir Hin. eapply present_stable; [exact Hs2|].
    eapply planner_creates_essential_dirs; eassumption.
Qed.

(** X17: without network restriction the jail is invoked with exactly the
    arguments [-c], name, path and host name of the fresh jail, the two
    [inherit] settings of the host network, the four hardening settings and
    the escaped command; there is no [vnet], no [env.] argument, and the
    script mounts what the planner planned. *)
Theorem jail_invocation_without_network params w script w' :
  hasNetworkRestrictions params = false ->
  hasFilesystemRestrictions params = true ->
  wrapCommandWithSandboxFreeBSD params w = Ok script w' ->
  let jailPath := join tmpdir (jail_name w) in
  exists acc w1,
    generateJailFilesystemConfig jailPath (readConfig params) (writeConfig params) w1
      = Ok acc w' /\
    script = "sh -c " +:+ shellquote_quote
      [wrapperScript acc
         (shellquote_quote
            ["jail"; "-c"; "name=" +:+ jail_name w; "path=" +:+ jailPath;
             "host.hostname=" +:+ jail_name w;
             "ip4=inherit"; "ip6=inherit";
             "persist=0"; "allow.mount=0"; "allow.set_hostname=0"; "allow.sysvipc=0";
             "command=sh -c '" +:+ escape_single_quotes (command params) +:+ "'"])
         jailPath].
Proof.
  intros Hn Hf Hr jailPath.
  destruct (wrap_Ok _ _ _ _ ltac:(now rewrite Hn, Hf) Hr)
    as (acc0 & w2 & jailArgs & acc & Hsetup & Hnet & ->).
  destruct (jail_setup_Ok _ _ _ _ _ _ Hsetup) as (_ & _ & u & w1 & Hmk & Hgen).
  unfold network_configuration in Hnet. rewrite Hn in Hnet.
  inversion Hnet; subst. clear Hnet.
  exists acc, w1. split; [exact Hgen|].
  unfold jail_command. rewrite Hn. reflexivity.
Qed.


End OrchestratorProperties.

(** ** Running the wrapper script in general *)

Module ShellProperties.
Import Shell ShellTrace.

Section Exec.
Variable status : string -> Z.

Abbreviation and_then := (fun c : string => [AndIf; Cmd c]).
Abbreviation and_next := (fun c : string => [Semi; Cmd c]).

Lemma sep_by_cons sep c cs :
  sep_by sep (c :: cs) = Cmd c :: flat_map (fun d => [sep; Cmd d]) cs.
Proof.
  revert c. induction cs as [|d rest IH]; intros c; [reflexivity|].
  change (Cmd c :: sep :: sep_by sep (d :: rest)
          = Cmd c :: sep :: Cmd d :: flat_map (fun d => [sep; Cmd d]) rest).
  now rewrite IH.
Qed.

Lemma plain_inv c :
  plain c = true ->
  String.eqb c "" = false /\ String.eqb c exit_cmd = false /\ String.eqb c capture_cmd = false.
Proof.
  unfold plain. intros Hp.
  apply andb_true_iff in Hp as [Hp H3]. apply andb_true_iff in Hp as [H1 H2].
  apply negb_true_iff in H1, H2, H3. auto.
Qed.

(** An external command that is not skipped runs and sets [$?]. *)
Lemma exec_plain c rest st :
  plain c = true ->
  exec status (Cmd c :: rest) false st
  = exec status rest false (mkSt (status c) (EXIT_CODE st) (ran st ++ [c])).
Proof.
  intros Hp. destruct (plain_inv c Hp) as (_ & H2 & H3).
  cbn [exec]. now rewrite H2, H3.
Qed.

Lemma exec_and rest skip st :
  exec status (AndIf :: rest) skip st
  = exec status rest (negb (last_status st =? 0)) st.
Proof. reflexivity. Qed.

Lemma exec_semi rest skip st :
  exec status (Semi :: rest) skip st = exec status rest false st.
Proof. reflexivity. Qed.

(** A chain of succeeding commands after a success runs to its end. *)
Lemma exec_and_chain cs : forall rest st,
  last_status st = 0 ->
  Forall (fun c => plain c = true /\ status c = 0) cs ->
  exec status (flat_map and_then cs ++ rest) false st
  = exec status rest false (mkSt 0 (EXIT_CODE st) (ran st ++ cs)).
Proof.
  induction cs as [|c cs IH]; intros rest st H0 Hcs.
  - destruct st as [l e r]. simpl in *. subst l. now rewrite app_nil_r.
  - inversion Hcs as [|? ? [Hp Hs] Hrest]; subst.
    cbn [flat_map app]. rewrite exec_and, H0. cbn [Z.eqb negb].
    rewrite exec_plain by assumption. rewrite IH by (simpl; assumption).
    cbn [EXIT_CODE ran]. now rewrite <- app_assoc.
Qed.

(** After a failure, everything up to the next [;] is skipped. *)
Lemma exec_skips_chain chain : forall rest st,
  last_status st <> 0 ->
  forallb no_semi chain = true ->
  exec status (chain ++ rest) true st = exec status rest true st.
Proof.
  induction chain as [|t chain IH]; intros rest st Hne Hc; [reflexivity|].
  cbn [forallb] in Hc. apply andb_true_iff in Hc as [Ht Hc].
  destruct t as [c| |]; [| |discriminate Ht]; cbn [app exec].
  - now apply IH.
  - rewrite (proj2 (Z.eqb_neq _ _) Hne). cbn [negb]. now apply IH.
Qed.

Lemma incl_same_head (c : string) (a b : list string) : incl a b -> incl (c :: a) (c :: b).
Proof. intros Hi x [<-|Hx]; [now left|right; now apply Hi]. Qed.

Lemma last_cons (us : list string) : forall u v, List.last (v :: us) u = List.last us v.
Proof.
  induction us as [|x us IH]; intros u v; [reflexivity|].
  change (List.last (x :: us) u = List.last (x :: us) v). now rewrite !IH.
Qed.

(** Commands separated by [;] all run, whatever their statuses. *)
Lemma exec_semi_chain us : forall u rest st,
  Forall (fun c => plain c = true) (u :: us) ->
  exec status (Cmd u :: flat_map and_next us ++ rest) false st
  = exec status rest false
      (mkSt (status (List.last us u)) (EXIT_CODE st) (ran st ++ u :: us)).
Proof.
  induction us as [|v us IH]; intros u rest st Hp;
    inversion Hp as [|? ? Hu Hus]; subst; rewrite exec_plain by assumption.
  - reflexivity.
  - cbn [flat_map app]. rewrite exec_semi, IH by assumption.
    cbn [EXIT_CODE ran]. rewrite <- app_assoc, last_cons. reflexivity.
Qed.

(** Running tokens only ever runs commands that are among them, and it
    leaves [EXIT_CODE] alone unless the capture line is among them. *)
Lemma exec_runs_its_own ts : forall skip st,
  exists more,
    ran (snd (exec status ts skip st)) = ran st ++ more /\
    incl more (commands ts) /\
    (~ In capture_cmd (commands ts) ->
     EXIT_CODE (snd (exec status ts skip st)) = EXIT_CODE st).
Proof.
  induction ts as [|t ts IH]; intros skip st.
  - exists []. simpl. rewrite app_nil_r. repeat split. intros x [].
  - destruct t as [c| |]; cbn [exec commands].
    + destruct skip.
      * destruct (IH true st) as (more & Hr & Hi & He). exists more.
        repeat split; [assumption|now apply incl_tl|]. intros Hn. apply He. intros Hin.
        apply Hn. now right.
      * destruct (String.eqb c exit_cmd) eqn:E1; [|destruct (String.eqb c capture_cmd) eqn:E2].
        -- exists [c]. cbn [snd ran EXIT_CODE]. repeat split.
           intros x [<-|[]]. now left.
        -- destruct (IH false (mkSt 0 (Some (last_status st)) (ran st ++ [c])))
             as (more & Hr & Hi & He).
           exists (c :: more). rewrite Hr. cbn [ran]. rewrite <- app_assoc.
           repeat split; [now apply incl_same_head|]. intros Hn. exfalso. apply Hn. left.
           now apply String.eqb_eq in E2.
        -- destruct (IH false (mkSt (status c) (EXIT_CODE st) (ran st ++ [c])))
             as (more & Hr & Hi & He).
           exists (c :: more). rewrite Hr. cbn [ran]. rewrite <- app_assoc.
           repeat split; [now apply incl_same_head|]. intros Hn.
           rewrite He; [reflexivity|]. intros Hin. apply Hn. now right.
    + apply IH.
    + apply IH.
Qed.

End Exec.
End ShellProperties.

(** ** The script the orchestrator builds, run by the shell *)

Module ScriptProperties.
Import Shell ShellTrace ShellProperties.

Section Script.
Context `{Host}.

Abbreviation and_then := (fun c : string => [AndIf; Cmd c]).
Abbreviation and_next := (fun c : string => [Semi; Cmd c]).

Lemma planned_is_plain jailPath rc wc m :
  PlannedMount jailPath rc wc m -> plain m = true.
Proof. destruct 1; reflexivity. Qed.

Lemma assemble_lists params w acc jailCmd jailPath w' :
  assemble params w = Ok (acc, jailCmd, jailPath) w' ->
  exists acc0 w1 w2,
    generateJailFilesystemConfig jailPath (readConfig params) (writeConfig params) w1
      = Ok acc0 w2 /\
    (acc = acc0 \/ exists hp sp, acc = bind_sockets jailPath hp sp acc0).
Proof.
  unfold assemble. intros Hr.
  apply bind_Ok in Hr as ([[jailName jailPath'] acc0] & w2 & Hsetup & Hr).
  destruct (jail_setup_Ok _ _ _ _ _ _ Hsetup) as (-> & -> & u & w1 & Hmk & Hgen).
  apply bind_Ok in Hr as ([jailArgs acc'] & w4 & Hnet & Hret).
  destruct (jail_command params) as [jailCommand envArgs].
  inversion Hret; subst. clear Hret.
  exists acc0, w1, w2. split; [exact Hgen|].
  unfold network_configuration in Hnet.
  destruct (hasNetworkRestrictions params); [|inversion Hnet; subst; now left].
  destruct (truthy (httpSocketPath params)) as [hp|]; [|discriminate Hnet].
  destruct (truthy (socksSocketPath params)) as [sp|]; [|discriminate Hnet].
  apply bind_Ok in Hnet as (u1 & w5 & Hmk1 & Hnet).
  apply bind_Ok in Hnet as (u2 & w6 & Hmk2 & Hret).
  inversion Hret; subst. right. eauto.
Qed.

(** The commands of the lists are external commands, and there is one
    unmount per mount. *)
Lemma assemble_commands_plain params w acc jailCmd jailPath w' :
  assemble params w = Ok (acc, jailCmd, jailPath) w' ->
  Forall (fun c => plain c = true) (mounts acc) /\
  Forall (fun c => plain c = true) (unmounts acc) /\
  length (mounts acc) = length (unmounts acc).
Proof.
  intros Hr. apply assemble_lists in Hr as (acc0 & w1 & w2 & Hgen & Hacc).
  pose proof (planner_mounts_only_what_is_asked _ _ _ _ _ _ Hgen) as Hm.
  destruct (planner_unmounts_are_umounts _ _ _ _ _ _ Hgen) as (ts & F & Hu).
  assert (Forall (fun c => plain c = true) (mounts acc0)) as Pm
    by (eapply Forall_impl; [exact Hm|]; intros m; apply planned_is_plain).
  assert (Forall (fun c => plain c = true) (unmounts acc0)) as Pu.
  { rewrite Hu. apply Forall_forall. intros c Hc. apply list_elem_of_In, in_map_iff in Hc
      as (t & <- & _). reflexivity. }
  assert (length (mounts acc0) = length (unmounts acc0)) as Hl
    by (rewrite Hu, length_map; exact F).
  destruct Hacc as [->|(hp & sp & ->)]; [auto|].
  destruct (bind_sockets_lists jailPath hp sp acc0) as [-> ->].
  repeat split.
  - apply Forall_app. split; [assumption|]. repeat constructor.
  - repeat constructor. assumption.
  - rewrite length_app. simpl. lia.
Qed.

Lemma no_empty_in_chain sep cs :
  is_empty_cmd sep = false ->
  Forall (fun c => plain c = true) cs ->
  existsb is_empty_cmd (flat_map (fun d => [sep; Cmd d]) cs) = false.
Proof.
  intros Hsep. induction 1 as [|c cs Hc _ IH]; [reflexivity|].
  cbn [flat_map app existsb]. rewrite Hsep, IH.
  change (is_empty_cmd (Cmd c)) with (String.eqb c "").
  destruct (plain_inv c Hc) as (-> & _). reflexivity.
Qed.

Lemma no_empty_command m ms u us jailCmd jailPath :
  Forall (fun c => plain c = true) (m :: ms) ->
  Forall (fun c => plain c = true) (u :: us) ->
  plain jailCmd = true ->
  existsb is_empty_cmd (wrapper_tokens (mkLists (m :: ms) (u :: us)) jailCmd jailPath) = false.
Proof.
  intros Pm Pu Pj. inversion Pm; subst. inversion Pu; subst.
  unfold wrapper_tokens, joined. cbn [mounts unmounts]. rewrite !sep_by_cons.
  rewrite !existsb_app. cbn [existsb is_empty_cmd].
  rewrite !no_empty_in_chain by (assumption || reflexivity).
  destruct (plain_inv m ltac:(assumption)) as (-> & _).
  destruct (plain_inv u ltac:(assumption)) as (-> & _).
  destruct (plain_inv jailCmd Pj) as (-> & _). reflexivity.
Qed.

Lemma exec_capture status rest st :
  exec status (Cmd capture_cmd :: rest) false st
  = exec status rest false (mkSt 0 (Some (last_status st)) (ran st ++ [capture_cmd])).
Proof. reflexivity. Qed.

Lemma exec_exit status rest st :
  exec status (Cmd exit_cmd :: rest) false st
  = (default (last_status st) (EXIT_CODE st),
     mkSt (last_status st) (EXIT_CODE st) (ran st ++ [exit_cmd])).
Proof. reflexivity. Qed.

Lemma rm_is_plain jailPath : plain (rm_cmd jailPath) = true.
Proof. reflexivity. Qed.

(** X19: the script of a restricted command whose mount, unmount and
    removal commands are made of letters, digits, spaces and [/ . _ - + , : @]
    only, so that the shell takes each of them as one simple command, as
    the token model does (a path with an operator, a quote or an expansion
    in it is interpolated unquoted and is outside this statement), and
    whose jail invocation is a line of quoted words.  When
    every mount succeeds, the jail exits with status 0, and the last
    unmount and the removal of the jail root succeed: every command of the
    script runs, in order, also when earlier unmounts fail; the captured
    status is 0 and the script exits with it. *)
Theorem script_runs_to_the_end params w acc jailCmd jailPath w' (status : string -> Z) :
  assemble params w = Ok (acc, jailCmd, jailPath) w' ->
  forallb simple_words (mounts acc) = true ->
  forallb simple_words (unmounts acc) = true ->
  simple_words (rm_cmd jailPath) = true ->
  quoted_words jailCmd = true ->
  plain jailCmd = true ->
  mounts acc <> [] ->
  Forall (fun m => status m = 0) (mounts acc) ->
  status jailCmd = 0 ->
  status (List.last (unmounts acc) "") = 0 ->
  status (rm_cmd jailPath) = 0 ->
  sh status (wrapper_tokens acc jailCmd jailPath)
  = (0, mkSt 0 (Some 0)
          (mounts acc ++ [jailCmd; capture_cmd] ++ unmounts acc
             ++ [rm_cmd jailPath; exit_cmd])).
Proof.
  intros Hasm _ _ _ _ Pj Hne Hms Hj Hlast Hrm.
  destruct (assemble_commands_plain _ _ _ _ _ _ Hasm) as (Pm & Pu & Hlen).
  destruct acc as [[|m ms] [|u us]]; cbn [mounts unmounts] in *;
    try congruence; try discriminate Hlen.
  unfold sh. rewrite no_empty_command by assumption.
  unfold wrapper_tokens, joined. cbn [mounts unmounts]. rewrite !sep_by_cons.
  inversion Pm as [|? ? Pm1 Pms]; subst. inversion Hms as [|? ? Hm1 Hms']; subst.
  cbn [app]. rewrite exec_plain by assumption.
  rewrite exec_and_chain; cycle 1.
  { exact Hm1. }
  { clear - Pms Hms'. induction ms as [|x ms IH]; [constructor|].
    inversion Pms; inversion Hms'; subst. constructor; auto. }
  cbn [app EXIT_CODE ran initial].
  rewrite exec_and. cbn [last_status Z.eqb negb].
  rewrite exec_plain by assumption. rewrite exec_and, Hj. cbn [last_status Z.eqb negb].
  rewrite exec_capture, exec_and. cbn [last_status Z.eqb negb EXIT_CODE ran].
  rewrite exec_semi_chain by assumption.
  rewrite exec_and. cbn [last_status EXIT_CODE ran].
  rewrite <- (last_cons us "" u), Hlast. cbn [Z.eqb negb].
  rewrite exec_plain by apply rm_is_plain.
  rewrite exec_and, Hrm. cbn [last_status Z.eqb negb].
  rewrite exec_exit. cbn [last_status EXIT_CODE ran default].
  f_equal. f_equal. repeat (rewrite <- app_assoc; cbn [app]). reflexivity.
Qed.

(** X20: the script of a restricted command whose mount, unmount and
    removal commands are made of letters, digits, spaces and [/ . _ - + , : @]
    only, so that the shell takes each of them as one simple command, as
    the token model does, and whose jail invocation is a line of quoted
    words.  When a mount fails, the mounts before it and the
    failing mount are all that runs of the setup.  The jail is not started
    and no exit status is captured; of the rest of the script only unmounts
    after the first, the removal of the jail root and the final [exit] can
    still run. *)
Theorem failed_mount_stops_the_jail params w acc jailCmd jailPath w'
    (status : string -> Z) (before after : list string) (m : string) :
  assemble params w = Ok (acc, jailCmd, jailPath) w' ->
  forallb simple_words (mounts acc) = true ->
  forallb simple_words (unmounts acc) = true ->
  simple_words (rm_cmd jailPath) = true ->
  quoted_words jailCmd = true ->
  plain jailCmd = true ->
  mounts acc = before ++ m :: after ->
  Forall (fun c => status c = 0) before ->
  status m <> 0 ->
  EXIT_CODE (snd (sh status (wrapper_tokens acc jailCmd jailPath))) = None /\
  exists more,
    ran (snd (sh status (wrapper_tokens acc jailCmd jailPath))) = before ++ [m] ++ more /\
    incl more (tail (unmounts acc) ++ [rm_cmd jailPath; exit_cmd]).
Proof.
  intros Hasm _ _ _ _ Pj Hsplit Hbefore Hfail.
  destruct (assemble_commands_plain _ _ _ _ _ _ Hasm) as (Pm & Pu & Hlen).
  destruct acc as [ms [|u us]]; cbn [mounts unmounts] in *;
    [subst ms; rewrite length_app in Hlen; simpl in Hlen; lia|].
  assert (exists m1 ms', ms = m1 :: ms') as (m1 & ms' & Ems)
    by (subst ms; destruct before; simpl; eauto).
  set (st1 := mkSt (status m) None (before ++ [m])).
  set (tail4 := [AndIf; Cmd (rm_cmd jailPath); AndIf; Cmd exit_cmd]).
  assert (sh status (wrapper_tokens (mkLists ms (u :: us)) jailCmd jailPath)
          = exec status (flat_map and_next us ++ tail4) true st1) as ->.
  { unfold sh.
    assert (existsb is_empty_cmd (wrapper_tokens (mkLists ms (u :: us)) jailCmd jailPath)
            = false) as -> by (rewrite Ems; apply no_empty_command; try rewrite <- Ems; assumption).
    unfold wrapper_tokens, joined. cbn [mounts unmounts].
    replace (match ms with [] => [Cmd ""] | _ :: _ => sep_by AndIf ms end)
      with (sep_by AndIf ms) by (now rewrite Ems).
    rewrite (sep_by_cons Semi u us).
    (* the mounts up to the failing one *)
    assert (forall rest st,
               exec status (sep_by AndIf ms ++ rest) false st
               = exec status (flat_map and_then after ++ rest) false
                   (mkSt (status m) (EXIT_CODE st) (ran st ++ before ++ [m]))) as Hrun.
    { subst ms. clear - Pm Hbefore. revert Pm Hbefore.
      induction before as [|b before IH]; intros Pm Hb rest st.
      - cbn [app] in *. rewrite sep_by_cons. inversion Pm; subst.
        cbn [app]. now rewrite exec_plain by assumption.
      - inversion Pm as [|? ? Pb Pm']; subst. inversion Hb as [|? ? Hb0 Hb']; subst.
        change ((b :: before) ++ m :: after) with (b :: (before ++ m :: after)).
        assert (exists x xs, before ++ m :: after = x :: xs) as (x & xs & E)
          by (destruct before; simpl; eauto).
        rewrite E.
        change (sep_by AndIf (b :: x :: xs)) with (Cmd b :: AndIf :: sep_by AndIf (x :: xs)).
        rewrite <- E. cbn [app]. rewrite exec_plain by assumption.
        rewrite exec_and, Hb0. cbn [last_status Z.eqb negb].
        rewrite IH by assumption.
        cbn [EXIT_CODE ran]. now rewrite <- app_assoc. }
    rewrite Hrun. cbn [EXIT_CODE ran initial app]. fold st1.
    (* everything up to the first [;] is skipped *)
    assert (exists chain,
               forallb no_semi chain = true /\
               flat_map and_then after
                 ++ [AndIf; Cmd jailCmd; AndIf; Cmd capture_cmd; AndIf]
                 ++ (Cmd u :: flat_map and_next us) ++ tail4
               = AndIf :: chain ++ flat_map and_next us ++ tail4) as (chain & Hchain & E).
    { exists (tail (flat_map and_then after
                      ++ [AndIf; Cmd jailCmd; AndIf; Cmd capture_cmd; AndIf; Cmd u])).
      split.
      - clear. induction after as [|a after IH]; [reflexivity|].
        cbn [flat_map app tail forallb no_semi andb].
        destruct after; [reflexivity|exact IH].
      - destruct after; cbn [flat_map app tail]; rewrite <- ?app_assoc; reflexivity. }
    cbn [app] in E. cbn [app].
    change [AndIf; Cmd (rm_cmd jailPath); AndIf; Cmd exit_cmd] with tail4.
    rewrite E.
    rewrite exec_and. cbn [last_status st1].
    rewrite (proj2 (Z.eqb_neq _ _) Hfail). cbn [negb].
    now rewrite exec_skips_chain by assumption. }
  destruct (exec_runs_its_own status (flat_map and_next us ++ tail4) true st1)
    as (more & Hran & Hincl & Hexit).
  assert (commands (flat_map and_next us ++ tail4) = us ++ [rm_cmd jailPath; exit_cmd]) as Ecmds.
  { clear. induction us as [|x us IH]; [reflexivity|].
    cbn [flat_map app commands]. now rewrite IH. }
  rewrite Ecmds in Hincl, Hexit. split.
  - rewrite Hexit; [reflexivity|]. intros Hin. apply in_app_or in Hin as [Hin|Hin].
    + inversion Pu as [|? ? _ Pus]; subst.
      rewrite Forall_forall in Pus. specialize (Pus capture_cmd (proj2 (list_elem_of_In _ _) Hin)).
      discriminate Pus.
    + destruct Hin as [E|[E|[]]]; discriminate E.
  - exists more. rewrite Hran. cbn [ran st1 tail]. rewrite <- app_assoc.
    split; [reflexivity|assumption].
Qed.

End Script.
End ScriptProperties.

(** ** The further properties at concrete inputs *)

Module MoreRuns.
Import Sample Inputs MoreInputs.
Import Bridge.

Lemma bridge_ready_at_witness :
  let h := "/tmp/claude-http-0011223344556677.sock" in
  let s := "/tmp/claude-socks-0011223344556677.sock" in
  initializeFreeBSDNetworkBridge (H := sample_host) 8080 1081 sockets_at_third_attempt =
    ([ Spawn "socat"
         [ "UNIX-LISTEN:/tmp/claude-http-0011223344556677.sock,fork,reuseaddr";
           "TCP:localhost:8080,keepalive,keepidle=10,keepintvl=5,keepcnt=3" ];
       Spawn "socat"
         [ "UNIX-LISTEN:/tmp/claude-socks-0011223344556677.sock,fork,reuseaddr";
           "TCP:localhost:1081,keepalive,keepidle=10,keepintvl=5,keepcnt=3" ];
       CheckAlive 0; ExistsSync 0 h; Sleep 0;
       CheckAlive 1; ExistsSync 1 h; Sleep 100;
       CheckAlive 2; ExistsSync 2 h; ExistsSync 2 s ],
     Resolved {| ctx_httpSocketPath := h;
                 ctx_socksSocketPath := s;
                 ctx_httpBridgePid := Some 4001;
                 ctx_socksBridgePid := Some 4002;
                 ctx_httpProxyPort := 8080;
                 ctx_socksProxyPort := 1081 |}).
Proof.
  refine (BridgeProperties.bridge_ready_at (H := sample_host) 8080 1081
            sockets_at_third_attempt 4001 4002 2 _ _ _ _ _ _ _ _ _).
  - reflexivity.
  - lia.
  - reflexivity.
  - lia.
  - unfold maxAttempts. lia.
  - intros k _. split; reflexivity.
  - intros k Hk. left. destruct k as [|[|k]]; [reflexivity|reflexivity|lia].
  - reflexivity.
  - reflexivity.
Defined.

Lemma resolved_means_ready_witness :
  existsb BridgeTrace.is_kill
    (fst (initializeFreeBSDNetworkBridge (H := sample_host) 8080 1081 sockets_at_third_attempt))
    = false /\
  exists j, (j < maxAttempts)%nat /\ died sockets_at_third_attempt j = false /\
            fileExists sockets_at_third_attempt j "/tmp/claude-http-0011223344556677.sock" = true /\
            fileExists sockets_at_third_attempt j "/tmp/claude-socks-0011223344556677.sock" = true.
Proof.
  destruct (BridgeProperties.resolved_means_ready (H := sample_host) 8080 1081
              sockets_at_third_attempt
              (fst (initializeFreeBSDNetworkBridge (H := sample_host) 8080 1081
                      sockets_at_third_attempt))
              {| ctx_httpSocketPath := "/tmp/claude-http-0011223344556677.sock";
                 ctx_socksSocketPath := "/tmp/claude-socks-0011223344556677.sock";
                 ctx_httpBridgePid := Some 4001;
                 ctx_socksBridgePid := Some 4002;
                 ctx_httpProxyPort := 8080;
                 ctx_socksProxyPort := 1081 |})
    as (Hk & _ & _ & Hj).
  - vm_compute. reflexivity.
  - split; [exact Hk|exact Hj].
Defined.

Lemma planner_creates_essential_dirs_witness :
  is_Some (fs (final (planned None None)) !! "/tmp/sbx_0011223344556677/var/tmp").
Proof.
  refine (planner_creates_essential_dirs jail_root None None sample_world
            (lists_of (planned None None)) (final (planned None None)) "/var/tmp" _ _).
  - vm_compute. reflexivity.
  - simpl. auto.
Defined.

Lemma plan_without_policy_witness :
  exists chosen,
    sublist chosen (essentialMounts jail_root) /\
    (forall m, In m (essentialMounts jail_root) ->
       is_Some (fs sample_world !! src m) -> In m chosen) /\
    mounts (lists_of (planned None None))
      = map essential_mount_cmd chosen
          ++ ["mount_nullfs /home/user/project /tmp/sbx_0011223344556677/home/user/project"] /\
    unmounts (lists_of (planned None None))
      = map (fun m => umount_cmd (dst m)) chosen
          ++ ["umount /tmp/sbx_0011223344556677/home/user/project"].
Proof.
  refine (plan_without_policy jail_root sample_world
            (lists_of (planned None None)) (final (planned None None)) _).
  vm_compute. reflexivity.
Defined.

Lemma planner_mounts_only_what_is_asked_witness :
  Forall (PlannedMount jail_root (Some (hide project_env)) (Some write_project))
    (mounts (lists_of (planned (Some (hide project_env)) (Some write_project)))).
Proof.
  refine (planner_mounts_only_what_is_asked jail_root _ _ sample_world _
            (final (planned (Some (hide project_env)) (Some write_project))) _).
  vm_compute. reflexivity.
Defined.

Lemma planner_mount_count_witness :
  (length (mounts (lists_of (planned (Some (hide project_env)) (Some write_project))))
   <= 6 + 2 + 1)%nat.
Proof.
  refine (planner_mount_count jail_root (Some (hide project_env)) (Some write_project)
            sample_world _
            (final (planned (Some (hide project_env)) (Some write_project))) _).
  vm_compute. reflexivity.
Defined.

Lemma orchestrator_keeps_host_witness :
  exists n',
    fs (final (wrapCommandWithSandboxFreeBSD fs_only sample_world)) !! project_env = Some n' /\
    is_dir n' = false.
Proof.
  refine (orchestrator_keeps_host fs_only sample_world project_env (File "SECRET=1") _).
  vm_compute. reflexivity.
Defined.

Lemma jail_root_is_created_witness :
  is_Some (fs (final (wrapCommandWithSandboxFreeBSD fs_only sample_world)) !! jail_root) /\
  forall dir, In dir essentialDirs ->
    is_Some (fs (final (wrapCommandWithSandboxFreeBSD fs_only sample_world))
               !! join jail_root dir).
Proof.
  refine (jail_root_is_created fs_only sample_world (script_for fs_only)
            (final (wrapCommandWithSandboxFreeBSD fs_only sample_world)) _ _).
  - reflexivity.
  - vm_compute. reflexivity.
Defined.

Lemma jail_invocation_without_network_witness :
  exists acc w1,
    generateJailFilesystemConfig jail_root None None w1
      = Ok acc (final (wrapCommandWithSandboxFreeBSD fs_only sample_world)) /\
    script_for fs_only = "sh -c " +:+ shellquote_quote
      [wrapperScript acc
         (shellquote_quote
            ["jail"; "-c"; "name=sbx_0011223344556677"; "path=/tmp/sbx_0011223344556677";
             "host.hostname=sbx_0011223344556677";
             "ip4=inherit"; "ip6=inherit";
             "persist=0"; "allow.mount=0"; "allow.set_hostname=0"; "allow.sysvipc=0";
             "command=sh -c 'make test'"])
         jail_root].
Proof.
  refine (jail_invocation_without_network fs_only sample_world (script_for fs_only)
            (final (wrapCommandWithSandboxFreeBSD fs_only sample_world)) _ _ _).
  - reflexivity.
  - reflexivity.
  - vm_compute. reflexivity.
Defined.


(** The first unmount fails; the cleanup goes on and the script exits 0. *)
Lemma script_runs_to_the_end_witness :
  Shell.sh first_unmount_fails
    (Shell.wrapper_tokens (fst (fst assembled)) (snd (fst assembled)) (snd assembled))
  = (0, Shell.mkSt 0 (Some 0)
          (mounts (fst (fst assembled))
             ++ [snd (fst assembled); capture_cmd]
             ++ unmounts (fst (fst assembled))
             ++ [rm_cmd (snd assembled); exit_cmd])).
Proof.
  refine (ScriptProperties.script_runs_to_the_end fs_only sample_world
            (fst (fst assembled)) (snd (fst assembled)) (snd assembled)
            (final (assemble fs_only sample_world)) first_unmount_fails _ _ _ _ _ _ _ _ _ _ _).
  - vm_compute. reflexivity.
  - vm_compute. reflexivity.
  - vm_compute. reflexivity.
  - vm_compute. reflexivity.
  - vm_compute. reflexivity.
  - vm_compute. reflexivity.
  - vm_compute. discriminate.
  - vm_compute. repeat constructor.
  - vm_compute. reflexivity.
  - vm_compute. reflexivity.
  - vm_compute. reflexivity.
Defined.

(** The second mount fails: the jail is not started. *)
Lemma failed_mount_stops_the_jail_witness :
  Shell.EXIT_CODE
    (snd (Shell.sh usr_mount_fails
            (Shell.wrapper_tokens (fst (fst assembled)) (snd (fst assembled)) (snd assembled))))
    = None /\
  exists more,
    Shell.ran
      (snd (Shell.sh usr_mount_fails
              (Shell.wrapper_tokens (fst (fst assembled)) (snd (fst assembled)) (snd assembled))))
    = ["mount_nullfs  /dev /tmp/sbx_0011223344556677/dev"]
        ++ ["mount_nullfs -o ro /usr /tmp/sbx_0011223344556677/usr"] ++ more /\
    incl more (tail (unmounts (fst (fst assembled))) ++ [rm_cmd (snd assembled); exit_cmd]).
Proof.
  refine (ScriptProperties.failed_mount_stops_the_jail fs_only sample_world
            (fst (fst assembled)) (snd (fst assembled)) (snd assembled)
            (final (assemble fs_only sample_world)) usr_mount_fails
            ["mount_nullfs  /dev /tmp/sbx_0011223344556677/dev"]
            (skipn 2 (mounts (fst (fst assembled))))
            "mount_nullfs -o ro /usr /tmp/sbx_0011223344556677/usr" _ _ _ _ _ _ _ _ _).
  - vm_compute. reflexivity.
  - vm_compute. reflexivity.
  - vm_compute. reflexivity.
  - vm_compute. reflexivity.
  - vm_compute. reflexivity.
  - vm_compute. reflexivity.
  - vm_compute. reflexivity.
  - vm_compute. repeat constructor.
  - vm_compute. discriminate.
Defined.

End MoreRuns.

(** ** A bridge that exits, and a mount point mounted twice *)

Module LaterRuns.
Import Sample Inputs MoreInputs Bridge.

(** While the liveness test passes, the loop never ends with the
    bridge-died error. *)
Lemma poll_never_reports_death tl h s : forall remaining i,
  (forall k, died tl k = false) ->
  snd (poll tl h s remaining i) <> Some BridgeProcessDied.
Proof.
  induction remaining as [|r IH]; intros i Halive; cbn [poll]; [discriminate|].
  rewrite Halive.
  destruct (sockets_ready tl i h s) as [checks ready]. destruct ready; [discriminate|].
  destruct (i =? maxAttempts - 1)%nat; [vm_compute; discriminate|].
  specialize (IH (S i) Halive).
  destruct (poll tl h s r (S i)) as [later res]. exact IH.
Qed.

(** Whatever exits during a run, and whenever it does, the call never
    fails with the bridge-died error: the handles show nothing of it. *)
Lemma exit_is_never_reported `{Host} (httpProxyPort socksProxyPort : Z)
    (r : BridgeRuns.BridgeRun) :
  snd (initializeFreeBSDNetworkBridge httpProxyPort socksProxyPort (BridgeRuns.observed r))
    <> Rejected BridgeProcessDied.
Proof.
  unfold initializeFreeBSDNetworkBridge.
  destruct (pid_truthy (httpPid (BridgeRuns.observed r))) eqn:Eh; cbn [negb];
    [|vm_compute; discriminate].
  destruct (pid_truthy (socksPid (BridgeRuns.observed r))) eqn:Es; cbn [negb];
    [|cbn [snd]; vm_compute; discriminate].
  pose proof (poll_never_reports_death (BridgeRuns.observed r)
                (http_socket_path (BridgeRuns.observed r))
                (socks_socket_path (BridgeRuns.observed r)) maxAttempts 0) as Hp.
  destruct (poll (BridgeRuns.observed r) (http_socket_path (BridgeRuns.observed r))
              (socks_socket_path (BridgeRuns.observed r)) maxAttempts 0) as [events thrown].
  cbn [snd] in *. destruct thrown as [msg|]; [|discriminate].
  intros E. apply Hp.
  - intros k. unfold died. rewrite Eh, Es. reflexivity.
  - now inversion E.
Qed.

(** C7: both bridges are spawned, the HTTP bridge exits before the first
    attempt and no socket file ever appears.  The handle of the bridge that
    is gone still has its pid and is not marked killed, so the liveness
    test of the loop passes at every attempt.  The call does not fail at
    once with the bridge-died error: it makes all five attempts, sleeps
    0, 100, 200 and 300 ms between them, sends SIGTERM to both process
    identifiers and fails with the bridge-not-ready error. *)
Theorem C7_exited_bridge_is_polled_to_the_end :
  let h := "/tmp/claude-http-0011223344556677.sock" in
  let tl := BridgeRuns.observed http_exits_at_once in
  (forall i, BridgeRuns.httpExited http_exits_at_once i = true) /\
  (forall i, died tl i = false) /\
  initializeFreeBSDNetworkBridge (H := sample_host) 8080 1081 tl =
    ([ Spawn "socat"
         [ "UNIX-LISTEN:/tmp/claude-http-0011223344556677.sock,fork,reuseaddr";
           "TCP:localhost:8080,keepalive,keepidle=10,keepintvl=5,keepcnt=3" ];
       Spawn "socat"
         [ "UNIX-LISTEN:/tmp/claude-socks-0011223344556677.sock,fork,reuseaddr";
           "TCP:localhost:1081,keepalive,keepidle=10,keepintvl=5,keepcnt=3" ];
       CheckAlive 0; ExistsSync 0 h; Sleep 0;
       CheckAlive 1; ExistsSync 1 h; Sleep 100;
       CheckAlive 2; ExistsSync 2 h; Sleep 200;
       CheckAlive 3; ExistsSync 3 h; Sleep 300;
       CheckAlive 4; ExistsSync 4 h;
       Kill 4001 "SIGTERM"; Kill 4002 "SIGTERM" ],
     Rejected BridgeNotReady) /\
  BridgeNotReady <> BridgeProcessDied.
Proof.
  intros h tl. split; [intros i; reflexivity|].
  split; [intros i; reflexivity|].
  split; [vm_compute; reflexivity|].
  vm_compute. discriminate.
Qed.

(** The read policy hides [/etc], which the planner has already bound
    read-only as an essential directory: the mount point [<jail>/etc] is
    mounted twice and its unmount is in the list twice, so the invariant as
    the specification words it fails for the essential mount of [/etc]. *)
Lemma C10_counterexample_mount_point_unmounted_twice :
  let rc := Some (hide "/etc") in
  let acc := lists_of (planned rc None) in
  let m := "mount_nullfs -o ro /etc /tmp/sbx_0011223344556677/etc" in
  let u := "umount /tmp/sbx_0011223344556677/etc" in
  planned rc None = Ok acc (final (planned rc None)) /\
  In m (mounts acc) /\
  In "mount -t tmpfs tmpfs /tmp/sbx_0011223344556677/etc" (mounts acc) /\
  PlannedPair jail_root rc None m u /\
  count_occ String.string_dec (unmounts acc) u = 2%nat /\
  ~ one_unmount_per_mount (PlannedPair jail_root rc None) acc.
Proof.
  intros rc acc m u.
  assert (In m (mounts acc)) as Hin by (vm_compute; tauto).
  assert (PlannedPair jail_root rc None m u) as Hpair.
  { pose (etc := {| src := "/etc"; dst := join (Host := sample_host) jail_root "etc"; mode := ro |}).
    change m with (essential_mount_cmd etc).
    change u with (umount_cmd (dst etc)).
    apply pair_essential. do 5 right. left. reflexivity. }
  assert (count_occ String.string_dec (unmounts acc) u = 2%nat) as Hcount
    by (vm_compute; reflexivity).
  split; [vm_compute; reflexivity|].
  split; [exact Hin|].
  split; [vm_compute; tauto|].
  split; [exact Hpair|].
  split; [exact Hcount|].
  intros [_ Hone]. specialize (Hone m u Hin Hpair). rewrite Hcount in Hone. discriminate Hone.
Qed.

Lemma C10_mounts_and_unmounts_pair_up_witness :
  let rc := Some (hide "/etc") in
  let acc := lists_of (planned rc None) in
  length (mounts acc) = length (unmounts acc) /\
  Forall2 (PlannedPair jail_root rc None) (mounts acc) (unmounts acc) /\
  forall hp sp,
    mounts (bind_sockets jail_root hp sp acc)
      = mounts acc ++ [rw_bind_cmd hp (join jail_root hp); rw_bind_cmd sp (join jail_root sp)] /\
    unmounts (bind_sockets jail_root hp sp acc)
      = umount_cmd (join jail_root sp) :: umount_cmd (join jail_root hp) :: unmounts acc /\
    length (mounts (bind_sockets jail_root hp sp acc))
      = length (unmounts (bind_sockets jail_root hp sp acc)).
Proof.
  refine (C10_mounts_and_unmounts_pair_up (H := sample_host) jail_root (Some (hide "/etc")) None
            sample_world (lists_of (planned (Some (hide "/etc")) None))
            (final (planned (Some (hide "/etc")) None)) _).
  vm_compute. reflexivity.
Defined.

End LaterRuns.

(** ** Platform detection *)

Module PlatformProperties.
Import PlatformDetection.

(** X21: [getPlatform] reports a known platform exactly for that
    platform's own identifier, compared as it is (no trimming, no case
    folding); every other identifier is [unknown].  In particular the
    FreeBSD sandbox is chosen for ["freebsd"] and nothing else. *)
Theorem known_platform_iff_its_identifier (process_platform : string) (p : Platform) :
  p <> unknown ->
  (getPlatform process_platform = p <-> node_name p = Some process_platform).
Proof.
  intros Hp. unfold getPlatform.
  destruct (String.eqb_spec process_platform "darwin") as [->|H1];
    [destruct p; simpl; split; congruence|].
  destruct (String.eqb_spec process_platform "linux") as [->|H2];
    [destruct p; simpl; split; congruence|].
  destruct (String.eqb_spec process_platform "freebsd") as [->|H3];
    [destruct p; simpl; split; congruence|].
  destruct (String.eqb_spec process_platform "win32") as [->|H4];
    [destruct p; simpl; split; congruence|].
  destruct p; simpl; split; congruence.
Qed.

Lemma known_platform_iff_its_identifier_witness :
  getPlatform "FreeBSD" = freebsd <-> node_name freebsd = Some "FreeBSD".
Proof. apply (known_platform_iff_its_identifier "FreeBSD" freebsd). discriminate. Defined.

End PlatformProperties.
